(** * MineRL environment session layer (minerl/env/core.py)

    A shallow embedding of [MineRLEnv]: the action and observation codecs,
    the episode descriptor set-up done by [init], and the protocol engine
    ([reset], [_start_up], [_peek_obs], [_quit_episode], [step], [status],
    [exit], [resync], [exit_resync]) as state-passing functions over an
    explicit session record and an explicit model of the network, the clock
    and the other collaborators of the class. *)

From Stdlib Require Import String Ascii List ZArith Bool Lia DecimalString.
Import ListNotations.
Set Warnings "-register-all".
Open Scope string_scope.
Open Scope Z_scope.

(** ** Exceptions and outcomes

    The Python exceptions the embedded code can raise.  [TransportError]
    stands for the I/O failures of the socket layer and of [minerl.env.comms];
    [LaunchError] for a failure of the instance manager. *)
Inductive exn : Type :=
| ValueError
| KeyError
| TypeError
| AttributeError
| AssertionError
| IndexError
| UnboundLocalError
| NotImplementedError
| StructError
| UnicodeDecodeError
| XMLSyntaxError
| FileNotFoundError
| TransportError
| LaunchError
| EnvException (message : string)
| MissionInitException (message : string).

(** A computation returns, raises, or is still running when its fuel is
    spent ([Diverge]: the [while] loops of the source have no bound). *)
Inductive outcome (A : Type) : Type :=
| Ret (a : A)
| Raise (e : exn)
| Diverge.
Arguments Ret {A} a.
Arguments Raise {A} e.
Arguments Diverge {A}.

Definition obind {A B : Type} (m : outcome A) (k : A -> outcome B) : outcome B :=
  match m with
  | Ret a => k a
  | Raise e => Raise e
  | Diverge => Diverge
  end.

Notation "'let!' x ':=' m 'in' k" := (obind m (fun x => k))
  (at level 10, x pattern, m at level 100, k at level 200).

Definition assert_ (b : bool) : outcome unit :=
  if b then Ret tt else Raise AssertionError.

(** ** Strings and sequences as Python has them *)

Definition nl : string := String (ascii_of_nat 10) EmptyString.

Definition str_of_Z (z : Z) : string := NilZero.string_of_int (Z.to_int z).

Definition str_in (s : string) (l : list string) : bool :=
  existsb (String.eqb s) l.

(** [seq[i]]: a negative index counts from the end, an index out of range
    raises [IndexError]. *)
Definition py_index {A : Type} (l : list A) (i : Z) : outcome A :=
  let n := Z.of_nat (length l) in
  let j := if i <? 0 then i + n else i in
  if (j <? 0) || (n <=? j) then Raise IndexError
  else match nth_error l (Z.to_nat j) with
       | Some a => Ret a
       | None => Raise IndexError
       end.

Fixpoint assoc {A : Type} (k : string) (d : list (string * A)) : option A :=
  match d with
  | [] => None
  | (k', v) :: r => if String.eqb k k' then Some v else assoc k r
  end.

(** [d[k] = v] on an insertion-ordered dict: an existing key keeps its
    place, a new key goes last. *)
Fixpoint assoc_set {A : Type} (k : string) (v : A) (d : list (string * A))
  : list (string * A) :=
  match d with
  | [] => [(k, v)]
  | (k', v') :: r =>
      if String.eqb k k' then (k', v) :: r else (k', v') :: assoc_set k v r
  end.

Definition keys {A : Type} (d : list (string * A)) : list string := map fst d.

(** ** Python values

    The values that travel through the codecs: JSON payloads, samples of
    spaces and action values.  [PArr] is a [numpy.ndarray] with its shape and
    its cells in row-major order; dict keys are strings; numeric cells and
    JSON numbers are integers. *)
Inductive pyval : Type :=
| PNone
| PBool (b : bool)
| PInt (z : Z)
| PStr (s : string)
| PArr (shape : list Z) (data : list Z)
| PList (items : list pyval)
| PDict (entries : list (string * pyval)).

(** ** Spaces ([gym.spaces] and [minerl.env.spaces])

    Modelled from the spec: the value-space variants of [gym.spaces] and
    [minerl.env.spaces], which are not part of this file: a continuous box,
    an enumeration with its declared [values], and a nested mapping. *)
Inductive space : Type :=
| Box (low high : Z) (shape : list Z)
| Enum (values : list string)
| Dict (spaces : list (string * space)).

Definition space_map : Type := list (string * space).

Definition is_Dict (sp : space) : bool :=
  match sp with Dict _ => true | _ => false end.

(** ** State and exceptions together

    [M S A]: a computation over a state [S] that returns, raises or runs out
    of fuel; the state reached is kept in every case, as the attributes of a
    Python object are when a method raises. *)
Definition M (S A : Type) : Type := S -> outcome A * S.

Definition ret {S A : Type} (a : A) : M S A := fun s => (Ret a, s).

Definition raise {S A : Type} (e : exn) : M S A := fun s => (Raise e, s).

Definition lift {S A : Type} (o : outcome A) : M S A := fun s => (o, s).

Definition bind {S A B : Type} (m : M S A) (k : A -> M S B) : M S B :=
  fun s =>
    match m s with
    | (Ret a, s') => k a s'
    | (Raise e, s') => (Raise e, s')
    | (Diverge, s') => (Diverge, s')
    end.

Definition get {S : Type} : M S S := fun s => (Ret s, s).

Definition modify {S : Type} (f : S -> S) : M S unit := fun s => (Ret tt, f s).

Notation "x <- m ;; k" := (bind m (fun x => k))
  (at level 100, m at next level, right associativity).
Notation "' p <- m ;; k" := (bind m (fun x => match x with p => k end))
  (at level 100, p pattern, m at next level, right associativity).
Notation "m ;; k" := (bind m (fun _ => k))
  (at level 100, right associativity).

(** ** Operations of Python objects the codecs rely on *)

Fixpoint bytes_of (s : string) : list Z :=
  match s with
  | EmptyString => []
  | String c r => Z.of_nat (nat_of_ascii c) :: bytes_of r
  end.

Fixpoint contains_substring (fuel : nat) (needle hay : string) : bool :=
  String.prefix needle hay ||
  match fuel, hay with
  | S fuel', String _ r => contains_substring fuel' needle r
  | _, _ => false
  end.

Definition pyval_is_str (s : string) (v : pyval) : bool :=
  match v with PStr s' => String.eqb s s' | _ => false end.

(** [key in container] for a string [key]. *)
Definition py_in (key : string) (container : pyval) : outcome bool :=
  match container with
  | PDict entries => Ret (match assoc key entries with Some _ => true | None => false end)
  | PList items => Ret (existsb (pyval_is_str key) items)
  | PStr s => Ret (contains_substring (String.length s) key s)
  | _ => Raise TypeError
  end.

(** [container[key]] for a string [key]. *)
Definition py_getitem (container : pyval) (key : string) : outcome pyval :=
  match container with
  | PDict entries =>
      match assoc key entries with
      | Some v => Ret v
      | None => Raise KeyError
      end
  | PArr _ _ => Raise IndexError
  | _ => Raise TypeError
  end.

(** [container[key] = v] for a string [key]. *)
Definition py_setitem (container : pyval) (key : string) (v : pyval)
  : outcome pyval :=
  match container with
  | PDict entries => Ret (PDict (assoc_set key v entries))
  | PArr _ _ => Raise IndexError
  | _ => Raise TypeError
  end.

Fixpoint chars_of (s : string) : list pyval :=
  match s with
  | EmptyString => []
  | String c r => PStr (String c EmptyString) :: chars_of r
  end.

(** [for x in v]. *)
Definition py_iter (v : pyval) : outcome (list pyval) :=
  match v with
  | PList items => Ret items
  | PDict entries => Ret (map PStr (keys entries))
  | PStr s => Ret (chars_of s)
  | PArr (_ :: _) data => Ret (map PInt data)
  | _ => Raise TypeError
  end.

(** [a + b] where [a] is an [int]. *)
Definition py_add (a b : pyval) : outcome pyval :=
  match a, b with
  | PInt x, PInt y => Ret (PInt (x + y))
  | PInt x, PBool y => Ret (PInt (x + (if y then 1 else 0)))
  | PInt x, PArr shape data => Ret (PArr shape (map (Z.add x) data))
  | _, _ => Raise TypeError
  end.

(** [v *= 0]. *)
Definition py_imul_zero (v : pyval) : outcome pyval :=
  match v with
  | PInt _ | PBool _ => Ret (PInt 0)
  | PStr _ => Ret (PStr "")
  | PList _ => Ret (PList [])
  | PArr shape data => Ret (PArr shape (map (fun _ => 0) data))
  | PNone | PDict _ => Raise TypeError
  end.

Definition product (shape : list Z) : Z := fold_right Z.mul 1 shape.

(** [np.zeros(shape, dtype=np.uint8)]. *)
Definition np_zeros (shape : list Z) : outcome pyval :=
  if existsb (fun d => d <? 0) shape then Raise ValueError
  else Ret (PArr shape (repeat 0 (Z.to_nat (product shape)))).

(** [buf.reshape((h, w, d))] of a flat buffer: the sizes must agree; one
    dimension may be [-1] and is then inferred. *)
Definition np_reshape (buf : list Z) (shape : list Z) : outcome pyval :=
  let n := Z.of_nat (length buf) in
  let unknown := filter (fun d => d =? -1) shape in
  let known := filter (fun d => negb (d =? -1)) shape in
  if existsb (fun d => d <? -1) shape then Raise ValueError
  else match unknown with
       | [] => if product shape =? n then Ret (PArr shape buf) else Raise ValueError
       | [_] =>
           let p := product known in
           if (p =? 0) || negb (n mod p =? 0) then Raise ValueError
           else Ret (PArr (map (fun d => if d =? -1 then n / p else d) shape) buf)
       | _ => Raise ValueError
       end.

(** ** Sampling a space

    Modelled from the spec: [sample()] of [gym.spaces] and of
    [minerl.env.spaces.Enum], which are not part of this file.  The generator
    is a tape of draws and a position on it; a box yields an array of its
    shape with each cell between its bounds, an enumeration the index of one
    of its values, a mapping the mapping of the samples of its fields, in
    their order. *)
Record rng : Type := { tape : nat -> Z; pos : nat }.

Definition draw : M rng Z :=
  fun g => (Ret (tape g (pos g)), {| tape := tape g; pos := S (pos g) |}).

Definition cell_between (low high r : Z) : Z :=
  if high <? low then low else low + r mod (high - low + 1).

Fixpoint draws (n : nat) : M rng (list Z) :=
  match n with
  | O => ret []
  | S n' => r <- draw ;; rs <- draws n' ;; ret (r :: rs)
  end.

Fixpoint sample (sp : space) : M rng pyval :=
  match sp with
  | Box low high shape =>
      if existsb (fun d => d <? 0) shape then raise ValueError
      else rs <- draws (Z.to_nat (product shape)) ;;
           ret (PArr shape (map (cell_between low high) rs))
  | Enum values =>
      match values with
      | [] => raise ValueError
      | _ => r <- draw ;; ret (PInt (r mod Z.of_nat (length values)))
      end
  | Dict spaces =>
      entries <-
        (fix sample_fields (fields : list (string * space))
           : M rng (list (string * pyval)) :=
           match fields with
           | [] => ret []
           | (k, sub) :: rest =>
               v <- sample sub ;;
               vs <- sample_fields rest ;;
               ret ((k, v) :: vs)
           end) spaces ;;
      ret (PDict entries)
  end.

(** ** Constants of the module; times are in milliseconds *)
Definition malmo_version : string := "0.37.0".
Definition ns : string := "{http://ProjectMalmo.microsoft.com}".
Definition MAX_WAIT : Z := 60 * 3 * 1000.

(** ** XML trees ([lxml.etree])

    An element has a tag (with its namespace in braces), attributes, a text
    and children; white-space text and tails are not represented. *)
Inductive element : Type :=
| Element (tag : string) (attrib : list (string * string))
          (text : option string) (children : list element).

Definition tag_of (e : element) : string :=
  match e with Element t _ _ _ => t end.
Definition attrib_of (e : element) : list (string * string) :=
  match e with Element _ a _ _ => a end.
Definition text_of (e : element) : option string :=
  match e with Element _ _ x _ => x end.
Definition children_of (e : element) : list element :=
  match e with Element _ _ _ c => c end.

Definition has_tag (t : string) (e : element) : bool := String.eqb t (tag_of e).

(** The elements below [e], in document order: what [.//] ranges over. *)
Fixpoint descendants (e : element) : list element :=
  match e with
  | Element _ _ _ cs =>
      (fix below (l : list element) : list element :=
         match l with
         | [] => []
         | c :: r => c :: descendants c ++ below r
         end) cs
  end.

(** [e.find(tag)]: the first child with that tag. *)
Definition find_child (t : string) (e : element) : option element :=
  find (has_tag t) (children_of e).

(** [e.find('.//' + tag)] and [e.findall('.//' + tag)]. *)
Definition find_below (t : string) (e : element) : option element :=
  find (has_tag t) (descendants e).
Definition findall_below (t : string) (e : element) : list element :=
  filter (has_tag t) (descendants e).

(** [e.insert(0, child)]. *)
Definition insert_first (child e : element) : element :=
  match e with Element t a x cs => Element t a x (child :: cs) end.

Fixpoint update_first (p : element -> bool) (f : element -> element)
         (l : list element) : option (list element) :=
  match l with
  | [] => None
  | c :: r =>
      if p c then Some (f c :: r)
      else match update_first p f r with
           | Some r' => Some (c :: r')
           | None => None
           end
  end.

Definition set_text (x : string) (e : element) : element :=
  match e with Element t a _ cs => Element t a (Some x) cs end.

Definition set_attrib (k v : string) (e : element) : element :=
  match e with Element t a x cs => Element t (assoc_set k v a) x cs end.

(** [e.find(tag).text = x]; [None] when [find] returns [None]. *)
Definition set_child_text (t x : string) (e : element) : option element :=
  match e with
  | Element t0 a x0 cs =>
      match update_first (has_tag t) (set_text x) cs with
      | Some cs' => Some (Element t0 a x0 cs')
      | None => None
      end
  end.

Definition set_child_attrib (t k v : string) (e : element) : option element :=
  match e with
  | Element t0 a x0 cs =>
      match update_first (has_tag t) (set_attrib k v) cs with
      | Some cs' => Some (Element t0 a x0 cs')
      | None => None
      end
  end.

Definition leaf (t x : string) : element := Element t [] (Some x) [].

(** The [MissionInit] document [init] parses from its literal. *)
Definition mission_init_skeleton : element :=
  Element (ns ++ "MissionInit")
    [("SchemaVersion", ""); ("PlatformVersion", malmo_version)] None
    [ Element (ns ++ "ExperimentUID") [] None [];
      leaf (ns ++ "ClientRole") "0";
      Element (ns ++ "ClientAgentConnection") [] None
        [ leaf (ns ++ "ClientIPAddress") "127.0.0.1";
          leaf (ns ++ "ClientMissionControlPort") "0";
          leaf (ns ++ "ClientCommandsPort") "0";
          leaf (ns ++ "AgentIPAddress") "127.0.0.1";
          leaf (ns ++ "AgentMissionControlPort") "0";
          leaf (ns ++ "AgentVideoPort") "0";
          leaf (ns ++ "AgentDepthPort") "0";
          leaf (ns ++ "AgentLuminancePort") "0";
          leaf (ns ++ "AgentObservationsPort") "0";
          leaf (ns ++ "AgentRewardsPort") "0";
          leaf (ns ++ "AgentColourMapPort") "0" ] ].

(** ** The session record: the attributes of [MineRLEnv] *)

Record Instance : Type := {
  host : string; port : Z;
  host2 : string; port2 : Z
}.

Record MineRLEnv : Type := {
  action_space : option space_map;
  observation_space : option space_map;
  default_action : option (list (string * pyval));
  xml : option element;
  integratedServerPort : Z;
  role : Z;
  agent_count : Z;
  resets : Z;
  client_socket : option nat;
  resync_period : Z;
  turn_key : string;
  exp_uid : string;
  done : bool;
  synchronous : bool;
  step_options : option Z;
  width : Z;
  height : Z;
  depth : Z;
  xml_file : string;
  has_init : bool;
  instance : option Instance
}.

(** [self.f = v], one definition for each attribute the methods assign. *)
Definition set_action_space (v : option space_map) (s : MineRLEnv) : MineRLEnv :=
  {| action_space := v; observation_space := observation_space s;
     default_action := default_action s; xml := xml s;
     integratedServerPort := integratedServerPort s; role := role s;
     agent_count := agent_count s; resets := resets s;
     client_socket := client_socket s; resync_period := resync_period s;
     turn_key := turn_key s; exp_uid := exp_uid s; done := done s;
     synchronous := synchronous s; step_options := step_options s;
     width := width s; height := height s; depth := depth s;
     xml_file := xml_file s; has_init := has_init s;
     instance := instance s |}.

Definition set_observation_space (v : option space_map) (s : MineRLEnv) : MineRLEnv :=
  {| action_space := action_space s; observation_space := v;
     default_action := default_action s; xml := xml s;
     integratedServerPort := integratedServerPort s; role := role s;
     agent_count := agent_count s; resets := resets s;
     client_socket := client_socket s; resync_period := resync_period s;
     turn_key := turn_key s; exp_uid := exp_uid s; done := done s;
     synchronous := synchronous s; step_options := step_options s;
     width := width s; height := height s; depth := depth s;
     xml_file := xml_file s; has_init := has_init s;
     instance := instance s |}.

Definition set_xml (v : option element) (s : MineRLEnv) : MineRLEnv :=
  {| action_space := action_space s;
     observation_space := observation_space s;
     default_action := default_action s; xml := v;
     integratedServerPort := integratedServerPort s; role := role s;
     agent_count := agent_count s; resets := resets s;
     client_socket := client_socket s; resync_period := resync_period s;
     turn_key := turn_key s; exp_uid := exp_uid s; done := done s;
     synchronous := synchronous s; step_options := step_options s;
     width := width s; height := height s; depth := depth s;
     xml_file := xml_file s; has_init := has_init s;
     instance := instance s |}.

Definition set_integratedServerPort (v : Z) (s : MineRLEnv) : MineRLEnv :=
  {| action_space := action_space s;
     observation_space := observation_space s;
     default_action := default_action s; xml := xml s;
     integratedServerPort := v; role := role s; agent_count := agent_count s;
     resets := resets s; client_socket := client_socket s;
     resync_period := resync_period s; turn_key := turn_key s;
     exp_uid := exp_uid s; done := done s; synchronous := synchronous s;
     step_options := step_options s; width := width s; height := height s;
     depth := depth s; xml_file := xml_file s; has_init := has_init s;
     instance := instance s |}.

Definition set_role (v : Z) (s : MineRLEnv) : MineRLEnv :=
  {| action_space := action_space s;
     observation_space := observation_space s;
     default_action := default_action s; xml := xml s;
     integratedServerPort := integratedServerPort s; role := v;
     agent_count := agent_count s; resets := resets s;
     client_socket := client_socket s; resync_period := resync_period s;
     turn_key := turn_key s; exp_uid := exp_uid s; done := done s;
     synchronous := synchronous s; step_options := step_options s;
     width := width s; height := height s; depth := depth s;
     xml_file := xml_file s; has_init := has_init s;
     instance := instance s |}.

Definition set_agent_count (v : Z) (s : MineRLEnv) : MineRLEnv :=
  {| action_space := action_space s;
     observation_space := observation_space s;
     default_action := default_action s; xml := xml s;
     integratedServerPort := integratedServerPort s; role := role s;
     agent_count := v; resets := resets s; client_socket := client_socket s;
     resync_period := resync_period s; turn_key := turn_key s;
     exp_uid := exp_uid s; done := done s; synchronous := synchronous s;
     step_options := step_options s; width := width s; height := height s;
     depth := depth s; xml_file := xml_file s; has_init := has_init s;
     instance := instance s |}.

Definition set_resets (v : Z) (s : MineRLEnv) : MineRLEnv :=
  {| action_space := action_space s;
     observation_space := observation_space s;
     default_action := default_action s; xml := xml s;
     integratedServerPort := integratedServerPort s; role := role s;
     agent_count := agent_count s; resets := v;
     client_socket := client_socket s; resync_period := resync_period s;
     turn_key := turn_key s; exp_uid := exp_uid s; done := done s;
     synchronous := synchronous s; step_options := step_options s;
     width := width s; height := height s; depth := depth s;
     xml_file := xml_file s; has_init := has_init s;
     instance := instance s |}.

Definition set_client_socket (v : option nat) (s : MineRLEnv) : MineRLEnv :=
  {| action_space := action_space s;
     observation_space := observation_space s;
     default_action := default_action s; xml := xml s;
     integratedServerPort := integratedServerPort s; role := role s;
     agent_count := agent_count s; resets := resets s; client_socket := v;
     resync_period := resync_period s; turn_key := turn_key s;
     exp_uid := exp_uid s; done := done s; synchronous := synchronous s;
     step_options := step_options s; width := width s; height := height s;
     depth := depth s; xml_file := xml_file s; has_init := has_init s;
     instance := instance s |}.

Definition set_resync_period (v : Z) (s : MineRLEnv) : MineRLEnv :=
  {| action_space := action_space s;
     observation_space := observation_space s;
     default_action := default_action s; xml := xml s;
     integratedServerPort := integratedServerPort s; role := role s;
     agent_count := agent_count s; resets := resets s;
     client_socket := client_socket s; resync_period := v;
     turn_key := turn_key s; exp_uid := exp_uid s; done := done s;
     synchronous := synchronous s; step_options := step_options s;
     width := width s; height := height s; depth := depth s;
     xml_file := xml_file s; has_init := has_init s;
     instance := instance s |}.

Definition set_turn_key (v : string) (s : MineRLEnv) : MineRLEnv :=
  {| action_space := action_space s;
     observation_space := observation_space s;
     default_action := default_action s; xml := xml s;
     integratedServerPort := integratedServerPort s; role := role s;
     agent_count := agent_count s; resets := resets s;
     client_socket := client_socket s; resync_period := resync_period s;
     turn_key := v; exp_uid := exp_uid s; done := done s;
     synchronous := synchronous s; step_options := step_options s;
     width := width s; height := height s; depth := depth s;
     xml_file := xml_file s; has_init := has_init s;
     instance := instance s |}.

Definition set_exp_uid (v : string) (s : MineRLEnv) : MineRLEnv :=
  {| action_space := action_space s;
     observation_space := observation_space s;
     default_action := default_action s; xml := xml s;
     integratedServerPort := integratedServerPort s; role := role s;
     agent_count := agent_count s; resets := resets s;
     client_socket := client_socket s; resync_period := resync_period s;
     turn_key := turn_key s; exp_uid := v; done := done s;
     synchronous := synchronous s; step_options := step_options s;
     width := width s; height := height s; depth := depth s;
     xml_file := xml_file s; has_init := has_init s;
     instance := instance s |}.

Definition set_done (v : bool) (s : MineRLEnv) : MineRLEnv :=
  {| action_space := action_space s;
     observation_space := observation_space s;
     default_action := default_action s; xml := xml s;
     integratedServerPort := integratedServerPort s; role := role s;
     agent_count := agent_count s; resets := resets s;
     client_socket := client_socket s; resync_period := resync_period s;
     turn_key := turn_key s; exp_uid := exp_uid s; done := v;
     synchronous := synchronous s; step_options := step_options s;
     width := width s; height := height s; depth := depth s;
     xml_file := xml_file s; has_init := has_init s;
     instance := instance s |}.

Definition set_step_options (v : option Z) (s : MineRLEnv) : MineRLEnv :=
  {| action_space := action_space s;
     observation_space := observation_space s;
     default_action := default_action s; xml := xml s;
     integratedServerPort := integratedServerPort s; role := role s;
     agent_count := agent_count s; resets := resets s;
     client_socket := client_socket s; resync_period := resync_period s;
     turn_key := turn_key s; exp_uid := exp_uid s; done := done s;
     synchronous := synchronous s; step_options := v; width := width s;
     height := height s; depth := depth s; xml_file := xml_file s;
     has_init := has_init s; instance := instance s |}.

Definition set_width (v : Z) (s : MineRLEnv) : MineRLEnv :=
  {| action_space := action_space s;
     observation_space := observation_space s;
     default_action := default_action s; xml := xml s;
     integratedServerPort := integratedServerPort s; role := role s;
     agent_count := agent_count s; resets := resets s;
     client_socket := client_socket s; resync_period := resync_period s;
     turn_key := turn_key s; exp_uid := exp_uid s; done := done s;
     synchronous := synchronous s; step_options := step_options s;
     width := v; height := height s; depth := depth s;
     xml_file := xml_file s; has_init := has_init s;
     instance := instance s |}.

Definition set_height (v : Z) (s : MineRLEnv) : MineRLEnv :=
  {| action_space := action_space s;
     observation_space := observation_space s;
     default_action := default_action s; xml := xml s;
     integratedServerPort := integratedServerPort s; role := role s;
     agent_count := agent_count s; resets := resets s;
     client_socket := client_socket s; resync_period := resync_period s;
     turn_key := turn_key s; exp_uid := exp_uid s; done := done s;
     synchronous := synchronous s; step_options := step_options s;
     width := width s; height := v; depth := depth s; xml_file := xml_file s;
     has_init := has_init s; instance := instance s |}.

Definition set_depth (v : Z) (s : MineRLEnv) : MineRLEnv :=
  {| action_space := action_space s;
     observation_space := observation_space s;
     default_action := default_action s; xml := xml s;
     integratedServerPort := integratedServerPort s; role := role s;
     agent_count := agent_count s; resets := resets s;
     client_socket := client_socket s; resync_period := resync_period s;
     turn_key := turn_key s; exp_uid := exp_uid s; done := done s;
     synchronous := synchronous s; step_options := step_options s;
     width := width s; height := height s; depth := v;
     xml_file := xml_file s; has_init := has_init s;
     instance := instance s |}.

Definition set_has_init (v : bool) (s : MineRLEnv) : MineRLEnv :=
  {| action_space := action_space s;
     observation_space := observation_space s;
     default_action := default_action s; xml := xml s;
     integratedServerPort := integratedServerPort s; role := role s;
     agent_count := agent_count s; resets := resets s;
     client_socket := client_socket s; resync_period := resync_period s;
     turn_key := turn_key s; exp_uid := exp_uid s; done := done s;
     synchronous := synchronous s; step_options := step_options s;
     width := width s; height := height s; depth := depth s;
     xml_file := xml_file s; has_init := v; instance := instance s |}.

Definition set_instance (v : option Instance) (s : MineRLEnv) : MineRLEnv :=
  {| action_space := action_space s;
     observation_space := observation_space s;
     default_action := default_action s; xml := xml s;
     integratedServerPort := integratedServerPort s; role := role s;
     agent_count := agent_count s; resets := resets s;
     client_socket := client_socket s; resync_period := resync_period s;
     turn_key := turn_key s; exp_uid := exp_uid s; done := done s;
     synchronous := synchronous s; step_options := step_options s;
     width := width s; height := height s; depth := depth s;
     xml_file := xml_file s; has_init := has_init s; instance := v |}.

(** ** The world around the session

    The collaborators the class reaches: the sockets (through
    [minerl.env.comms]), the clock, the generator behind [sample()], the file
    system, [uuid.uuid4] and the instance manager. *)

Definition address : Type := (string * Z)%type.

(** What the client puts on the wire, by the place that sends it. *)
Inductive request : Type :=
| ReqHello
| ReqDescriptor (mission_init : element)
| ReqToken (token : string)
| ReqPeek
| ReqQuit
| ReqStep (options : string) (command : string)
| ReqTurnKey (held : string)
| ReqFind (token : string)
| ReqExit (token : string)
| ReqStatus.

(** The bytes of each request; [tostring] is [etree.tostring]. *)
Definition wire (tostring : element -> string) (r : request) : string :=
  match r with
  | ReqHello => "<MalmoEnv" ++ malmo_version ++ "/>"
  | ReqDescriptor e => tostring e
  | ReqToken t => t
  | ReqPeek => "<Peek/>"
  | ReqQuit => "<Quit/>"
  | ReqStep o c => "<Step" ++ o ++ ">" ++ c ++ "</Step" ++ o ++ " >"
  | ReqTurnKey k => k
  | ReqFind t => "<Find>" ++ t ++ "</Find>"
  | ReqExit t => "<Exit>" ++ t ++ "</Exit>"
  | ReqStatus => "<Status/>"
  end.

(** A framed message of the peer and the time, in milliseconds, the client
    waits for it. *)
Record packet : Type := { latency : Z; payload : string }.

(** What a [connect] meets: a refusal, or a peer that will send these
    messages, in this order. *)
Inductive dial : Type :=
| Refused
| Accepted (replies : list packet).

Inductive event : Type :=
| EvConnect (fd : nat) (peer : address)
| EvRefused (peer : address)
| EvSend (fd : nat) (r : request)
| EvRecv (fd : nat) (data : string)
| EvClose (fd : nat)
| EvSleep (ms : Z).

Record world : Type := {
  self : MineRLEnv;
  dials : list dial;                  (* what the next connects will meet *)
  socks : list (nat * list packet);   (* open sockets and what they will receive *)
  next_fd : nat;
  clock : Z;                          (* time.time(), in milliseconds *)
  trace : list event;                 (* most recent first *)
  gen : rng;
  files : string -> option string;
  fresh_uuid : string;
  launcher : outcome Instance
}.

Definition W (A : Type) : Type := M world A.

Definition with_self (f : MineRLEnv -> MineRLEnv) (w : world) : world :=
  {| self := f (self w); dials := dials w; socks := socks w;
     next_fd := next_fd w; clock := clock w; trace := trace w; gen := gen w;
     files := files w; fresh_uuid := fresh_uuid w; launcher := launcher w |}.

Definition with_trace (e : event) (w : world) : world :=
  {| self := self w; dials := dials w; socks := socks w;
     next_fd := next_fd w; clock := clock w; trace := e :: trace w; gen := gen w;
     files := files w; fresh_uuid := fresh_uuid w; launcher := launcher w |}.

Definition with_clock (t : Z) (w : world) : world :=
  {| self := self w; dials := dials w; socks := socks w;
     next_fd := next_fd w; clock := t; trace := trace w; gen := gen w;
     files := files w; fresh_uuid := fresh_uuid w; launcher := launcher w |}.

Definition with_socks (l : list (nat * list packet)) (w : world) : world :=
  {| self := self w; dials := dials w; socks := l;
     next_fd := next_fd w; clock := clock w; trace := trace w; gen := gen w;
     files := files w; fresh_uuid := fresh_uuid w; launcher := launcher w |}.

Definition with_gen (g : rng) (w : world) : world :=
  {| self := self w; dials := dials w; socks := socks w;
     next_fd := next_fd w; clock := clock w; trace := trace w; gen := g;
     files := files w; fresh_uuid := fresh_uuid w; launcher := launcher w |}.

Definition with_dialled (rest : list dial) (w : world) : world :=
  {| self := self w; dials := rest; socks := socks w;
     next_fd := S (next_fd w); clock := clock w; trace := trace w; gen := gen w;
     files := files w; fresh_uuid := fresh_uuid w; launcher := launcher w |}.

Definition get_self : W MineRLEnv := fun w => (Ret (self w), w).
Definition set_self (f : MineRLEnv -> MineRLEnv) : W unit := modify (with_self f).

(** Run a computation over the generator inside the world. *)
Definition with_rng {A : Type} (m : M rng A) : W A :=
  fun w => let (r, g) := m (gen w) in (r, with_gen g w).

(** [try: m except Exception as e: h e]. *)
Definition try_except {S A : Type} (m : M S A) (h : exn -> M S A) : M S A :=
  fun s =>
    match m s with
    | (Raise e, s') => h e s'
    | r => r
    end.

(** [time.time()] and [time.sleep(ms)]. *)
Definition time_time : W Z := fun w => (Ret (clock w), w).
Definition time_sleep (ms : Z) : W unit :=
  modify (fun w => with_trace (EvSleep ms) (with_clock (clock w + ms) w)).

Fixpoint sock_lookup (fd : nat) (l : list (nat * list packet)) : option (list packet) :=
  match l with
  | [] => None
  | (fd', q) :: r => if Nat.eqb fd fd' then Some q else sock_lookup fd r
  end.

Fixpoint sock_remove (fd : nat) (l : list (nat * list packet)) : list (nat * list packet) :=
  match l with
  | [] => []
  | (fd', q) :: r => if Nat.eqb fd fd' then sock_remove fd r else (fd', q) :: sock_remove fd r
  end.

(** [socket.socket(); sock.connect(peer)]. *)
Definition connect (peer : address) : W nat :=
  fun w =>
    match dials w with
    | Accepted replies :: rest =>
        let fd := next_fd w in
        (Ret fd, with_trace (EvConnect fd peer)
                   (with_socks ((fd, replies) :: socks w) (with_dialled rest w)))
    | Refused :: rest => (Raise TransportError, with_trace (EvRefused peer) (with_dialled rest w))
    | [] => (Raise TransportError, with_trace (EvRefused peer) w)
    end.

(** [sock.close()]. *)
Definition close_socket (fd : nat) : W unit :=
  modify (fun w => with_trace (EvClose fd) (with_socks (sock_remove fd (socks w)) w)).

(** Modelled from the spec: [comms.send_message] and [comms.recv_message],
    which are not part of this file: an opaque framed send and receive over
    the connected stream.  A send on no socket is an attribute error of
    [None]; a send or a receive on a closed socket, and a receive when the
    peer has nothing more to say, are transport errors. *)
Definition send_message (sock : option nat) (r : request) : W unit :=
  match sock with
  | None => raise AttributeError
  | Some fd =>
      fun w =>
        match sock_lookup fd (socks w) with
        | None => (Raise TransportError, w)
        | Some _ => (Ret tt, with_trace (EvSend fd r) w)
        end
  end.

Definition recv_message (sock : option nat) : W string :=
  match sock with
  | None => raise AttributeError
  | Some fd =>
      fun w =>
        match sock_lookup fd (socks w) with
        | Some (p :: q) =>
            (Ret (payload p),
             with_trace (EvRecv fd (payload p))
               (with_clock (clock w + latency p)
                  (with_socks ((fd, q) :: sock_remove fd (socks w)) w)))
        | _ => (Raise TransportError, w)
        end
  end.

(** ** [struct.unpack] and [bytes.decode] *)

Definition signed_byte (b : Z) : Z := if b <? 128 then b else b - 256.

(** [struct.unpack('!I', reply)]. *)
Definition unpack_I (reply : string) : outcome Z :=
  match bytes_of reply with
  | [a; b; c; d] => Ret (((a * 256 + b) * 256 + c) * 256 + d)
  | _ => Raise StructError
  end.

(** [struct.unpack('!b', reply)]. *)
Definition unpack_b (reply : string) : outcome Z :=
  match bytes_of reply with
  | [a] => Ret (signed_byte a)
  | _ => Raise StructError
  end.

(** [struct.unpack('!dbb', reply)]: the eight bytes of the double are kept
    as they are. *)
Definition unpack_dbb (reply : string) : outcome (string * Z * Z) :=
  match bytes_of reply with
  | [_; _; _; _; _; _; _; _; b1; b2] =>
      Ret (substring 0 8 reply, signed_byte b1, signed_byte b2)
  | _ => Raise StructError
  end.

Definition continuation (b : Z) : bool := (128 <=? b) && (b <=? 191).

(** Well-formed UTF-8, by the ranges of the first and second bytes. *)
Fixpoint utf8_ok (l : list Z) : bool :=
  match l with
  | [] => true
  | a :: r =>
      if a <=? 127 then utf8_ok r
      else match r with
           | b :: r1 =>
               if (194 <=? a) && (a <=? 223) then continuation b && utf8_ok r1
               else match r1 with
                    | c :: r2 =>
                        if (224 <=? a) && (a <=? 239) then
                          continuation b && continuation c
                          && (negb (a =? 224) || (160 <=? b))
                          && (negb (a =? 237) || (b <=? 159))
                          && utf8_ok r2
                        else match r2 with
                             | d :: r3 =>
                                 (240 <=? a) && (a <=? 244)
                                 && continuation b && continuation c && continuation d
                                 && (negb (a =? 240) || (144 <=? b))
                                 && (negb (a =? 244) || (b <=? 143))
                                 && utf8_ok r3
                             | [] => false
                             end
                    | [] => false
                    end
           | [] => false
           end
  end.

(** [data.decode('utf-8')]; a [str] is represented by its UTF-8 bytes. *)
Definition decode_utf8 (data : string) : outcome string :=
  if utf8_ok (bytes_of data) then Ret data else Raise UnicodeDecodeError.

(** ** More of [str] and [list], for [init] *)

(** [s.replace(old, new)] for a non-empty [old]: the occurrences are taken
    from the left and do not overlap; [skip] counts the characters of the
    occurrence being replaced that are still to pass. *)
Fixpoint replace_from (skip : nat) (old new s : string) : string :=
  match s with
  | EmptyString => EmptyString
  | String c r =>
      match skip with
      | S k => replace_from k old new r
      | O =>
          if String.prefix old s
          then new ++ replace_from (String.length old - 1) old new r
          else String c (replace_from 0 old new r)
      end
  end.

Definition str_replace (s old new : string) : string := replace_from 0 old new s.

(** [s[i:]]. *)
Definition str_from (i : nat) (s : string) : string :=
  substring i (String.length s - i) s.

(** [s.index(sub)]: the first position of [sub], [ValueError] when there is
    none. *)
Definition str_index (s sub : string) : outcome Z :=
  match String.index 0 sub s with
  | Some i => Ret (Z.of_nat i)
  | None => Raise ValueError
  end.

Definition is_space (c : ascii) : bool :=
  let n := nat_of_ascii c in
  ((9 <=? n) && (n <=? 13) || (28 <=? n) && (n <=? 32))%nat.

Fixpoint lstrip (s : string) : string :=
  match s with
  | String c r => if is_space c then lstrip r else s
  | EmptyString => EmptyString
  end.

Fixpoint rstrip (s : string) : string :=
  match s with
  | EmptyString => EmptyString
  | String c r =>
      match rstrip r with
      | EmptyString => if is_space c then EmptyString else String c EmptyString
      | r' => String c r'
      end
  end.

Definition digit_of (c : ascii) : option Z :=
  let n := nat_of_ascii c in
  if ((48 <=? n) && (n <=? 57))%nat then Some (Z.of_nat n - 48) else None.

(** The digits of an integer literal, with single underscores between
    digits; [after_digit] tells whether the previous character was a digit. *)
Fixpoint digits_value (acc : Z) (after_digit : bool) (s : string) : option Z :=
  match s with
  | EmptyString => if after_digit then Some acc else None
  | String c r =>
      match digit_of c with
      | Some d => digits_value (acc * 10 + d) true r
      | None =>
          if Ascii.eqb c "_"%char && after_digit then digits_value acc false r
          else None
      end
  end.

(** [int(text)] of a string or of [None]. *)
Definition py_int (text : option string) : outcome Z :=
  match text with
  | None => Raise TypeError
  | Some t =>
      let body := rstrip (lstrip t) in
      let parsed :=
        match body with
        | String "-"%char r => option_map Z.opp (digits_value 0 false r)
        | String "+"%char r => digits_value 0 false r
        | _ => digits_value 0 false body
        end in
      match parsed with
      | Some z => Ret z
      | None => Raise ValueError
      end
  end.

(** [l.insert(i, x)] for [0 <= i]. *)
Fixpoint insert_at {A : Type} (i : nat) (x : A) (l : list A) : list A :=
  match i, l with
  | O, _ => x :: l
  | S i', a :: r => a :: insert_at i' x r
  | S _, [] => [x]
  end.

(** ** A concrete session, for the examples at the end *)

Definition dq : string := String (ascii_of_nat 34) EmptyString.

Fixpoint string_of_bytes (l : list nat) : string :=
  match l with
  | [] => EmptyString
  | b :: r => String (ascii_of_nat b) (string_of_bytes r)
  end.

Definition ex_repr (v : pyval) : string := "<object>".

(** A parser that knows one payload, [{"compassAngle": 5}]. *)
Definition ex_payload : string := "{" ++ dq ++ "compassAngle" ++ dq ++ ": 5}".
Definition ex_json_loads (text : string) : outcome pyval :=
  if String.eqb text ex_payload then Ret (PDict [("compassAngle", PInt 5)])
  else Raise ValueError.

Definition ex_action_space : space_map :=
  [("forward", Enum ["none"; "go"]); ("camera", Box (-180) 180 [2])].

(** Flat fields only, then a mapping field, then a mapping in a mapping. *)
Definition ex_flat_space : space_map :=
  [("compassAngle", Box (-180) 180 []); ("pov", Box 0 255 [2; 2; 3])].
Definition ex_inventory_space : space_map :=
  [("compassAngle", Box (-180) 180 []);
   ("inventory", Dict [("dirt", Box 0 2304 []); ("stone", Box 0 2304 [])]);
   ("pov", Box 0 255 [2; 2; 3])].

Definition ex_rng : rng := {| tape := fun n => 7 + Z.of_nat n; pos := 0 |}.

Definition ex_video (want_depth : string) : element :=
  Element (ns ++ "VideoProducer") [("want_depth", want_depth)] None
    [leaf (ns ++ "Width") "2"; leaf (ns ++ "Height") "2"].

Definition ex_mission (handlers : list element) : element :=
  Element (ns ++ "Mission") [] None
    [Element (ns ++ "AgentSection") [] None
       [Element (ns ++ "AgentHandlers") [] None handlers]].

(** A parser that knows two documents: a mission with one video producer,
    and the same with turn-based commands. *)
Definition ex_plain_text : string := "<Mission>plain</Mission>".
Definition ex_turn_text : string := "<Mission>turn based</Mission>".
Definition ex_fromstring (text : string) : outcome element :=
  if String.eqb text ex_plain_text then Ret (ex_mission [ex_video "false"])
  else if String.eqb text ex_turn_text
       then Ret (ex_mission [ex_video "false";
                             Element (ns ++ "TurnBasedCommands") [] None []])
       else Raise XMLSyntaxError.

Definition ex_missions_dir : string := "/opt/minerl/env/missions".

Definition ex_files (path : string) : option string :=
  if String.eqb path "plain.xml" then Some ("<?xml?>" ++ ex_plain_text)
  else if String.eqb path "turn.xml" then Some ex_turn_text
       else if String.eqb path "bare.xml" then Some "<Foo/>"
            else None.

Definition ex_instance : Instance :=
  {| host := "127.0.0.1"; port := 9000; host2 := "127.0.0.1"; port2 := 9001 |}.

(** A session after [init], connected or not, running or done. *)
Definition ex_env (sock : option nat) (done' : bool) (options : Z) : MineRLEnv :=
  {| action_space := Some ex_action_space;
     observation_space := Some ex_flat_space;
     default_action := None; xml := Some mission_init_skeleton;
     integratedServerPort := 0; role := 0; agent_count := 1; resets := 0;
     client_socket := sock; resync_period := 0; turn_key := "tk0";
     exp_uid := "uid"; done := done'; synchronous := true;
     step_options := Some options; width := 2; height := 2; depth := 3;
     xml_file := "plain.xml"; has_init := true; instance := Some ex_instance |}.

(** A session as [__init__] leaves it before it calls [init]. *)
Definition ex_fresh (file : string) : MineRLEnv :=
  {| action_space := None; observation_space := None;
     default_action := None; xml := None;
     integratedServerPort := 0; role := 0; agent_count := 0; resets := 0;
     client_socket := None; resync_period := 0; turn_key := ""; exp_uid := "";
     done := true; synchronous := true; step_options := None;
     width := 0; height := 0; depth := 0; xml_file := file;
     has_init := false; instance := None |}.

Definition ex_world (s : MineRLEnv) (to_dial : list dial)
           (open : list (nat * list packet)) : world :=
  {| self := s; dials := to_dial; socks := open; next_fd := 4; clock := 0;
     trace := []; gen := ex_rng; files := ex_files; fresh_uuid := "uuid-1";
     launcher := Ret ex_instance |}.

Definition pkt (data : string) : packet := {| latency := 5; payload := data |}.

(** A frame of 2 x 2 x 3 bytes; the reply [(1.0, done = 0, sent = 1)] of a
    step; the four-byte statuses 0 and 1; the one-byte flag 0. *)
Definition ex_frame : string := "abcdefghijkl".
Definition ex_step_reply : string :=
  string_of_bytes [63; 240; 0; 0; 0; 0; 0; 0; 0; 1]%nat.
Definition ex_status_0 : string := string_of_bytes [0; 0; 0; 0]%nat.
Definition ex_status_1 : string := string_of_bytes [0; 0; 0; 1]%nat.
Definition ex_flag_0 : string := string_of_bytes [0]%nat.

(** More of the concrete session: an inventory stack; a parser whose
    payload has a key no space declares; a parser whose mission has two
    video producers; the four-byte port 10000; an answer without a port
    that takes 200 seconds to come. *)
Definition ex_stack (name : string) (quantity : Z) : pyval :=
  PDict [("type", PStr name); ("quantity", PInt quantity)].

Definition ex_json_loads_more (text : string) : outcome pyval :=
  Ret (PDict [("compassAngle", PInt 5); ("XPos", PInt 9)]).

Definition ex_fromstring_two (text : string) : outcome element :=
  Ret (ex_mission [ex_video "false"; ex_video "true"]).

Definition ex_port : string := string_of_bytes [0; 0; 39; 16]%nat.

Definition ex_late : packet := {| latency := 200000; payload := ex_status_0 |}.


Section MineRL.

(** [str()] of a list, a dict or an array: the interpreter's and numpy's
    printers, which the encoder only reaches for values it passes through. *)
Variable repr_compound : pyval -> string.

Definition py_str (v : pyval) : string :=
  match v with
  | PNone => "None"
  | PBool true => "True"
  | PBool false => "False"
  | PInt z => str_of_Z z
  | PStr s => s
  | _ => repr_compound v
  end.

(** ** Action codec: [_process_action] *)

(** The [Enum] branch: an [int] (so also a [bool]) indexes [values];
    anything else must be a [str] that is one of the [values]. *)
Definition process_enum (values : list string) (v : pyval) : outcome pyval :=
  match v with
  | PInt i => let! s := py_index values i in Ret (PStr s)
  | PBool b => let! s := py_index values (if b then 1 else 0) in Ret (PStr s)
  | PStr s => let! _ := assert_ (str_in s values) in Ret v
  | _ => Raise AssertionError
  end.

(** The [Box] branch: a string is refused; an array is flattened; whatever
    is iterable is joined with spaces. *)
Definition process_box (v : pyval) : outcome pyval :=
  match v with
  | PStr _ => Raise AssertionError
  | PArr _ data => Ret (PStr (String.concat " " (map str_of_Z data)))
  | PList items => Ret (PStr (String.concat " " (map py_str items)))
  | PDict entries => Ret (PStr (String.concat " " (keys entries)))
  | _ => Ret v
  end.

(** One turn of [for act in action_in]. *)
Definition process_field (action_space : option space_map)
           (act : string) (v : pyval) : outcome string :=
  match action_space with
  | None => Raise AttributeError
  | Some spaces =>
      match assoc act spaces with
      | None => Raise KeyError
      | Some sp =>
          let! v' := match sp with
                     | Enum values => process_enum values v
                     | Box _ _ _ => process_box v
                     | Dict _ => Ret v
                     end in
          Ret (act ++ " " ++ py_str v')
      end
  end.

Fixpoint process_fields (action_space : option space_map)
         (action_in : list (string * pyval)) : outcome (list string) :=
  match action_in with
  | [] => Ret []
  | (act, v) :: rest =>
      let! line := process_field action_space act v in
      let! lines := process_fields action_space rest in
      Ret (line :: lines)
  end.

Definition _process_action (action_space : option space_map)
           (action_in : list (string * pyval)) : outcome string :=
  let! action_str := process_fields action_space action_in in
  Ret (String.concat nl action_str).

(** ** Observation codec: [_process_observation] *)

(** [json.loads]: the parser of the standard library. *)
Variable json_loads : string -> outcome pyval.

(** [np.frombuffer(pov, dtype=np.uint8)] followed by the empty test and
    the reshape of lines 204-207. *)
Definition decode_pov (height width depth : Z) (pov : option string)
  : outcome pyval :=
  match pov with
  | None => Raise TypeError
  | Some raw =>
      let buf := bytes_of raw in
      if (length buf =? 0)%nat then np_zeros [height; width; depth]
      else np_reshape buf [height; width; depth]
  end.

(** [if info: info = json.loads(info) else: info = {}]. *)
Definition load_info (info : option string) : outcome pyval :=
  match info with
  | None => Ret (PDict [])
  | Some "" => Ret (PDict [])
  | Some text => json_loads text
  end.

(** One turn of [for stack in info['inventory']]; [KeyError] is caught and
    the stack skipped, any other exception escapes. *)
Definition add_stack (inventory_dict : list (string * pyval)) (stack : pyval)
  : outcome (list (string * pyval)) :=
  let! has_type := py_in "type" stack in
  let! has_quantity := if has_type then py_in "quantity" stack else Ret false in
  if has_type && has_quantity then
    let! ty := py_getitem stack "type" in
    match ty with
    | PList _ | PDict _ | PArr _ _ => Raise TypeError
    | PStr name =>
        match assoc name inventory_dict with
        | None => Ret inventory_dict
        | Some held =>
            let! quantity := py_getitem stack "quantity" in
            let! total := py_add held quantity in
            Ret (assoc_set name total inventory_dict)
        end
    | _ => Ret inventory_dict
    end
  else Ret inventory_dict.

Fixpoint add_stacks (inventory_dict : list (string * pyval))
         (stacks : list pyval) : outcome (list (string * pyval)) :=
  match stacks with
  | [] => Ret inventory_dict
  | stack :: rest =>
      let! d := add_stack inventory_dict stack in add_stacks d rest
  end.

(** Lines 215-234: the inventory hot fix. *)
Definition fold_inventory (observation_space : option space_map)
           (info : pyval) : outcome pyval :=
  let! in_info := py_in "inventory" info in
  if in_info then
    match observation_space with
    | None => Raise AttributeError
    | Some spaces =>
        match assoc "inventory" spaces with
        | None => Ret info
        | Some (Dict inventory_spaces) =>
            let inventory_dict := map (fun k => (k, PInt 0)) (keys inventory_spaces) in
            let! listed := py_getitem info "inventory" in
            let! stacks := py_iter listed in
            let! d := add_stacks inventory_dict stacks in
            py_setitem info "inventory" (PDict d)
        | Some _ => Raise AttributeError
        end
    end
  else match observation_space with
       | None => Raise AttributeError
       | Some _ => Ret info
       end.

(** [for k in correction: correction[k] *= 0], returning the zeroed
    mapping together with the value the loop leaves in [k]. *)
Fixpoint zero_entries (todo : list string) (correction : list (string * pyval))
         (k : string) : outcome (list (string * pyval) * string) :=
  match todo with
  | [] => Ret (correction, k)
  | k' :: rest =>
      match assoc k' correction with
      | None => Raise KeyError
      | Some v =>
          let! z := py_imul_zero v in
          zero_entries rest (assoc_set k' z correction) k'
      end
  end.

(** One turn of [for k in self.observation_space.spaces] (lines 243-252).
    [k is not 'pov'] is read as inequality of the two strings. *)
Definition fill_field (k : string) (sp : space)
           (st : pyval * list (string * pyval)) : M rng (pyval * list (string * pyval)) :=
  let '(info, obs_dict) := st in
  if String.eqb k "pov" then ret st
  else
    present <- lift (py_in k info) ;;
    '(info', k') <-
      (if negb present then
         correction <- sample sp ;;
         '(correction', k') <-
           lift (match correction with
                 | PDict entries =>
                     if is_Dict sp then
                       let! (zeroed, k') := zero_entries (keys entries) entries k in
                       Ret (PDict zeroed, k')
                     else Ret (correction, k)
                 | _ => Ret (correction, k)
                 end) ;;
         info' <- lift (py_setitem info k' correction') ;;
         ret (info', k')
       else ret (info, k)) ;;
    v <- lift (py_getitem info' k') ;;
    ret (info', assoc_set k' v obs_dict).

Fixpoint fill_fields (spaces : space_map)
         (st : pyval * list (string * pyval)) : M rng (pyval * list (string * pyval)) :=
  match spaces with
  | [] => ret st
  | (k, sp) :: rest => st' <- fill_field k sp st ;; fill_fields rest st'
  end.

(** Lines 209-254: everything after the frame. *)
Definition observe_fields (observation_space : option space_map)
           (info : option string) (pov' : pyval) : M rng (list (string * pyval)) :=
  info0 <- lift (load_info info) ;;
  info1 <- lift (fold_inventory observation_space info0) ;;
  match observation_space with
  | None => raise AttributeError
  | Some spaces =>
      '(_, obs_dict) <- fill_fields spaces (info1, [("pov", pov')]) ;;
      ret obs_dict
  end.

Definition _process_observation (height width depth : Z)
           (observation_space : option space_map)
           (pov : option string) (info : option string)
  : M rng (list (string * pyval)) :=
  pov' <- lift (decode_pov height width depth pov) ;;
  observe_fields observation_space info pov'.

(** ** [init]: the episode descriptor and the session set-up *)

(** [etree.fromstring], the parser of [lxml], and the directory of the
    missions, [os.path.join(os.path.dirname(__file__), 'missions')]. *)
Variable fromstring : string -> outcome element.
Variable missions_dir : string.

(** Lines 120-124: the text from the first [<Mission] on. *)
Definition locate_mission (xml0 : string) : outcome string :=
  if negb (String.prefix "<Mission" xml0) then
    let! i := str_index xml0 "<Mission" in
    if i =? -1
    then Raise (EnvException "Mission xml must contain <Mission> tag.")
    else Ret (str_from (Z.to_nat i) xml0)
  else Ret xml0.

Definition init (observation_space' action_space' : space_map)
           (exp_uid' : option string) (episode : Z)
           (action_filter : option (list string)) (resync' : Z)
           (step_options' : option Z) : W unit :=
  s <- get_self ;;
  match instance s with
  | None =>
      w <- get ;;
      i <- lift (launcher w) ;;
      set_self (set_instance (Some i))
  | Some _ => ret tt
  end ;;
  w <- get ;;
  xml_text <- match files w (xml_file s) with
              | Some text => ret text
              | None => raise FileNotFoundError
              end ;;
  let xml0 := str_replace xml_text "$(MISSIONS_DIR)" missions_dir in
  let role' := 0 in
  xml1 <- lift (locate_mission xml0) ;;
  mission <- lift (fromstring xml1) ;;
  set_self (set_xml (Some mission)) ;;
  set_self (set_role role') ;;
  set_self (set_exp_uid (match exp_uid' with
                         | None => fresh_uuid w
                         | Some u => u
                         end)) ;;
  set_self (set_action_space (Some action_space')) ;;
  set_self (set_observation_space (Some observation_space')) ;;
  set_self (set_agent_count 1) ;;
  let turn_based :=
    match find_below (ns ++ "TurnBasedCommands") mission with
    | Some _ => true
    | None => false
    end in
  (if turn_based then raise NotImplementedError
   else set_self (set_turn_key "")) ;;
  set_self (set_step_options
              (match step_options' with
               | None => Some (if negb turn_based then 0 else 2)
               | Some o => Some o
               end)) ;;
  set_self (set_done true) ;;
  set_self (set_resync_period resync') ;;
  set_self (set_resets episode) ;;
  let e := insert_first mission mission_init_skeleton in
  set_self (set_xml (Some e)) ;;
  s1 <- get_self ;;
  e1 <- match set_child_text (ns ++ "ClientRole") (str_of_Z (role s1)) e with
        | Some e1 => ret e1
        | None => raise AttributeError
        end ;;
  set_self (set_xml (Some e1)) ;;
  e2 <- match set_child_text (ns ++ "ExperimentUID") (exp_uid s1) e1 with
        | Some e2 => ret e2
        | None => raise AttributeError
        end ;;
  set_self (set_xml (Some e2)) ;;
  e3 <- (if negb (role s1 =? 0) && (agent_count s1 >? 1) then
           match instance s1 with
           | None => raise AttributeError
           | Some i =>
               let conn := Element (ns ++ "MinecraftServerConnection")
                                   [("address", host i); ("port", "0")] None [] in
               let e3 := Element (tag_of e2) (attrib_of e2) (text_of e2)
                                 (insert_at 2 conn (children_of e2)) in
               set_self (set_xml (Some e3)) ;; ret e3
           end
         else ret e2) ;;
  let video_producers := findall_below (ns ++ "VideoProducer") e3 in
  lift (assert_ (Z.of_nat (length video_producers) =? agent_count s1)) ;;
  video_producer <- lift (py_index video_producers (role s1)) ;;
  w' <- match find_child (ns ++ "Width") video_producer with
        | None => raise AttributeError
        | Some n => lift (py_int (text_of n))
        end ;;
  set_self (set_width w') ;;
  h' <- match find_child (ns ++ "Height") video_producer with
        | None => raise AttributeError
        | Some n => lift (py_int (text_of n))
        end ;;
  set_self (set_height h') ;;
  want_depth <- match assoc "want_depth" (attrib_of video_producer) with
                | None => raise KeyError
                | Some v => ret v
                end ;;
  set_self (set_depth (if String.eqb want_depth "true" || String.eqb want_depth "1"
                       then 4 else 3)) ;;
  set_self (set_has_init true).

(** [__init__]: the attributes as the constructor sets them, then [init]
    with its defaults. *)
Definition blank (xml_file' : string)
           (default_action' : option (list (string * pyval))) : MineRLEnv :=
  {| action_space := None; observation_space := None;
     default_action := default_action'; xml := None;
     integratedServerPort := 0; role := 0; agent_count := 0; resets := 0;
     client_socket := None; resync_period := 0; turn_key := ""; exp_uid := "";
     done := true; synchronous := true; step_options := None;
     width := 0; height := 0; depth := 0; xml_file := xml_file';
     has_init := false; instance := None |}.

Definition __init__ (xml_file' : string) (observation_space' action_space' : space_map)
           (default_action' : option (list (string * pyval))) : W unit :=
  set_self (fun _ => blank xml_file' default_action') ;;
  init observation_space' action_space' None 0 None 0 (Some 0).

(** ** The protocol engine *)

Definition diverge {A : Type} : W A := fun w => (Diverge, w).

Definition _get_token (s : MineRLEnv) : string :=
  exp_uid s ++ ":" ++ str_of_Z (role s) ++ ":" ++ str_of_Z (resets s).

Definition _hello (sock : nat) : W unit := send_message (Some sock) ReqHello.

(** [(self.instance.host, self.instance.port)] when [head], else
    [(self.instance.host2, self.instance.port2)]. *)
Definition instance_address (head : bool) : W address :=
  s <- get_self ;;
  match instance s with
  | None => raise AttributeError
  | Some i => ret (if head then (host i, port i) else (host2 i, port2 i))
  end.

Definition status (head : bool) : W string :=
  peer <- instance_address head ;;
  sock <- connect peer ;;
  _hello sock ;;
  send_message (Some sock) ReqStatus ;;
  data <- recv_message (Some sock) ;;
  status <- lift (decode_utf8 data) ;;
  close_socket sock ;;
  ret status.

Definition exit : W bool :=
  peer <- instance_address false ;;
  sock <- connect peer ;;
  _hello sock ;;
  s <- get_self ;;
  send_message (Some sock) (ReqExit (_get_token s)) ;;
  reply <- recv_message (Some sock) ;;
  close_socket sock ;;
  ok <- lift (unpack_I reply) ;;
  ret (negb (ok =? 0)).

(** The inner [for _ in range(30)] of [resync]: [true] when a status
    request went through ([success += 1; break]). *)
Fixpoint poll_status (attempts : nat) (head : bool) : W bool :=
  match attempts with
  | O => ret false
  | S n =>
      try_except (status head ;; ret true)
                 (fun _ => time_sleep 10000 ;; poll_status n head)
  end.

Definition resync : W unit :=
  reached_head <- poll_status 30 true ;;
  reached_node <- poll_status 30 false ;;
  let success := (if reached_head then 1 else 0) + (if reached_node then 1 else 0) in
  if success =? 2 then ret tt
  else raise (EnvException ("Failed to contact service"
                            ++ (if success =? 0 then " head" else ""))).

Definition exit_resync : W unit :=
  try_except
    (s <- get_self ;;
     match client_socket s with
     | Some fd => close_socket fd ;; set_self (set_client_socket None)
     | None => ret tt
     end ;;
     try_except (exit ;; ret tt) (fun _ => ret tt) ;;
     time_sleep 60000)
    (fun e => match e with TransportError => ret tt | _ => raise e end) ;;
  resync.

Definition _quit_episode : W bool :=
  s <- get_self ;;
  send_message (client_socket s) ReqQuit ;;
  reply <- recv_message (client_socket s) ;;
  ok <- lift (unpack_I reply) ;;
  ret (negb (ok =? 0)).

(** [while not self.done: ...] of [reset]. *)
Fixpoint drain (fuel : nat) : W unit :=
  s <- get_self ;;
  if done s then ret tt
  else match fuel with
       | O => diverge
       | S fuel' =>
           d <- _quit_episode ;;
           set_self (set_done d) ;;
           (if negb d then time_sleep 100 else ret tt) ;;
           drain fuel'
       end.

(** [while ok != 1: ...] of [_init_mission]. *)
Fixpoint init_mission_loop (fuel : nat) (ok : Z) : W unit :=
  if ok =? 1 then ret tt
  else match fuel with
       | O => diverge
       | S fuel' =>
           s <- get_self ;;
           match xml s with
           | None => raise TypeError
           | Some e =>
               let token := _get_token s ++ ":" ++ str_of_Z (agent_count s) ++ ":"
                            ++ (if synchronous s then "true" else "false") in
               send_message (client_socket s) (ReqDescriptor e) ;;
               send_message (client_socket s) (ReqToken token) ;;
               reply <- recv_message (client_socket s) ;;
               ok' <- lift (unpack_I reply) ;;
               data <- recv_message (client_socket s) ;;
               tk <- lift (decode_utf8 data) ;;
               set_self (set_turn_key tk) ;;
               (if negb (ok' =? 1) then time_sleep 1000 else ret tt) ;;
               init_mission_loop fuel' ok'
           end
       end.

Definition _init_mission (fuel : nat) : W unit := init_mission_loop fuel 0.

(** [while port == 0: ...] of [_find_server]. *)
Fixpoint find_server_loop (fuel : nat) (sock : nat) (start_time : Z) (found : Z)
  : W Z :=
  if negb (found =? 0) then ret found
  else match fuel with
       | O => diverge
       | S fuel' =>
           s <- get_self ;;
           send_message (Some sock) (ReqFind (_get_token s)) ;;
           reply <- recv_message (Some sock) ;;
           found' <- lift (unpack_I reply) ;;
           (if found' =? 0 then
              now <- time_time ;;
              (if now - start_time >? MAX_WAIT then
                 match client_socket s with
                 | Some fd => close_socket fd ;; set_self (set_client_socket None)
                 | None => ret tt
                 end ;;
                 raise (MissionInitException "too long finding mission to join")
               else ret tt) ;;
              time_sleep 1000
            else ret tt) ;;
           find_server_loop fuel' sock start_time found'
       end.

Definition _find_server (fuel : nat) : W unit :=
  peer <- instance_address true ;;
  sock <- connect peer ;;
  _hello sock ;;
  start_time <- time_time ;;
  found <- find_server_loop fuel sock start_time 0 ;;
  close_socket sock ;;
  set_self (set_integratedServerPort found) ;;
  s <- get_self ;;
  match xml s with
  | None => raise AttributeError
  | Some e =>
      match set_child_attrib (ns ++ "MinecraftServerConnection") "port" (str_of_Z found) e with
      | Some e' => set_self (set_xml (Some e'))
      | None => ret tt
      end
  end.

Definition observation : Type := list (string * pyval).

(** [self._process_observation(obs, info)] on the session's geometry and
    observation space. *)
Definition decode (obs : option string) (info : option string) : W observation :=
  s <- get_self ;;
  with_rng (_process_observation (height s) (width s) (depth s)
                                 (observation_space s) obs info).

(** [_peek_obs]; a local that was never assigned is [None] here and its
    use an [UnboundLocalError]. *)
Definition _peek_obs : W (observation * list (string * pyval)) :=
  start_time <- time_time ;;
  s <- get_self ;;
  '(obs, info) <-
    (if negb (done s) then
       send_message (client_socket s) ReqPeek ;;
       obs <- recv_message (client_socket s) ;;
       data <- recv_message (client_socket s) ;;
       info <- lift (decode_utf8 data) ;;
       reply <- recv_message (client_socket s) ;;
       d <- lift (unpack_b reply) ;;
       set_self (set_done (d =? 1)) ;;
       (if (String.length obs =? 0)%nat then
          now <- time_time ;;
          (if now - start_time >? MAX_WAIT then
             match client_socket s with
             | Some fd => close_socket fd
             | None => raise AttributeError
             end ;;
             set_self (set_client_socket None) ;;
             raise (MissionInitException "too long waiting for first observation")
           else ret tt) ;;
          time_sleep 100
        else ret tt) ;;
       ret (Some obs, Some info)
     else ret (None, None)) ;;
  match info with
  | None => raise UnboundLocalError
  | Some info' =>
      out <- decode obs (Some info') ;;
      ret (out, [])
  end.

(** Modelled from the spec: the decorator [comms.retry], which is not part
    of this file: a fixed number of attempts, a sleep between two attempts,
    and the last failure raised again when the attempts are spent. *)
Variable retry_count : nat.
Variable retry_timeout : Z.

Fixpoint retry_from {A : Type} (attempts : nat) (last : exn) (f : W A) : W A :=
  match attempts with
  | O => raise last
  | S n =>
      try_except f
        (fun e => match n with
                  | O => raise e
                  | S _ => time_sleep retry_timeout ;; retry_from n e f
                  end)
  end.

Definition retry {A : Type} (f : W A) : W A := retry_from retry_count TypeError f.

(** The body of [_start_up], before the decorator. *)
Definition start_up_body (fuel : nat) : W (observation * list (string * pyval)) :=
  set_self (fun s => set_resets (resets s + 1) s) ;;
  s <- get_self ;;
  (if negb (role s =? 0) then _find_server fuel else ret tt) ;;
  s <- get_self ;;
  match client_socket s with
  | Some _ => ret tt
  | None =>
      peer <- instance_address true ;;
      sock <- connect peer ;;
      _hello sock ;;
      set_self (set_client_socket (Some sock))
  end ;;
  _init_mission fuel ;;
  set_self (set_done false) ;;
  _peek_obs.

Definition _start_up (fuel : nat) : W (observation * list (string * pyval)) :=
  retry (start_up_body fuel).

(** [reset]; [self.init()] without its arguments is a [TypeError]. *)
Definition reset (fuel : nat) : W (observation * list (string * pyval)) :=
  s <- get_self ;;
  (if negb (has_init s) then raise TypeError else ret tt) ;;
  (if (resync_period s >? 0) && ((resets s + 1) mod resync_period s =? 0)
   then exit_resync else ret tt) ;;
  drain fuel ;;
  _start_up fuel.

(** The locals of [step] when it reaches its [return]. *)
Record step_locals : Type := {
  out_obs : option observation;
  reward : option string;
  turn : bool
}.

Definition step_body (action : list (string * pyval)) : W step_locals :=
  s <- get_self ;;
  match step_options s with
  | None => raise TypeError
  | Some options =>
      let withturnkey := options <? 2 in
      let withinfo := (options =? 0) || (options =? 2) in
      malmo_command <- lift (_process_action (action_space s) action) ;;
      if negb (done s) then
        send_message (client_socket s)
                     (ReqStep (str_of_Z options) malmo_command) ;;
        (if withturnkey then send_message (client_socket s) (ReqTurnKey (turn_key s))
         else ret tt) ;;
        obs <- recv_message (client_socket s) ;;
        reply <- recv_message (client_socket s) ;;
        '(r, d, sent) <- lift (unpack_dbb reply) ;;
        set_self (set_done (d =? 1)) ;;
        info <- (if withinfo then
                   data <- recv_message (client_socket s) ;;
                   text <- lift (decode_utf8 data) ;;
                   ret (Some text)
                 else ret None) ;;
        out <- decode (Some obs) info ;;
        new_key <- (if withturnkey then
                      data <- recv_message (client_socket s) ;;
                      lift (decode_utf8 data)
                    else ret "") ;;
        (if negb (String.eqb new_key "") then
           set_self (set_turn_key new_key) ;;
           ret {| out_obs := Some out; reward := Some r;
                  turn := if negb (sent =? 0) then false else true |}
         else
           ret {| out_obs := Some out; reward := Some r; turn := sent =? 0 |})
      else ret {| out_obs := None; reward := None; turn := true |}
  end.

(** [step]: [return out_obs, reward, self.done, {}]. *)
Definition step (action : list (string * pyval))
  : W (observation * option string * bool * list (string * pyval)) :=
  l <- step_body action ;;
  match out_obs l with
  | None => raise UnboundLocalError
  | Some o => s <- get_self ;; ret (o, reward l, done s, [])
  end.

(** * The vocabulary of the properties *)



(** What [step] receives between the reply and the turn key: the info
    payload when the options ask for it ([withinfo]), nothing otherwise. *)
Definition info_exchange (options : Z) (infos : list packet)
           (info : option string) : Prop :=
  if (options =? 0) || (options =? 2)
  then exists p text,
      infos = [p] /\ decode_utf8 (payload p) = Ret text /\ info = Some text
  else infos = [] /\ info = None.

(** No occurrence of [<Mission] anywhere in the text. *)
Definition lacks_marker (xml0 : string) : Prop :=
  forall i, substring i 8 xml0 <> "<Mission".

(** The session has an instance, or the instance manager will give one. *)
Definition instance_ready (w : world) : Prop :=
  match instance (self w) with
  | Some _ => True
  | None => exists i, launcher w = Ret i
  end.

Definition is_sleep (ev : event) : bool :=
  match ev with EvSleep _ => true | _ => false end.

(** A connection attempt, accepted or refused. *)
Definition is_dial (ev : event) : bool :=
  match ev with EvConnect _ _ | EvRefused _ => true | _ => false end.

Definition count (f : event -> bool) (evs : list event) : nat :=
  length (filter f evs).

(** Every pause in [evs] lasts [ms]. *)
Definition pauses_of (ms : Z) (evs : list event) : Prop :=
  Forall (fun ev => is_sleep ev = true -> ev = EvSleep ms) evs.

(** However [m] ends, the world it leaves is related by [I] to the world
    it started in. *)
Definition keeps {A : Type} (I : world -> world -> Prop) (m : W A) : Prop :=
  forall w r w', m w = (r, w') -> I w w'.



(** [w'] is [w] after some more events, all of them in [P]. *)
Definition extends_by (P : event -> Prop) (w w' : world) : Prop :=
  exists evs, trace w' = (evs ++ trace w)%list /\ Forall P evs.


Definition later (w w' : world) : Prop := extends_by (fun _ => True) w w'.



(** The resync period does not fall on this reset. *)
Definition resync_not_due (s : MineRLEnv) : Prop :=
  (resync_period s >? 0) && ((resets s + 1) mod resync_period s =? 0) = false.






(** The all-zero frame of [np.zeros((height, width, depth))]. *)
Definition zero_frame (height width depth : Z) : pyval :=
  PArr [height; width; depth] (repeat 0 (Z.to_nat (height * width * depth))).


(** What an inventory stack of the payload holds: its item type and its
    quantity, when both are there, as a string and an integer. *)
Definition stack_info (stack : pyval) : option (string * Z) :=
  match stack with
  | PDict entries =>
      match assoc "type" entries, assoc "quantity" entries with
      | Some (PStr name), Some (PInt q) => Some (name, q)
      | _, _ => None
      end
  | _ => None
  end.

(** A stack the hot fix can read: an object that lacks one of the two
    keys, or has a string type and an integer quantity. *)
Definition stack_ok (stack : pyval) : bool :=
  match stack with
  | PDict entries =>
      match assoc "type" entries, assoc "quantity" entries with
      | Some (PStr _), Some (PInt _) => true
      | Some _, Some _ => false
      | _, _ => true
      end
  | _ => false
  end.

Definition quantity_of (name : string) (stack : pyval) : Z :=
  match stack_info stack with
  | Some (name', q) => if String.eqb name name' then q else 0
  | None => 0
  end.

(** How many items of type [name] the stacks hold together. *)
Definition total_of (name : string) (stacks : list pyval) : Z :=
  fold_right Z.add 0 (map (quantity_of name) stacks).

(** A mapping of counters: every value is an integer. *)
Definition counts (d : list (string * pyval)) : Prop :=
  forall k v, assoc k d = Some v -> exists z, v = PInt z.

(** A key of the payload the observation space has no place for: not
    [pov], not a declared field, not a field of a declared mapping. *)
Definition undeclared (spaces : space_map) (x : string) : Prop :=
  x <> "pov"
  /\ ~ In x (keys spaces)
  /\ forall k fields, In (k, Dict fields) spaces -> ~ In x (keys fields).

(** The attributes of the session are what they were. *)
Definition same_session (w w' : world) : Prop := self w' = self w.

(** The episode counter is what it was. *)
Definition same_resets (w w' : world) : Prop :=
  resets (self w') = resets (self w).

(** [m] never runs out of fuel: it returns or raises. *)
Definition ends {A : Type} (m : W A) : Prop :=
  forall w, fst (m w) <> Diverge.

(** The reset falls on the resync period. *)
Definition resync_due (s : MineRLEnv) : Prop :=
  (resync_period s >? 0) && ((resets s + 1) mod resync_period s =? 0) = true.

(** The token of the handshake:
    [_get_token() + ":" + str(agent_count) + ":" + str(synchronous).lower()]. *)
Definition handshake_token (s : MineRLEnv) : string :=
  _get_token s ++ ":" ++ str_of_Z (agent_count s) ++ ":"
  ++ (if synchronous s then "true" else "false").

(** One round of the handshake, in the order it happens: the descriptor
    and the token go out, the status and the turn key come back. *)
Definition handshake_round (fd : nat) (e : element) (token : string)
           (answer : packet * packet) : list event :=
  [EvSend fd (ReqDescriptor e); EvSend fd (ReqToken token);
   EvRecv fd (payload (fst answer)); EvRecv fd (payload (snd answer))].

(** The rounds the peer turns down, each followed by a pause of a second,
    and the round it accepts. *)
Definition handshake_events (fd : nat) (e : element) (token : string)
           (refused : list (packet * packet)) (accepted : packet * packet)
  : list event :=
  (flat_map (fun a => handshake_round fd e token a ++ [EvSleep 1000]) refused
   ++ handshake_round fd e token accepted)%list.

(** What the peer has to say in those rounds. *)
Definition handshake_answers (refused : list (packet * packet))
           (accepted : packet * packet) : list packet :=
  (flat_map (fun a => [fst a; snd a]) refused ++ [fst accepted; snd accepted])%list.

(** A round the peer turns down: a status that is not 1, and a turn key
    that decodes. *)
Definition turned_down (a : packet * packet) : Prop :=
  (exists n, unpack_I (payload (fst a)) = Ret n /\ n <> 1)
  /\ exists key, decode_utf8 (payload (snd a)) = Ret key.

Definition total_latency (ps : list packet) : Z :=
  fold_right Z.add 0 (map latency ps).

(** An answer to [<Find>] that names no port yet, and takes no negative
    time to come. *)
Definition no_port_yet (p : packet) : Prop :=
  unpack_I (payload p) = Ret 0 /\ 0 <= latency p.

(** The search for the server, in the order it happens: a request and a
    pause of a second for every answer without a port, then the request
    that is answered with one. *)
Definition find_events (fd : nat) (token : string) (zeros : list packet)
           (last : packet) : list event :=
  (flat_map (fun p => [EvSend fd (ReqFind token); EvRecv fd (payload p);
                       EvSleep 1000]) zeros
   ++ [EvSend fd (ReqFind token); EvRecv fd (payload last)])%list.

(** * Properties *)

Arguments process_field : simpl never.
Arguments send_message : simpl never.
Arguments recv_message : simpl never.

(** ** The action codec *)

Lemma process_fields_app :
  forall sp a b,
    process_fields sp (a ++ b)%list =
    (let! la := process_fields sp a in
     let! lb := process_fields sp b in
     Ret (la ++ lb)%list).
Proof.
  intros sp a b. induction a as [|[act v] a IH]; simpl.
  - destruct (process_fields sp b); reflexivity.
  - destruct (process_field sp act v); simpl; try reflexivity.
    rewrite IH.
    destruct (process_fields sp a); simpl; try reflexivity.
    destruct (process_fields sp b); reflexivity.
Qed.

Lemma process_fields_total :
  forall sp action, process_fields sp action <> Diverge.
Proof.
  intros sp action. induction action as [|[act v] rest IH]; simpl.
  - discriminate.
  - unfold process_field.
    destruct sp as [spaces|]; simpl; try discriminate.
    destruct (assoc act spaces) as [[lo hi sh|values|fs]|]; simpl; try discriminate.
    + destruct v; simpl; try discriminate;
        destruct (process_fields (Some spaces) rest); simpl; congruence.
    + destruct v as [|b|i|s| | |]; simpl; try discriminate.
      * destruct (py_index values (if b then 1 else 0)) eqn:E; simpl; try discriminate.
        -- destruct (process_fields (Some spaces) rest); simpl; congruence.
        -- unfold py_index in E.
           destruct ((_ <? 0) || _); try discriminate.
           destruct (nth_error _ _); discriminate.
      * destruct (py_index values i) eqn:E; simpl; try discriminate.
        -- destruct (process_fields (Some spaces) rest); simpl; congruence.
        -- unfold py_index in E.
           destruct ((_ <? 0) || _); try discriminate.
           destruct (nth_error _ _); discriminate.
      * destruct (str_in s values); simpl; try discriminate.
        destruct (process_fields (Some spaces) rest); simpl; congruence.
    + destruct (process_fields (Some spaces) rest); simpl; congruence.
Qed.





(** ** Running the primitives of the world *)

Lemma bind_ret :
  forall (S A B : Type) (m : M S A) (k : A -> M S B) s a s',
    m s = (Ret a, s') -> bind m k s = k a s'.
Proof. intros S A B m k s a s' H. unfold bind. rewrite H. reflexivity. Qed.

Lemma bind_raise :
  forall (S A B : Type) (m : M S A) (k : A -> M S B) s e s',
    m s = (Raise e, s') -> bind m k s = (Raise e, s').
Proof. intros S A B m k s e s' H. unfold bind. rewrite H. reflexivity. Qed.

Lemma sock_lookup_head :
  forall fd q l, sock_lookup fd ((fd, q) :: l) = Some q.
Proof. intros fd q l. simpl. rewrite Nat.eqb_refl. reflexivity. Qed.

Lemma send_message_open :
  forall fd r w q,
    sock_lookup fd (socks w) = Some q ->
    send_message (Some fd) r w = (Ret tt, with_trace (EvSend fd r) w).
Proof. intros fd r w q H. unfold send_message. rewrite H. reflexivity. Qed.

Lemma recv_message_open :
  forall fd w p q,
    sock_lookup fd (socks w) = Some (p :: q) ->
    recv_message (Some fd) w =
    (Ret (payload p),
     with_trace (EvRecv fd (payload p))
       (with_clock (clock w + latency p)
          (with_socks ((fd, q) :: sock_remove fd (socks w)) w))).
Proof. intros fd w p q H. unfold recv_message. rewrite H. reflexivity. Qed.

(** ** [step] *)

Lemma process_action_total :
  forall sp action, _process_action sp action <> Diverge.
Proof.
  intros sp action. unfold _process_action.
  destruct (process_fields sp action) eqn:E; simpl; try discriminate.
  exfalso. eapply process_fields_total; eassumption.
Qed.

(** C1. On a session whose [done] flag is set, [step] exchanges nothing
    with the peer and leaves the world as it was, but it does not return: it
    raises, and once the action encodes the exception is the unbound local
    [out_obs] of its [return]. *)
Theorem step_when_done_raises :
  forall action w,
    done (self w) = true ->
    (exists e, step action w = (Raise e, w))
    /\ (forall options command,
           step_options (self w) = Some options ->
           _process_action (action_space (self w)) action = Ret command ->
           step action w = (Raise UnboundLocalError, w)).
Proof.
  intros action w Hdone. split.
  - unfold step, step_body, bind, get_self. simpl.
    destruct (step_options (self w)) as [options|]; [|eexists; reflexivity].
    unfold lift.
    destruct (_process_action (action_space (self w)) action) eqn:E.
    + rewrite Hdone. simpl. eexists; reflexivity.
    + eexists; reflexivity.
    + exfalso. eapply process_action_total; eassumption.
  - intros options command Hopt Hcmd.
    unfold step, step_body, bind, get_self. simpl.
    rewrite Hopt. unfold lift. rewrite Hcmd, Hdone. reflexivity.
Qed.

(** C2. A step with turn-based options ([step_options < 2]) on a running
    session, whose exchange goes through: a new turn key that is not empty
    replaces the held one whatever [sent] is, and the turn flag is then false
    when [sent != 0] and still true when [sent == 0]; with an empty new key
    the held key stays and the turn flag is [sent == 0]. *)
Theorem turn_resolution :
  forall action w fd options command p_obs p_reply infos info p_key rest
         r d sent out g' new_key,
    done (self w) = false ->
    step_options (self w) = Some options ->
    options < 2 ->
    client_socket (self w) = Some fd ->
    _process_action (action_space (self w)) action = Ret command ->
    sock_lookup fd (socks w)
    = Some (p_obs :: p_reply :: infos ++ p_key :: rest)%list ->
    unpack_dbb (payload p_reply) = Ret (r, d, sent) ->
    info_exchange options infos info ->
    _process_observation (height (self w)) (width (self w)) (depth (self w))
                         (observation_space (self w))
                         (Some (payload p_obs)) info (gen w) = (Ret out, g') ->
    decode_utf8 (payload p_key) = Ret new_key ->
    exists l w',
      step_body action w = (Ret l, w')
      /\ out_obs l = Some out
      /\ (new_key <> "" ->
          turn_key (self w') = new_key
          /\ (sent <> 0 -> turn l = false)
          /\ (sent = 0 -> turn l = true))
      /\ (new_key = "" ->
          turn_key (self w') = turn_key (self w)
          /\ turn l = (sent =? 0)).
Proof.
  intros action w fd options command p_obs p_reply infos info p_key rest
         r d sent out g' new_key
         Hdone Hopt Hlt Hsock Hcmd Hq Hreply Hinfo Hobs Hkey.
  assert (Hturnkey : (options <? 2) = true) by (apply Z.ltb_lt; exact Hlt).
  unfold step_body.
  erewrite bind_ret by reflexivity.
  rewrite Hopt.
  erewrite bind_ret by (unfold lift; rewrite Hcmd; reflexivity).
  rewrite Hdone, Hsock, Hturnkey. cbn [negb].
  erewrite bind_ret by (eapply send_message_open; exact Hq).
  erewrite bind_ret by (eapply send_message_open; simpl; exact Hq).
  erewrite bind_ret by (eapply recv_message_open; simpl; exact Hq).
  erewrite bind_ret by (eapply recv_message_open; simpl; apply sock_lookup_head).
  erewrite bind_ret by (unfold lift; rewrite Hreply; reflexivity).
  cbv beta iota.
  erewrite bind_ret by reflexivity.
  unfold info_exchange in Hinfo.
  destruct ((options =? 0) || (options =? 2)).
  - destruct Hinfo as [p [text [-> [Htext ->]]]].
    erewrite bind_ret;
      [| erewrite bind_ret by (eapply recv_message_open; simpl; apply sock_lookup_head);
         erewrite bind_ret by (unfold lift; rewrite Htext; reflexivity);
         reflexivity ].
    erewrite bind_ret;
      [| unfold decode; erewrite bind_ret by reflexivity;
         unfold with_rng; simpl; rewrite Hobs; reflexivity ].
    erewrite bind_ret;
      [| erewrite bind_ret by (eapply recv_message_open; simpl; apply sock_lookup_head);
         unfold lift; rewrite Hkey; reflexivity ].
    destruct (String.eqb new_key "") eqn:Ek; simpl.
    + apply String.eqb_eq in Ek. subst new_key.
      eexists. eexists. split; [reflexivity|]. simpl.
      repeat split; try congruence.
    + apply String.eqb_neq in Ek.
      erewrite bind_ret by reflexivity.
      eexists. eexists. split; [reflexivity|]. simpl.
      repeat split; try congruence.
      * intros Hs. apply Z.eqb_neq in Hs. rewrite Hs. reflexivity.
      * intros ->. reflexivity.
  - destruct Hinfo as [-> ->].
    erewrite bind_ret by reflexivity.
    erewrite bind_ret;
      [| unfold decode; erewrite bind_ret by reflexivity;
         unfold with_rng; simpl; rewrite Hobs; reflexivity ].
    erewrite bind_ret;
      [| erewrite bind_ret by (eapply recv_message_open; simpl; apply sock_lookup_head);
         unfold lift; rewrite Hkey; reflexivity ].
    destruct (String.eqb new_key "") eqn:Ek; simpl.
    + apply String.eqb_eq in Ek. subst new_key.
      eexists. eexists. split; [reflexivity|]. simpl.
      repeat split; try congruence.
    + apply String.eqb_neq in Ek.
      erewrite bind_ret by reflexivity.
      eexists. eexists. split; [reflexivity|]. simpl.
      repeat split; try congruence.
      * intros Hs. apply Z.eqb_neq in Hs. rewrite Hs. reflexivity.
      * intros ->. reflexivity.
Qed.

(** ** [_peek_obs] *)

Lemma sock_lookup_removed :
  forall fd l, sock_lookup fd (sock_remove fd l) = None.
Proof.
  intros fd l. induction l as [|[fd' q] l IH]; simpl; [reflexivity|].
  destruct (Nat.eqb fd fd') eqn:E; [exact IH|].
  simpl. rewrite E. exact IH.
Qed.

(** The decoder touches nothing of the world but the generator. *)
Lemma decode_frame :
  forall obs info w, exists r g, decode obs info w = (r, with_gen g w).
Proof.
  intros obs info w. unfold decode.
  erewrite bind_ret by reflexivity. unfold with_rng.
  destruct (_process_observation _ _ _ _ obs info (gen w)) as [r g].
  exists r, g. reflexivity.
Qed.

(** C3. The first peek, when the observation that comes back is empty:
    within the ceiling, [_peek_obs] sleeps once and goes on to decode the
    empty frame; it sends one [<Peek/>] and reads nothing of what the peer
    has ready after the first answer.  Past the ceiling it closes the
    connection, forgets it and raises [MissionInitException]. *)
Theorem peek_polls_once :
  forall w fd p_obs p_info p_reply rest info d,
    done (self w) = false ->
    client_socket (self w) = Some fd ->
    sock_lookup fd (socks w) = Some (p_obs :: p_info :: p_reply :: rest) ->
    payload p_obs = "" ->
    decode_utf8 (payload p_info) = Ret info ->
    unpack_b (payload p_reply) = Ret d ->
    (latency p_obs + latency p_info + latency p_reply <= MAX_WAIT ->
     exists r w',
       _peek_obs w = (r, w')
       /\ trace w' = EvSleep 100 :: EvRecv fd (payload p_reply)
                     :: EvRecv fd (payload p_info) :: EvRecv fd ""
                     :: EvSend fd ReqPeek :: trace w
       /\ sock_lookup fd (socks w') = Some rest
       /\ client_socket (self w') = Some fd)
    /\ (MAX_WAIT < latency p_obs + latency p_info + latency p_reply ->
        exists w',
          _peek_obs w
          = (Raise (MissionInitException "too long waiting for first observation"), w')
          /\ trace w' = EvClose fd :: EvRecv fd (payload p_reply)
                        :: EvRecv fd (payload p_info) :: EvRecv fd ""
                        :: EvSend fd ReqPeek :: trace w
          /\ sock_lookup fd (socks w') = None
          /\ client_socket (self w') = None).
Proof.
  intros w fd p_obs p_info p_reply rest info d
         Hdone Hsock Hq Hempty Hinfo Hreply.
  assert (Hrun :
    forall k : option string * option string -> W (observation * list (string * pyval)),
      bind (send_message (Some fd) ReqPeek ;;
            obs <- recv_message (Some fd) ;;
            data <- recv_message (Some fd) ;;
            info <- lift (decode_utf8 data) ;;
            reply <- recv_message (Some fd) ;;
            d <- lift (unpack_b reply) ;;
            set_self (set_done (d =? 1)) ;;
            (if (String.length obs =? 0)%nat then
               now <- time_time ;;
               (if now - clock w >? MAX_WAIT then
                  match Some fd with
                  | Some fd => close_socket fd
                  | None => raise AttributeError
                  end ;;
                  set_self (set_client_socket None) ;;
                  raise (MissionInitException "too long waiting for first observation")
                else ret tt) ;;
               time_sleep 100
             else ret tt) ;;
            ret (Some obs, Some info)) k w
      = bind ((if latency p_obs + latency p_info + latency p_reply >? MAX_WAIT then
                 close_socket fd ;;
                 set_self (set_client_socket None) ;;
                 raise (MissionInitException "too long waiting for first observation")
               else ret tt) ;;
              time_sleep 100 ;;
              ret (Some "", Some info)) k
             (with_self (set_done (d =? 1))
                (with_trace (EvRecv fd (payload p_reply))
                   (with_clock (clock w + latency p_obs + latency p_info + latency p_reply)
                      (with_socks ((fd, rest) :: sock_remove fd
                                     ((fd, p_reply :: rest) :: sock_remove fd
                                        ((fd, p_info :: p_reply :: rest)
                                           :: sock_remove fd (socks w))))
                         (with_trace (EvRecv fd (payload p_info))
                            (with_trace (EvRecv fd "")
                               (with_trace (EvSend fd ReqPeek) w)))))))).
  { intros k. unfold bind at 1.
    erewrite bind_ret by (eapply send_message_open; exact Hq).
    erewrite bind_ret by (eapply recv_message_open; simpl; exact Hq).
    erewrite bind_ret by (eapply recv_message_open; simpl; apply sock_lookup_head).
    erewrite bind_ret by (unfold lift; rewrite Hinfo; reflexivity).
    erewrite bind_ret by (eapply recv_message_open; simpl; apply sock_lookup_head).
    erewrite bind_ret by (unfold lift; rewrite Hreply; reflexivity).
    erewrite bind_ret by reflexivity.
    rewrite Hempty. cbn [String.length Nat.eqb].
    unfold bind, time_time, modify, set_self. simpl.
    replace (clock w + latency p_obs + latency p_info + latency p_reply - clock w)
      with (latency p_obs + latency p_info + latency p_reply) by lia.
    destruct (latency p_obs + latency p_info + latency p_reply >? MAX_WAIT);
      reflexivity. }
  unfold _peek_obs.
  erewrite bind_ret by reflexivity.
  erewrite bind_ret by reflexivity.
  rewrite Hdone, Hsock. cbn [negb].
  rewrite Hrun. clear Hrun.
  split; intros Hlat.
  - assert (E : (latency p_obs + latency p_info + latency p_reply >? MAX_WAIT) = false).
    { rewrite Z.gtb_ltb. apply Z.ltb_ge. exact Hlat. }
    rewrite E.
    erewrite bind_ret; [| erewrite bind_ret by reflexivity;
                          erewrite bind_ret by reflexivity; reflexivity ].
    cbv beta iota.
    match goal with
    | |- context [ bind (decode ?o ?i) _ ?w0 ] =>
        destruct (decode_frame o i w0) as [r [g Hd]]
    end.
    unfold bind at 1. rewrite Hd.
    destruct r as [out|e|]; eexists; eexists; (split; [reflexivity|]); simpl;
      rewrite Hsock; repeat split; rewrite Nat.eqb_refl; reflexivity.
  - assert (E : (latency p_obs + latency p_info + latency p_reply >? MAX_WAIT) = true).
    { rewrite Z.gtb_ltb. apply Z.ltb_lt. exact Hlat. }
    rewrite E.
    erewrite bind_raise;
      [| erewrite bind_raise;
         [reflexivity
         | erewrite bind_ret by reflexivity;
           erewrite bind_ret by reflexivity; reflexivity ] ].
    eexists. split; [reflexivity|].
    repeat split; try reflexivity.
    apply sock_lookup_removed.
Qed.

(** ** [init] *)

Lemma bind_inv :
  forall (S A B : Type) (m : M S A) (k : A -> M S B) s b s',
    bind m k s = (Ret b, s') ->
    exists a s1, m s = (Ret a, s1) /\ k a s1 = (Ret b, s').
Proof.
  intros S A B m k s b s' H. unfold bind in H.
  destruct (m s) as [[a| |] s1]; try discriminate.
  exists a, s1. split; [reflexivity | exact H].
Qed.


Lemma locate_mission_lacking :
  forall xml0, lacks_marker xml0 -> locate_mission xml0 = Raise ValueError.
Proof.
  intros xml0 H. unfold locate_mission.
  destruct (String.prefix "<Mission" xml0) eqn:E.
  - apply prefix_correct in E. exfalso. exact (H 0%nat E).
  - simpl. unfold str_index.
    destruct (String.index 0 "<Mission" xml0) as [i|] eqn:Ei; [|reflexivity].
    apply index_correct1 in Ei. exfalso. exact (H i Ei).
Qed.

Lemma locate_mission_never_EnvException :
  forall xml0 message, locate_mission xml0 <> Raise (EnvException message).
Proof.
  intros xml0 message. unfold locate_mission.
  destruct (String.prefix "<Mission" xml0); simpl; [discriminate|].
  unfold str_index.
  destruct (String.index 0 "<Mission" xml0) as [i|]; simpl; [|discriminate].
  destruct (Z.of_nat i =? -1) eqn:E; [|discriminate].
  apply Z.eqb_eq in E. lia.
Qed.

(** The first statements of [init], up to the parse of the mission. *)
Lemma init_reaches_locate :
  forall w, instance_ready w ->
    exists w1,
      match instance (self w) with
      | None => w0 <- get ;; i <- lift (launcher w0) ;; set_self (set_instance (Some i))
      | Some _ => ret tt
      end w = (Ret tt, w1)
      /\ files w1 = files w /\ trace w1 = trace w
      /\ xml_file (self w1) = xml_file (self w)
      /\ fresh_uuid w1 = fresh_uuid w.
Proof.
  intros w H. unfold instance_ready in H.
  destruct (instance (self w)) as [i|].
  - exists w. repeat split.
  - destruct H as [i Hi].
    erewrite bind_ret by reflexivity.
    erewrite bind_ret by (unfold lift; rewrite Hi; reflexivity).
    eexists. split; [reflexivity|]. repeat split.
Qed.

(** C7. A template in which, once [$(MISSIONS_DIR)] is replaced, [<Mission]
    occurs nowhere makes [init] fail, but with the [ValueError] of
    [str.index] and not with the [EnvException] written under it: no text
    makes the search for the marker raise that exception. *)
Theorem init_without_mission_marker :
  forall observation_space' action_space' exp_uid' episode action_filter
         resync' step_options' w text,
    instance_ready w ->
    files w (xml_file (self w)) = Some text ->
    lacks_marker (str_replace text "$(MISSIONS_DIR)" missions_dir) ->
    (exists w',
        init observation_space' action_space' exp_uid' episode action_filter
             resync' step_options' w = (Raise ValueError, w')
        /\ trace w' = trace w)
    /\ (forall xml0 message, locate_mission xml0 <> Raise (EnvException message)).
Proof.
  intros observation_space' action_space' exp_uid' episode action_filter
         resync' step_options' w text Hready Hfile Hlack.
  split; [|apply locate_mission_never_EnvException].
  destruct (init_reaches_locate w Hready) as [w1 [H1 [Hf [Ht [Hx Hu]]]]].
  unfold init.
  erewrite bind_ret by reflexivity.
  erewrite bind_ret by exact H1.
  erewrite bind_ret by reflexivity.
  erewrite bind_ret by (rewrite Hf, Hfile; reflexivity).
  erewrite bind_raise
    by (unfold lift; rewrite (locate_mission_lacking _ Hlack); reflexivity).
  exists w1. split; [reflexivity | exact Ht].
Qed.

Lemma ret_inv :
  forall (S A : Type) (a b : A) (s s' : S),
    ret a s = (Ret b, s') -> a = b /\ s' = s.
Proof. intros S A a b s s' H. inversion H. split; reflexivity. Qed.

Lemma lift_inv :
  forall (S A : Type) (o : outcome A) (a : A) (s s' : S),
    lift o s = (Ret a, s') -> o = Ret a /\ s' = s.
Proof. intros S A o a s s' H. inversion H. split; reflexivity. Qed.

Lemma get_inv :
  forall (S : Type) (a s s' : S), get s = (Ret a, s') -> a = s /\ s' = s.
Proof. intros S a s s' H. inversion H. split; reflexivity. Qed.

Lemma get_self_inv :
  forall a w w', get_self w = (Ret a, w') -> a = self w /\ w' = w.
Proof. intros a w w' H. inversion H. split; reflexivity. Qed.

Lemma set_self_inv :
  forall f a w w', set_self f w = (Ret a, w') -> w' = with_self f w.
Proof. intros f a w w' H. inversion H. reflexivity. Qed.

Lemma raise_inv :
  forall (S A : Type) (e : exn) (a : A) (s s' : S),
    raise e s = (Ret a, s') -> False.
Proof. intros S A e a s s' H. discriminate H. Qed.

(** Take apart a run that returned: one equation for each statement. *)
Ltac unwind H :=
  cbv beta in H;
  lazymatch type of H with
  | bind _ _ _ = (Ret _, _) =>
      let a := fresh "a" in
      let w := fresh "w" in
      let E := fresh "E" in
      apply bind_inv in H; destruct H as (a & w & E & H);
      unwind E; unwind H
  | (match ?x with _ => _ end) _ = (Ret _, _) =>
      destruct x eqn:?; unwind H
  | set_self _ _ = _ => apply set_self_inv in H; subst
  | get_self _ = _ => apply get_self_inv in H; destruct H; subst
  | get _ = _ => apply get_inv in H; destruct H; subst
  | ret _ _ = _ => apply ret_inv in H; destruct H; subst
  | lift _ _ = _ => apply lift_inv in H; destruct H as [H ?]; subst
  | raise _ _ = _ => exfalso; exact (raise_inv _ _ _ _ _ _ H)
  end.

(** C10. Whatever its arguments and whatever the template holds, a call of
    [init] that returns leaves the role 0, the agent count 1, the turn key
    empty and [done] set; and a template whose mission parses to a tree with
    a [TurnBasedCommands] element below its root makes [init] raise
    [NotImplementedError]. *)
Theorem init_forces_single_agent :
  forall observation_space' action_space' exp_uid' episode action_filter
         resync' step_options' w,
    (forall w',
        init observation_space' action_space' exp_uid' episode action_filter
             resync' step_options' w = (Ret tt, w') ->
        role (self w') = 0 /\ agent_count (self w') = 1
        /\ turn_key (self w') = "" /\ done (self w') = true)
    /\ (forall text xml1 mission,
           instance_ready w ->
           files w (xml_file (self w)) = Some text ->
           locate_mission (str_replace text "$(MISSIONS_DIR)" missions_dir) = Ret xml1 ->
           fromstring xml1 = Ret mission ->
           find_below (ns ++ "TurnBasedCommands") mission <> None ->
           exists w',
             init observation_space' action_space' exp_uid' episode action_filter
                  resync' step_options' w = (Raise NotImplementedError, w')).
Proof.
  intros observation_space' action_space' exp_uid' episode action_filter
         resync' step_options' w.
  split.
  - intros w' H. unfold init in H. unwind H.
    all: repeat split; reflexivity.
  - intros text xml1 mission Hready Hfile Hloc Hparse Hturn.
    destruct (init_reaches_locate w Hready) as [w1 [H1 [Hf [Ht [Hx Hu]]]]].
    unfold init.
    erewrite bind_ret by reflexivity.
    erewrite bind_ret by exact H1.
    erewrite bind_ret by reflexivity.
    erewrite bind_ret by (rewrite Hf, Hfile; reflexivity).
    erewrite bind_ret by (unfold lift; rewrite Hloc; reflexivity).
    erewrite bind_ret by (unfold lift; rewrite Hparse; reflexivity).
    do 6 (erewrite bind_ret by reflexivity).
    destruct (find_below (ns ++ "TurnBasedCommands") mission); [|congruence].
    erewrite bind_raise by reflexivity.
    eexists. reflexivity.
Qed.

(** ** [status] and [resync] *)

Lemma count_app :
  forall f a b, count f (a ++ b)%list = (count f a + count f b)%nat.
Proof. intros f a b. unfold count. rewrite filter_app, length_app. reflexivity. Qed.

Lemma instance_address_some :
  forall head w i,
    instance (self w) = Some i ->
    instance_address head w
    = (Ret (if head then (host i, port i) else (host2 i, port2 i)), w).
Proof.
  intros head w i H. unfold instance_address.
  erewrite bind_ret by reflexivity. rewrite H. reflexivity.
Qed.

Lemma instance_address_none :
  forall head w,
    instance (self w) = None ->
    instance_address head w = (Raise AttributeError, w).
Proof.
  intros head w H. unfold instance_address.
  erewrite bind_ret by reflexivity. rewrite H. reflexivity.
Qed.

(** One status request: it ends, makes at most one connection attempt and
    never pauses. *)
Lemma status_once :
  forall head w,
    exists r w' evs,
      status head w = (r, w')
      /\ r <> Diverge
      /\ trace w' = (evs ++ trace w)%list
      /\ count is_sleep evs = 0%nat
      /\ (count is_dial evs <= 1)%nat.
Proof.
  intros head w. unfold status.
  destruct (instance (self w)) as [i|] eqn:Hi.
  2:{ erewrite bind_raise by (apply instance_address_none; exact Hi).
      exists (Raise AttributeError), w, []. repeat split; simpl; auto; discriminate. }
  erewrite bind_ret by (apply instance_address_some; exact Hi).
  set (peer := if head then (host i, port i) else (host2 i, port2 i)).
  unfold bind at 1, connect at 1.
  destruct (dials w) as [|[|replies] rest].
  - eexists; eexists; exists [EvRefused peer].
    split; [reflexivity|]. repeat split; simpl; auto; discriminate.
  - eexists; eexists; exists [EvRefused peer].
    split; [reflexivity|]. repeat split; simpl; auto; discriminate.
  - unfold _hello.
    erewrite bind_ret by (eapply send_message_open; simpl; apply sock_lookup_head).
    erewrite bind_ret by (eapply send_message_open; simpl; apply sock_lookup_head).
    destruct replies as [|p q].
    + erewrite bind_raise
        by (unfold recv_message; simpl; rewrite Nat.eqb_refl; reflexivity).
      eexists; eexists;
        exists [EvSend (next_fd w) ReqStatus; EvSend (next_fd w) ReqHello;
                EvConnect (next_fd w) peer].
      split; [reflexivity|]. repeat split; simpl; auto; discriminate.
    + erewrite bind_ret by (eapply recv_message_open; simpl; apply sock_lookup_head).
      destruct (decode_utf8 (payload p)) as [text|e|] eqn:E.
      * erewrite bind_ret by reflexivity.
        erewrite bind_ret by reflexivity.
        eexists; eexists;
          exists [EvClose (next_fd w); EvRecv (next_fd w) (payload p);
                  EvSend (next_fd w) ReqStatus; EvSend (next_fd w) ReqHello;
                  EvConnect (next_fd w) peer].
        split; [reflexivity|]. repeat split; simpl; auto; discriminate.
      * erewrite bind_raise by reflexivity.
        eexists; eexists;
          exists [EvRecv (next_fd w) (payload p);
                  EvSend (next_fd w) ReqStatus; EvSend (next_fd w) ReqHello;
                  EvConnect (next_fd w) peer].
        split; [reflexivity|]. repeat split; simpl; auto; discriminate.
      * unfold decode_utf8 in E. destruct (utf8_ok _); discriminate.
Qed.

(** The polling of one endpoint: it returns; it has made at most [n]
    connection attempts; every pause lasts ten seconds; it gives up exactly
    after [n] failures, each followed by its pause. *)
Lemma poll_status_spec :
  forall n head w,
    exists reached w' evs,
      poll_status n head w = (Ret reached, w')
      /\ trace w' = (evs ++ trace w)%list
      /\ pauses_of 10000 evs
      /\ (count is_dial evs <= n)%nat
      /\ (reached = false -> count is_sleep evs = n)
      /\ (reached = true -> (count is_sleep evs < n)%nat).
Proof.
  induction n as [|n IH]; intros head w.
  - exists false, w, []. simpl. repeat split; auto; try discriminate.
    constructor.
  - destruct (status_once head w) as [r [w1 [evs1 [Hs [Hnd [Ht [Hsl Hdl]]]]]]].
    assert (Hquiet : pauses_of 10000 evs1).
    { unfold pauses_of. apply Forall_forall. intros ev Hin Hsleep.
      exfalso. unfold count in Hsl.
      assert (Hf : In ev (filter is_sleep evs1)) by (apply filter_In; auto).
      destruct (filter is_sleep evs1); [contradiction | discriminate]. }
    simpl. unfold try_except.
    destruct r as [text|e|]; [| |congruence].
    + erewrite bind_ret by exact Hs.
      exists true, w1, evs1. repeat split; auto; try discriminate; lia.
    + erewrite bind_raise by exact Hs.
      unfold bind at 1, time_sleep, modify.
      destruct (IH head (with_trace (EvSleep 10000)
                           (with_clock (clock w1 + 10000) w1)))
        as [b [w2 [evs2 [Hp [Ht2 [Hq2 [Hd2 [Hf2 Ht2']]]]]]]].
      rewrite Hp.
      exists b, w2, (evs2 ++ EvSleep 10000 :: evs1)%list.
      split; [reflexivity|].
      split. { rewrite Ht2. simpl. rewrite Ht, <- app_assoc. reflexivity. }
      split. { unfold pauses_of in *. apply Forall_app. split; [exact Hq2|].
               constructor; [intros _; reflexivity | exact Hquiet]. }
      rewrite !count_app.
      change (count is_dial (EvSleep 10000 :: evs1)) with (count is_dial evs1).
      change (count is_sleep (EvSleep 10000 :: evs1)) with (S (count is_sleep evs1)).
      rewrite Hsl.
      repeat split.
      * lia.
      * intros Hb. specialize (Hf2 Hb). lia.
      * intros Hb. specialize (Ht2' Hb). lia.
Qed.





(** ** Relations a run keeps

    For a reflexive and transitive [I], [keeps I] goes through [bind], so it
    is enough to look at the primitives. *)
Section Keeps.

Variable I : world -> world -> Prop.
Hypothesis I_refl : forall w, I w w.
Hypothesis I_trans : forall a b c, I a b -> I b c -> I a c.

Lemma keeps_ret : forall (A : Type) (a : A), keeps I (ret a).
Proof. intros A a w r w' H. inversion H. apply I_refl. Qed.

Lemma keeps_raise : forall (A : Type) (e : exn), keeps I (@raise world A e).
Proof. intros A e w r w' H. inversion H. apply I_refl. Qed.

Lemma keeps_lift : forall (A : Type) (o : outcome A), keeps I (lift o).
Proof. intros A o w r w' H. inversion H. apply I_refl. Qed.

Lemma keeps_diverge : forall (A : Type), keeps I (@diverge A).
Proof. intros A w r w' H. inversion H. apply I_refl. Qed.

Lemma keeps_get : keeps I get.
Proof. intros w r w' H. inversion H. apply I_refl. Qed.

Lemma keeps_get_self : keeps I get_self.
Proof. intros w r w' H. inversion H. apply I_refl. Qed.

Lemma keeps_time_time : keeps I time_time.
Proof. intros w r w' H. inversion H. apply I_refl. Qed.

Lemma keeps_bind :
  forall (A B : Type) (m : W A) (k : A -> W B),
    keeps I m -> (forall a, keeps I (k a)) -> keeps I (bind m k).
Proof.
  intros A B m k Hm Hk w r w' H. unfold bind in H.
  destruct (m w) as [[a|e|] w1] eqn:E.
  - eapply I_trans; [eapply Hm; exact E | eapply Hk; exact H].
  - inversion H; subst. eapply Hm; exact E.
  - inversion H; subst. eapply Hm; exact E.
Qed.

Lemma keeps_try_except :
  forall (A : Type) (m : W A) (h : exn -> W A),
    keeps I m -> (forall e, keeps I (h e)) -> keeps I (try_except m h).
Proof.
  intros A m h Hm Hh w r w' H. unfold try_except in H.
  destruct (m w) as [[a|e|] w1] eqn:E.
  - inversion H; subst. eapply Hm; exact E.
  - eapply I_trans; [eapply Hm; exact E | eapply Hh; exact H].
  - inversion H; subst. eapply Hm; exact E.
Qed.

Lemma keeps_modify :
  forall f : world -> world, (forall w, I w (f w)) -> keeps I (modify f).
Proof. intros f Hf w r w' H. inversion H. apply Hf. Qed.

Lemma keeps_set_self :
  forall f, (forall w, I w (with_self f w)) -> keeps I (set_self f).
Proof. intros f Hf. unfold set_self. apply keeps_modify. exact Hf. Qed.

Lemma keeps_with_rng :
  forall (A : Type) (m : M rng A),
    (forall w g, I w (with_gen g w)) -> keeps I (with_rng m).
Proof.
  intros A m Hg w r w' H. unfold with_rng in H.
  destruct (m (gen w)) as [r0 g]. inversion H. apply Hg.
Qed.

Lemma keeps_time_sleep :
  forall ms,
    (forall w, I w (with_trace (EvSleep ms) (with_clock (clock w + ms) w))) ->
    keeps I (time_sleep ms).
Proof. intros ms Hs. unfold time_sleep. apply keeps_modify. exact Hs. Qed.

Lemma keeps_close_socket :
  forall fd,
    (forall w, I w (with_trace (EvClose fd)
                      (with_socks (sock_remove fd (socks w)) w))) ->
    keeps I (close_socket fd).
Proof. intros fd Hc. unfold close_socket. apply keeps_modify. exact Hc. Qed.

Lemma keeps_send_message :
  forall sock r,
    (forall w fd, I w (with_trace (EvSend fd r) w)) ->
    keeps I (send_message sock r).
Proof.
  intros sock r Hs w res w' H. unfold send_message in H.
  destruct sock as [fd|]; [|inversion H; apply I_refl].
  destruct (sock_lookup fd (socks w)); inversion H; [apply Hs | apply I_refl].
Qed.

Lemma keeps_recv_message :
  forall sock,
    (forall w fd data t l,
        I w (with_trace (EvRecv fd data) (with_clock t (with_socks l w)))) ->
    keeps I (recv_message sock).
Proof.
  intros sock Hr w res w' H. unfold recv_message in H.
  destruct sock as [fd|]; [|inversion H; apply I_refl].
  destruct (sock_lookup fd (socks w)) as [[|p q]|];
    inversion H; try apply I_refl. apply Hr.
Qed.

Lemma keeps_connect :
  forall peer,
    (forall w fd l rest,
        I w (with_trace (EvConnect fd peer) (with_socks l (with_dialled rest w)))) ->
    (forall w rest, I w (with_trace (EvRefused peer) (with_dialled rest w))) ->
    (forall w, I w (with_trace (EvRefused peer) w)) ->
    keeps I (connect peer).
Proof.
  intros peer Ha Hr Hn w res w' H. unfold connect in H.
  destruct (dials w) as [|[|replies] rest]; inversion H; auto.
Qed.

End Keeps.

(** Reduce a goal [keeps I m] to what [I] must allow of the primitives
    [m] runs; [leaf] settles those. *)
Ltac keeps_with leaf :=
  repeat first
    [ apply keeps_ret; [leaf..]
    | apply keeps_raise; [leaf..]
    | apply keeps_lift; [leaf..]
    | apply keeps_diverge; [leaf..]
    | apply keeps_get; [leaf..]
    | apply keeps_get_self; [leaf..]
    | apply keeps_time_time; [leaf..]
    | assumption
    | apply keeps_bind; [leaf | | intros ?]
    | apply keeps_try_except; [leaf | | intros ?]
    | apply keeps_set_self; [leaf..]
    | apply keeps_with_rng; [leaf..]
    | apply keeps_time_sleep; [leaf..]
    | apply keeps_close_socket; [leaf..]
    | apply keeps_send_message; [leaf..]
    | apply keeps_recv_message; [leaf..]
    | apply keeps_connect; [leaf..]
    | match goal with
      | |- keeps _ (match ?x with _ => _ end) => destruct x
      end ].

(** ** [reset]: the prior episode is drained before the handshake *)

Lemma extends_by_refl : forall P w, extends_by P w w.
Proof. intros P w. exists []. split; [reflexivity | constructor]. Qed.

Lemma extends_by_trans :
  forall P a b c, extends_by P a b -> extends_by P b c -> extends_by P a c.
Proof.
  intros P a b c [e1 [H1 F1]] [e2 [H2 F2]].
  exists (e2 ++ e1)%list. split.
  - rewrite H2, H1, app_assoc. reflexivity.
  - apply Forall_app. split; assumption.
Qed.

Lemma extends_by_event :
  forall (P : event -> Prop) ev w w1,
    P ev -> trace w1 = trace w -> extends_by P w (with_trace ev w1).
Proof.
  intros P ev w w1 Hp Ht. exists [ev]. split.
  - simpl. rewrite Ht. reflexivity.
  - constructor; [exact Hp | constructor].
Qed.

Lemma extends_by_same :
  forall (P : event -> Prop) w w1, trace w1 = trace w -> extends_by P w w1.
Proof. intros P w w1 Ht. exists []. split; [exact Ht | constructor]. Qed.




Ltac later_leaf :=
  first
    [ exact (extends_by_refl (fun _ => True))
    | exact (extends_by_trans (fun _ => True))
    | intros;
      first [ apply extends_by_event; [exact Logic.I | reflexivity]
            | apply extends_by_same; reflexivity ] ].









Lemma drain_unfold :
  forall fuel w,
    drain fuel w =
    (if done (self w) then (Ret tt, w)
     else match fuel with
          | O => (Diverge, w)
          | S fuel' =>
              (d <- _quit_episode ;;
               set_self (set_done d) ;;
               (if negb d then time_sleep 100 else ret tt) ;;
               drain fuel') w
          end).
Proof.
  intros fuel w. destruct fuel; simpl; unfold bind at 1, get_self;
    destruct (done (self w)); reflexivity.
Qed.










(** ** The observation codec *)






Lemma assoc_set_same :
  forall (A : Type) k (v : A) d, assoc k (assoc_set k v d) = Some v.
Proof.
  intros A k v d. induction d as [|[k' v'] d IH]; simpl.
  - rewrite String.eqb_refl. reflexivity.
  - destruct (String.eqb k k') eqn:E; simpl; rewrite E; [reflexivity | exact IH].
Qed.

Lemma assoc_set_other :
  forall (A : Type) k k0 (v : A) d,
    k <> k0 -> assoc k (assoc_set k0 v d) = assoc k d.
Proof.
  intros A k k0 v d Hne. induction d as [|[k' v'] d IH]; simpl.
  - apply String.eqb_neq in Hne. rewrite Hne. reflexivity.
  - destruct (String.eqb k0 k') eqn:E; simpl.
    + apply String.eqb_eq in E. subst k'.
      apply String.eqb_neq in Hne. rewrite Hne. reflexivity.
    + destruct (String.eqb k k'); [reflexivity | exact IH].
Qed.


Lemma sample_fields_keys :
  forall fields g entries g',
    (fix sample_fields (fs : list (string * space))
       : M rng (list (string * pyval)) :=
       match fs with
       | [] => ret []
       | (k, sub) :: rest =>
           v <- sample sub ;;
           vs <- sample_fields rest ;;
           ret ((k, v) :: vs)
       end) fields g = (Ret entries, g') ->
    keys entries = keys fields.
Proof.
  induction fields as [|[k sub] rest IH]; intros g entries g' H.
  - apply ret_inv in H. destruct H as [<- _]. reflexivity.
  - apply bind_inv in H. destruct H as (v & g1 & _ & H).
    apply bind_inv in H. destruct H as (vs & g2 & Hvs & H).
    apply ret_inv in H. destruct H as [<- _].
    simpl. f_equal. eapply IH. exact Hvs.
Qed.

Lemma sample_Dict_keys :
  forall fields g c g',
    sample (Dict fields) g = (Ret c, g') ->
    exists entries, c = PDict entries /\ keys entries = keys fields.
Proof.
  intros fields g c g' H. cbn [sample] in H.
  apply bind_inv in H. destruct H as (entries & g1 & He & H).
  apply ret_inv in H. destruct H as [<- _].
  exists entries. split; [reflexivity|].
  eapply sample_fields_keys. exact He.
Qed.

Lemma zero_entries_key :
  forall todo correction k zeroed k',
    zero_entries todo correction k = Ret (zeroed, k') ->
    k' = k \/ In k' todo.
Proof.
  induction todo as [|k1 todo IH]; intros correction k zeroed k' H; simpl in H.
  - inversion H. left. reflexivity.
  - destruct (assoc k1 correction) as [v|]; [|discriminate H].
    destruct (py_imul_zero v) as [z|e|]; simpl in H; try discriminate H.
    apply IH in H. destruct H as [-> | H]; right; simpl; auto.
Qed.

(** The key under which one turn of the loop stores: the declared field,
    or a field of the mapping it sampled. *)
Lemma fill_field_key :
  forall k sp info obs g info1 obs1 g1,
    fill_field k sp (info, obs) g = (Ret (info1, obs1), g1) ->
    obs1 = obs
    \/ exists k' v,
        obs1 = assoc_set k' v obs
        /\ ((k' = k /\ k <> "pov")
            \/ exists fields, sp = Dict fields /\ In k' (keys fields)).
Proof.
  intros k sp info obs g info1 obs1 g1 H. unfold fill_field in H.
  destruct (String.eqb k "pov") eqn:Epov.
  { apply ret_inv in H. destruct H as [H _]. inversion H. left. reflexivity. }
  apply String.eqb_neq in Epov.
  apply bind_inv in H. destruct H as (present & g2 & _ & H).
  apply bind_inv in H. destruct H as ([info' k'] & g3 & Hmid & H).
  apply bind_inv in H. destruct H as (v & g4 & _ & H).
  apply ret_inv in H. destruct H as [H _]. inversion H; subst info1 obs1.
  right. exists k', v. split; [reflexivity|].
  destruct present; cbn [negb] in Hmid.
  - apply ret_inv in Hmid. destruct Hmid as [Hmid _]. inversion Hmid; subst.
    left. split; [reflexivity | exact Epov].
  - apply bind_inv in Hmid. destruct Hmid as (correction & g5 & Hs & Hmid).
    apply bind_inv in Hmid. destruct Hmid as ([correction' k''] & g6 & Hz & Hmid).
    apply bind_inv in Hmid. destruct Hmid as (info'' & g7 & _ & Hmid).
    apply ret_inv in Hmid. destruct Hmid as [Hmid _]. inversion Hmid; subst info'' k''.
    apply lift_inv in Hz. destruct Hz as [Hz _].
    destruct sp as [low high shape|values|fields].
    + destruct correction; simpl in Hz; inversion Hz; subst;
        left; (split; [reflexivity | assumption]).
    + destruct correction; simpl in Hz; inversion Hz; subst;
        left; (split; [reflexivity | assumption]).
    + destruct (sample_Dict_keys _ _ _ _ Hs) as (entries & -> & Hk).
      cbn [is_Dict] in Hz.
      destruct (zero_entries (keys entries) entries k) as [[zeroed kz]|e|] eqn:Ez;
        simpl in Hz; try discriminate Hz.
      inversion Hz; subst correction' kz.
      apply zero_entries_key in Ez. destruct Ez as [-> | Hin].
      * left. split; [reflexivity | exact Epov].
      * right. exists fields. split; [reflexivity|]. rewrite <- Hk. exact Hin.
Qed.






(** * Further properties of the codecs and of the protocol engine *)

(** ** The action codec: fields the space does not declare, indexes *)

Lemma py_index_in_range :
  forall (A : Type) (l : list A) (d : A) i,
    - Z.of_nat (length l) <= i < Z.of_nat (length l) ->
    py_index l i = Ret (nth (Z.to_nat (i mod Z.of_nat (length l))) l d).
Proof.
  intros A l d i H. unfold py_index.
  set (n := Z.of_nat (length l)) in *.
  assert (Hj : (if i <? 0 then i + n else i) = i mod n).
  { destruct (i <? 0) eqn:E.
    - apply Z.ltb_lt in E. apply Z.mod_unique with (q := -1); lia.
    - apply Z.ltb_ge in E. symmetry. apply Z.mod_small. lia. }
  rewrite Hj.
  assert (Hr : 0 <= i mod n < n) by (apply Z.mod_pos_bound; lia).
  assert (Hc : (i mod n <? 0) || (n <=? i mod n) = false).
  { apply orb_false_iff. split; [apply Z.ltb_ge | apply Z.leb_gt]; lia. }
  rewrite Hc.
  rewrite (nth_error_nth' l d); [reflexivity|].
  unfold n in Hr. lia.
Qed.

Lemma py_index_out_of_range :
  forall (A : Type) (l : list A) i,
    i < - Z.of_nat (length l) \/ Z.of_nat (length l) <= i ->
    py_index l i = Raise IndexError.
Proof.
  intros A l i H. unfold py_index.
  set (n := Z.of_nat (length l)) in *.
  assert (Hn : 0 <= n) by (unfold n; lia).
  destruct (i <? 0) eqn:E.
  - apply Z.ltb_lt in E.
    assert (Hc : (i + n <? 0) = true) by (apply Z.ltb_lt; lia).
    rewrite Hc. reflexivity.
  - apply Z.ltb_ge in E.
    assert (Hc : (n <=? i) = true) by (apply Z.leb_le; lia).
    rewrite Hc, orb_true_r. reflexivity.
Qed.

(** X1. An action that names a field the action space does not declare is
    refused with [KeyError] (the lookup [self.action_space.spaces[act]]),
    once the fields before it encode; the fields after it are not looked
    at. *)
Theorem action_undeclared_field :
  forall (spaces : space_map) before after act v lines,
    process_fields (Some spaces) before = Ret lines ->
    assoc act spaces = None ->
    _process_action (Some spaces) (before ++ (act, v) :: after)%list
    = Raise KeyError.
Proof.
  intros spaces before after act v lines Hb Hact.
  unfold _process_action. rewrite process_fields_app, Hb. simpl.
  unfold process_field. rewrite Hact. reflexivity.
Qed.

(** X2. An integer given for an enumeration field is an index into the
    declared [values] as Python reads it: between [-len] and [len - 1] it is
    accepted, a negative one counting from the end, and the line carries the
    member it selects; outside that range the encoder raises [IndexError]. *)
Theorem enum_index_wraps :
  forall (spaces : space_map) before after act values i lines lines',
    process_fields (Some spaces) before = Ret lines ->
    assoc act spaces = Some (Enum values) ->
    (- Z.of_nat (length values) <= i < Z.of_nat (length values) ->
     process_fields (Some spaces) after = Ret lines' ->
     _process_action (Some spaces) (before ++ (act, PInt i) :: after)%list
     = Ret (String.concat nl
              (lines
               ++ (act ++ " "
                   ++ nth (Z.to_nat (i mod Z.of_nat (length values))) values "")%string
               :: lines')%list))
    /\ (i < - Z.of_nat (length values) \/ Z.of_nat (length values) <= i ->
        _process_action (Some spaces) (before ++ (act, PInt i) :: after)%list
        = Raise IndexError).
Proof.
  intros spaces before after act values i lines lines' Hb Hact. split.
  - intros Hi Ha.
    unfold _process_action. rewrite process_fields_app, Hb. simpl.
    unfold process_field. rewrite Hact. simpl.
    rewrite (py_index_in_range _ values "" i Hi). simpl.
    rewrite Ha. reflexivity.
  - intros Hi.
    unfold _process_action. rewrite process_fields_app, Hb. simpl.
    unfold process_field. rewrite Hact. simpl.
    rewrite (py_index_out_of_range _ values i Hi). reflexivity.
Qed.

(** ** [step]: an action that does not encode *)

(** X3. [step] encodes the action before it touches the socket: when the
    encoder raises, [step] raises the same exception and the world is as it
    was, on a running session as on a done one: nothing is sent, the [done]
    flag and the turn key are untouched. *)
Theorem step_refuses_before_sending :
  forall action w options e,
    step_options (self w) = Some options ->
    _process_action (action_space (self w)) action = Raise e ->
    step action w = (Raise e, w).
Proof.
  intros action w options e Hopt He.
  unfold step. erewrite bind_raise; [reflexivity|].
  unfold step_body.
  erewrite bind_ret by reflexivity. rewrite Hopt.
  erewrite bind_raise; [reflexivity|].
  unfold lift. rewrite He. reflexivity.
Qed.

(** ** The frame of an observation *)

Lemma bytes_of_length : forall s, length (bytes_of s) = String.length s.
Proof. induction s as [|c s IH]; simpl; [reflexivity | rewrite IH; reflexivity]. Qed.

(** X4. A frame that is not empty is reshaped to height x width x depth
    with its bytes in their order when it has exactly that many bytes, and
    makes the decoder raise [ValueError] when it has not (no size is
    negative here). *)
Theorem decode_pov_frame :
  forall height width depth raw,
    0 <= height -> 0 <= width -> 0 <= depth ->
    raw <> "" ->
    (Z.of_nat (String.length raw) = height * width * depth ->
     decode_pov height width depth (Some raw)
     = Ret (PArr [height; width; depth] (bytes_of raw)))
    /\ (Z.of_nat (String.length raw) <> height * width * depth ->
        decode_pov height width depth (Some raw) = Raise ValueError).
Proof.
  intros height width depth raw Hh Hw Hd Hraw.
  assert (Hlen : (length (bytes_of raw) =? 0)%nat = false).
  { rewrite bytes_of_length. destruct raw; [congruence | reflexivity]. }
  assert (Eh : (height <? -1) = false) by (apply Z.ltb_ge; lia).
  assert (Ew : (width <? -1) = false) by (apply Z.ltb_ge; lia).
  assert (Ed : (depth <? -1) = false) by (apply Z.ltb_ge; lia).
  assert (Eh' : (height =? -1) = false) by (apply Z.eqb_neq; lia).
  assert (Ew' : (width =? -1) = false) by (apply Z.eqb_neq; lia).
  assert (Ed' : (depth =? -1) = false) by (apply Z.eqb_neq; lia).
  unfold decode_pov. rewrite Hlen. unfold np_reshape.
  cbn [existsb filter]. rewrite Eh, Ew, Ed, Eh', Ew', Ed'. cbn [orb].
  rewrite bytes_of_length. unfold product. cbn [fold_right].
  split; intros H.
  - assert (E : (height * (width * (depth * 1)) =? Z.of_nat (String.length raw)) = true)
      by (apply Z.eqb_eq; lia).
    rewrite E. reflexivity.
  - assert (E : (height * (width * (depth * 1)) =? Z.of_nat (String.length raw)) = false)
      by (apply Z.eqb_neq; lia).
    rewrite E. reflexivity.
Qed.

(** ** [step] without a turn key *)

(** X5. A step on a running session whose options are 2 or more, when the
    exchange goes through: the step request is the only thing sent, no turn
    key goes out or is read and the held key stays; the observation, the
    reply and, for options 2, the info payload are read in that order and
    nothing more; [step] returns the decoded observation, the reward and
    [done = (d == 1)], which is also what the session keeps. *)
Theorem step_without_turn_key :
  forall action w fd options command p_obs p_reply infos info rest
         r d sent out g',
    done (self w) = false ->
    step_options (self w) = Some options ->
    2 <= options ->
    client_socket (self w) = Some fd ->
    _process_action (action_space (self w)) action = Ret command ->
    sock_lookup fd (socks w) = Some (p_obs :: p_reply :: infos ++ rest)%list ->
    unpack_dbb (payload p_reply) = Ret (r, d, sent) ->
    info_exchange options infos info ->
    _process_observation (height (self w)) (width (self w)) (depth (self w))
                         (observation_space (self w))
                         (Some (payload p_obs)) info (gen w) = (Ret out, g') ->
    exists w',
      step action w = (Ret (out, Some r, d =? 1, []), w')
      /\ done (self w') = (d =? 1)
      /\ turn_key (self w') = turn_key (self w)
      /\ sock_lookup fd (socks w') = Some rest
      /\ trace w'
         = (map (fun p => EvRecv fd (payload p)) infos
            ++ EvRecv fd (payload p_reply) :: EvRecv fd (payload p_obs)
            :: EvSend fd (ReqStep (str_of_Z options) command) :: trace w)%list.
Proof.
  intros action w fd options command p_obs p_reply infos info rest
         r d sent out g' Hdone Hopt Hge Hsock Hcmd Hq Hreply Hinfo Hobs.
  assert (Hturnkey : (options <? 2) = false) by (apply Z.ltb_ge; exact Hge).
  unfold step, step_body.
  unfold info_exchange in Hinfo.
  destruct ((options =? 0) || (options =? 2)) eqn:Ewith.
  - destruct Hinfo as [p [text [-> [Htext ->]]]].
    erewrite bind_ret;
      [| erewrite bind_ret by reflexivity;
         rewrite Hopt;
         erewrite bind_ret by (unfold lift; rewrite Hcmd; reflexivity);
         rewrite Hdone, Hsock, Hturnkey, Ewith; cbn [negb];
         erewrite bind_ret by (eapply send_message_open; exact Hq);
         erewrite bind_ret by reflexivity;
         erewrite bind_ret by (eapply recv_message_open; simpl; exact Hq);
         erewrite bind_ret by (eapply recv_message_open; simpl; apply sock_lookup_head);
         erewrite bind_ret by (unfold lift; rewrite Hreply; reflexivity);
         cbv beta iota;
         erewrite bind_ret by reflexivity;
         erewrite bind_ret;
           [| erewrite bind_ret
                by (eapply recv_message_open; simpl; apply sock_lookup_head);
              erewrite bind_ret by (unfold lift; rewrite Htext; reflexivity);
              reflexivity ];
         erewrite bind_ret;
           [| unfold decode; erewrite bind_ret by reflexivity;
              unfold with_rng; simpl; rewrite Hobs; reflexivity ];
         erewrite bind_ret by reflexivity;
         reflexivity ].
    cbn [out_obs].
    erewrite bind_ret by reflexivity.
    eexists. split; [reflexivity|].
    split; [reflexivity|]. split; [reflexivity|].
    split; [apply sock_lookup_head | reflexivity].
  - destruct Hinfo as [-> ->].
    erewrite bind_ret;
      [| erewrite bind_ret by reflexivity;
         rewrite Hopt;
         erewrite bind_ret by (unfold lift; rewrite Hcmd; reflexivity);
         rewrite Hdone, Hsock, Hturnkey, Ewith; cbn [negb];
         erewrite bind_ret by (eapply send_message_open; exact Hq);
         erewrite bind_ret by reflexivity;
         erewrite bind_ret by (eapply recv_message_open; simpl; exact Hq);
         erewrite bind_ret by (eapply recv_message_open; simpl; apply sock_lookup_head);
         erewrite bind_ret by (unfold lift; rewrite Hreply; reflexivity);
         cbv beta iota;
         erewrite bind_ret by reflexivity;
         erewrite bind_ret by reflexivity;
         erewrite bind_ret;
           [| unfold decode; erewrite bind_ret by reflexivity;
              unfold with_rng; simpl; rewrite Hobs; reflexivity ];
         erewrite bind_ret by reflexivity;
         reflexivity ].
    cbn [out_obs].
    erewrite bind_ret by reflexivity.
    eexists. split; [reflexivity|].
    split; [reflexivity|]. split; [reflexivity|].
    split; [apply sock_lookup_head | reflexivity].
Qed.

(** ** The inventory hot fix *)

Lemma keys_assoc_set_present :
  forall (A : Type) k (v v0 : A) d,
    assoc k d = Some v0 -> keys (assoc_set k v d) = keys d.
Proof.
  intros A k v v0 d. induction d as [|[k' v'] d IH]; simpl; intros H.
  - discriminate H.
  - destruct (String.eqb k k') eqn:E; simpl; [reflexivity|].
    f_equal. apply IH. exact H.
Qed.

Lemma add_stack_same :
  forall d stack,
    counts d ->
    (forall name, quantity_of name stack = 0) ->
    exists d1,
      Ret d = Ret d1
      /\ keys d1 = keys d
      /\ counts d1
      /\ forall name z,
          assoc name d = Some (PInt z) ->
          assoc name d1 = Some (PInt (z + quantity_of name stack)).
Proof.
  intros d stack Hd Hq. exists d. repeat split; try assumption.
  intros name z H. rewrite Hq, Z.add_0_r. exact H.
Qed.

Lemma add_stack_ok :
  forall d stack,
    stack_ok stack = true -> counts d ->
    exists d1,
      add_stack d stack = Ret d1
      /\ keys d1 = keys d
      /\ counts d1
      /\ forall name z,
          assoc name d = Some (PInt z) ->
          assoc name d1 = Some (PInt (z + quantity_of name stack)).
Proof.
  intros d stack Hok Hd.
  destruct stack as [| | | | |items|entries]; try discriminate Hok.
  unfold add_stack. simpl in Hok. cbn [py_in obind].
  destruct (assoc "type" entries) as [t|] eqn:Et; cbn [obind andb].
  - destruct (assoc "quantity" entries) as [q|] eqn:Eq; cbn [obind andb].
    + destruct t; try discriminate Hok. destruct q; try discriminate Hok.
      cbn [py_getitem]. rewrite Et, Eq. cbn [obind].
      assert (Hq : forall name,
                 quantity_of name (PDict entries)
                 = if String.eqb name s then z else 0).
      { intros name. unfold quantity_of, stack_info. rewrite Et, Eq. reflexivity. }
      destruct (assoc s d) as [held|] eqn:Es.
      * destruct (Hd _ _ Es) as [zh ->]. cbn [py_add obind].
        exists (assoc_set s (PInt (zh + z)) d).
        split; [reflexivity|].
        split; [eapply keys_assoc_set_present; exact Es|].
        split.
        { intros k v Hk. destruct (String.eqb k s) eqn:E.
          - apply String.eqb_eq in E. subst k.
            rewrite assoc_set_same in Hk. inversion Hk. eexists; reflexivity.
          - apply String.eqb_neq in E.
            rewrite assoc_set_other in Hk by exact E. eapply Hd; exact Hk. }
        intros name z0 Hn. rewrite Hq.
        destruct (String.eqb name s) eqn:E.
        { apply String.eqb_eq in E. subst name.
          rewrite assoc_set_same. congruence. }
        apply String.eqb_neq in E.
        rewrite assoc_set_other by exact E. rewrite Z.add_0_r. exact Hn.
      * exists d. repeat split; try assumption.
        intros name z0 Hn. rewrite Hq.
        destruct (String.eqb name s) eqn:E.
        { apply String.eqb_eq in E. subst name. congruence. }
        rewrite Z.add_0_r. exact Hn.
    + apply add_stack_same; [exact Hd|].
      intros name. unfold quantity_of, stack_info. rewrite Et, Eq.
      destruct t; reflexivity.
  - apply add_stack_same; [exact Hd|].
    intros name. unfold quantity_of, stack_info. rewrite Et. reflexivity.
Qed.

Lemma add_stacks_ok :
  forall stacks d,
    forallb stack_ok stacks = true -> counts d ->
    exists d1,
      add_stacks d stacks = Ret d1
      /\ keys d1 = keys d
      /\ forall name z,
          assoc name d = Some (PInt z) ->
          assoc name d1 = Some (PInt (z + total_of name stacks)).
Proof.
  induction stacks as [|stack rest IH]; intros d Hok Hd.
  - exists d. repeat split. intros name z H.
    unfold total_of. simpl. rewrite Z.add_0_r. exact H.
  - simpl in Hok. apply andb_true_iff in Hok. destruct Hok as [Hs Hr].
    destruct (add_stack_ok d stack Hs Hd) as (d1 & H1 & Hk1 & Hc1 & Hv1).
    destruct (IH d1 Hr Hc1) as (d2 & H2 & Hk2 & Hv2).
    exists d2. simpl. rewrite H1. simpl.
    split; [exact H2|]. split; [congruence|].
    intros name z H. apply Hv1 in H. apply Hv2 in H. rewrite H.
    unfold total_of. simpl. fold (total_of name rest).
    f_equal. f_equal. lia.
Qed.

Lemma zero_counters :
  forall (ks : list string),
    counts (map (fun k => (k, PInt 0)) ks)
    /\ keys (map (fun k => (k, PInt 0)) ks) = ks
    /\ forall name, In name ks ->
         assoc name (map (fun k => (k, PInt 0)) ks) = Some (PInt 0).
Proof.
  induction ks as [|k ks (Hc & Hk & Hv)]; simpl.
  - split; [intros k v H; discriminate H|]. split; [reflexivity|].
    intros name [].
  - split.
    { intros k0 v H. simpl in H. destruct (String.eqb k0 k).
      - injection H as <-. eexists; reflexivity.
      - eapply Hc; exact H. }
    split; [unfold keys in *; simpl; f_equal; exact Hk|].
    intros name Hin. destruct (String.eqb name k) eqn:E; [reflexivity|].
    apply String.eqb_neq in E.
    destruct Hin as [-> | Hin]; [congruence | apply Hv; exact Hin].
Qed.

(** X6. The inventory hot fix: when the space declares [inventory] as a
    mapping and the payload lists stacks under [inventory], the list is
    replaced by a mapping with exactly the declared item types, in their
    declared order, each bound to the sum of the quantities of the stacks of
    that type (0 when there is none); stacks of a type that is not declared
    and stacks without a type or a quantity count for nothing. *)
Theorem inventory_totals :
  forall (spaces : space_map) inventory_spaces entries stacks,
    assoc "inventory" spaces = Some (Dict inventory_spaces) ->
    assoc "inventory" entries = Some (PList stacks) ->
    forallb stack_ok stacks = true ->
    exists d,
      fold_inventory (Some spaces) (PDict entries)
      = Ret (PDict (assoc_set "inventory" (PDict d) entries))
      /\ keys d = keys inventory_spaces
      /\ forall name, In name (keys inventory_spaces) ->
           assoc name d = Some (PInt (total_of name stacks)).
Proof.
  intros spaces inventory_spaces entries stacks Hsp Hinv Hok.
  destruct (zero_counters (keys inventory_spaces)) as (Hc & Hk & Hv).
  destruct (add_stacks_ok stacks _ Hok Hc) as (d & Hd & Hkd & Hvd).
  exists d. unfold fold_inventory. cbn [py_in obind].
  rewrite Hinv. cbn [obind]. rewrite Hsp.
  cbn [py_getitem]. rewrite Hinv. cbn [obind py_iter].
  rewrite Hd. cbn [obind py_setitem].
  split; [reflexivity|]. split; [congruence|].
  intros name Hin. apply (Hvd name 0). apply Hv. exact Hin.
Qed.

(** ** Keys of the payload the space does not declare *)

Lemma fill_fields_only_declared :
  forall (spaces : space_map) info obs g info' obs' g' x,
    ~ In x (keys spaces) ->
    (forall k fields, In (k, Dict fields) spaces -> ~ In x (keys fields)) ->
    fill_fields spaces (info, obs) g = (Ret (info', obs'), g') ->
    assoc x obs' = assoc x obs.
Proof.
  induction spaces as [|[k sp] rest IH];
    intros info obs g info' obs' g' x Hx Hin H.
  - apply ret_inv in H. destruct H as [H _]. inversion H. reflexivity.
  - simpl in H. apply bind_inv in H. destruct H as ([info1 obs1] & g1 & H1 & H).
    assert (Hx' : ~ In x (keys rest)).
    { intros E. apply Hx. right. exact E. }
    assert (Hin' : forall k0 fields, In (k0, Dict fields) rest -> ~ In x (keys fields)).
    { intros k0 fields E. apply (Hin k0 fields). right. exact E. }
    rewrite (IH _ _ _ _ _ _ x Hx' Hin' H).
    apply fill_field_key in H1.
    destruct H1 as [-> | (k' & v & -> & Hk)]; [reflexivity|].
    apply assoc_set_other.
    destruct Hk as [[-> Hne] | (fields & -> & Hf)].
    + intros E. apply Hx. left. symmetry. exact E.
    + intros E. subst k'. apply (Hin k fields); [left; reflexivity | exact Hf].
Qed.

(** X7. What the decoder returns holds nothing the space has no place for:
    a key of the info payload that is not [pov], not a declared field and not
    a field of a declared mapping is in no observation, whatever the payload
    says under it. *)
Theorem decode_drops_undeclared :
  forall height width depth (spaces : space_map) pov info g obs g' x,
    _process_observation height width depth (Some spaces) pov info g
    = (Ret obs, g') ->
    undeclared spaces x ->
    assoc x obs = None.
Proof.
  intros height width depth spaces pov info g obs g' x H (Hpov & Hx & Hin).
  unfold _process_observation in H.
  apply bind_inv in H. destruct H as (pov' & g1 & _ & H).
  unfold observe_fields in H.
  apply bind_inv in H. destruct H as (info0 & g2 & _ & H).
  apply bind_inv in H. destruct H as (info1 & g3 & _ & H).
  apply bind_inv in H. destruct H as ([info2 obs2] & g4 & Hf & H).
  apply ret_inv in H. destruct H as [<- _].
  rewrite (fill_fields_only_declared _ _ _ _ _ _ _ x Hx Hin Hf).
  simpl. apply String.eqb_neq in Hpov. rewrite Hpov. reflexivity.
Qed.

(** ** [init]: where the mission text starts *)

Lemma substring_whole : forall s, substring 0 (String.length s) s = s.
Proof. induction s as [|c s IH]; simpl; [reflexivity | rewrite IH; reflexivity]. Qed.

Lemma substring_split :
  forall i s, (i <= String.length s)%nat ->
    s = (substring 0 i s ++ substring i (String.length s - i) s)%string.
Proof.
  induction i as [|i IH]; intros s H.
  - rewrite Nat.sub_0_r, substring_whole. destruct s; reflexivity.
  - destruct s as [|c s]; simpl in H; [lia|]. simpl. f_equal. apply IH. lia.
Qed.

Lemma substring_head_length :
  forall i s, (i <= String.length s)%nat -> String.length (substring 0 i s) = i.
Proof.
  induction i as [|i IH]; intros s H.
  - destruct s; reflexivity.
  - destruct s as [|c s]; simpl in H; [lia|]. simpl. f_equal. apply IH. lia.
Qed.

Lemma substring_length_bound :
  forall i n s,
    (String.length (substring i n s) <= String.length s - i)%nat.
Proof.
  induction i as [|i IH]; intros n s.
  - rewrite Nat.sub_0_r. revert s.
    induction n as [|n IHn]; intros s; destruct s as [|c s]; simpl; try lia.
    specialize (IHn s). lia.
  - destruct s as [|c s]; simpl; [lia | apply IH].
Qed.

Lemma substring_of_substring :
  forall i n m s, (n <= m)%nat ->
    substring 0 n (substring i m s) = substring i n s.
Proof.
  induction i as [|i IH]; intros n m s H.
  - revert m s H. induction n as [|n IHn]; intros m s H.
    + destruct (substring 0 m s); destruct s; reflexivity.
    + destruct m as [|m]; [lia|]. destruct s as [|c s]; [reflexivity|].
      simpl. f_equal. apply IHn. lia.
  - destruct s as [|c s]; [destruct n; reflexivity|].
    simpl. apply IH. exact H.
Qed.

(** X8. The text [init] hands to the parser: it starts with [<Mission],
    and it is the template from its first [<Mission] on: what is cut off
    (an XML declaration, a comment) holds no occurrence of the marker. *)
Theorem locate_mission_cuts_at_marker :
  forall xml0 xml1,
    locate_mission xml0 = Ret xml1 ->
    String.prefix "<Mission" xml1 = true
    /\ exists before,
        xml0 = (before ++ xml1)%string
        /\ forall j, (j < String.length before)%nat ->
             substring j 8 xml0 <> "<Mission".
Proof.
  intros xml0 xml1 H. unfold locate_mission in H.
  destruct (String.prefix "<Mission" xml0) eqn:E; simpl in H.
  - injection H as <-. split; [exact E|].
    exists "". split; [reflexivity|]. intros j Hj. simpl in Hj. lia.
  - unfold str_index in H.
    destruct (String.index 0 "<Mission" xml0) as [i|] eqn:Ei; simpl in H;
      [|discriminate H].
    destruct (Z.of_nat i =? -1); [discriminate H|].
    injection H as <-. rewrite Nat2Z.id.
    pose proof (index_correct1 _ _ _ _ Ei) as H1.
    change (String.length "<Mission") with 8%nat in H1.
    pose proof (substring_length_bound i 8 xml0) as Hb.
    rewrite H1 in Hb. simpl in Hb.
    split.
    + apply prefix_correct. unfold str_from.
      change (String.length "<Mission") with 8%nat.
      rewrite substring_of_substring by lia. exact H1.
    + exists (substring 0 i xml0). split.
      * unfold str_from. apply substring_split. lia.
      * intros j Hj. rewrite substring_head_length in Hj by lia.
        apply (index_correct2 _ _ _ _ Ei j); lia.
Qed.

(** ** [init]: what a call that returns has set up *)

(** X9. A call of [init] that returns has marked the session initialised
    with the spaces, the episode number and the resync period it was given;
    the step options are never left unset (0 when none were given), the
    depth is 3 or 4, the experiment id is the one given or else a fresh one,
    there is an instance, and nothing went over the network: the trace, the
    sockets and the client socket are as before. *)
Theorem init_sets_up_session :
  forall observation_space' action_space' exp_uid' episode action_filter
         resync' step_options' w w',
    init observation_space' action_space' exp_uid' episode action_filter
         resync' step_options' w = (Ret tt, w') ->
    has_init (self w') = true
    /\ observation_space (self w') = Some observation_space'
    /\ action_space (self w') = Some action_space'
    /\ step_options (self w')
       = Some (match step_options' with Some o => o | None => 0 end)
    /\ (depth (self w') = 3 \/ depth (self w') = 4)
    /\ resets (self w') = episode
    /\ resync_period (self w') = resync'
    /\ exp_uid (self w')
       = match exp_uid' with Some u => u | None => fresh_uuid w end
    /\ instance (self w') <> None
    /\ client_socket (self w') = client_socket (self w)
    /\ trace w' = trace w /\ socks w' = socks w /\ dials w' = dials w.
Proof.
  intros observation_space' action_space' exp_uid' episode action_filter
         resync' step_options' w w' H.
  unfold init in H. unwind H.
  all: destruct step_options'; destruct exp_uid';
    repeat split; try reflexivity; try discriminate.
  all: try (cbn [depth self with_self set_has_init set_depth];
            match goal with
            | |- context [ if ?c then 4 else 3 ] => destruct c; auto
            end).
  all: intros Hc;
    match goal with
    | H : instance (self ?w0) = Some _ |- _ =>
        change (instance (self w0) = None) in Hc; congruence
    end.
Qed.

(** ** [init]: the video producer *)

Lemma descendants_children :
  forall e,
    descendants e = flat_map (fun c => c :: descendants c) (children_of e).
Proof.
  intros [t a x cs]. simpl.
  induction cs as [|c cs IH]; simpl; [reflexivity|].
  rewrite IH. reflexivity.
Qed.

Lemma descendants_set_text :
  forall x e, descendants (set_text x e) = descendants e.
Proof. intros x [t a x0 cs]. reflexivity. Qed.

(** Setting the text of the first element tagged [t] changes nothing of
    what [findall] returns for another tag. *)
Lemma update_first_findall :
  forall t t' x l l',
    t <> t' ->
    update_first (has_tag t) (set_text x) l = Some l' ->
    filter (has_tag t') (flat_map (fun c => c :: descendants c) l')
    = filter (has_tag t') (flat_map (fun c => c :: descendants c) l).
Proof.
  intros t t' x l. induction l as [|c l IH]; intros l' Hne H; simpl in H.
  - discriminate H.
  - destruct (has_tag t c) eqn:E.
    + injection H as <-. simpl. rewrite descendants_set_text.
      unfold has_tag in E. apply String.eqb_eq in E.
      assert (Ec : has_tag t' c = false).
      { unfold has_tag. apply String.eqb_neq. congruence. }
      assert (Es : has_tag t' (set_text x c) = false).
      { destruct c. exact Ec. }
      rewrite Ec, Es. reflexivity.
    + destruct (update_first (has_tag t) (set_text x) l) as [r'|] eqn:Er;
        [|discriminate H].
      injection H as <-. simpl. rewrite !filter_app.
      rewrite (IH r' Hne eq_refl). reflexivity.
Qed.

Lemma update_first_tags :
  forall t x l l',
    update_first (has_tag t) (set_text x) l = Some l' ->
    map tag_of l' = map tag_of l.
Proof.
  intros t x l. induction l as [|c l IH]; intros l' H; simpl in H.
  - discriminate H.
  - destruct (has_tag t c).
    + injection H as <-. destruct c. reflexivity.
    + destruct (update_first (has_tag t) (set_text x) l) as [r'|];
        [|discriminate H].
      injection H as <-. simpl. rewrite (IH r' eq_refl). reflexivity.
Qed.

Lemma update_first_found :
  forall t f l,
    str_in t (map tag_of l) = true ->
    exists l', update_first (has_tag t) f l = Some l'.
Proof.
  intros t f l. induction l as [|c l IH]; simpl; intros H.
  - discriminate H.
  - fold (has_tag t c) in H. destruct (has_tag t c).
    + eexists; reflexivity.
    + destruct (IH H) as [r' ->]. eexists; reflexivity.
Qed.

(** The document of [init] once the role and the experiment id are written
    into the skeleton: both elements are found, and the video producers of
    the document are those of the mission. *)
Lemma init_document :
  forall mission role_text,
    exists e1,
      set_child_text (ns ++ "ClientRole") role_text
                     (insert_first mission mission_init_skeleton) = Some e1
      /\ forall uid,
          exists e2,
            set_child_text (ns ++ "ExperimentUID") uid e1 = Some e2
            /\ findall_below (ns ++ "VideoProducer") e2
               = filter (has_tag (ns ++ "VideoProducer"))
                        (mission :: descendants mission).
Proof.
  intros mission role_text.
  set (rest := children_of mission_init_skeleton).
  assert (Hcr : str_in (ns ++ "ClientRole") (map tag_of (mission :: rest)) = true).
  { unfold str_in. cbn [map existsb]. apply orb_true_iff. right. reflexivity. }
  destruct (update_first_found _ (set_text role_text) _ Hcr) as [l1 H1].
  exists (Element (tag_of mission_init_skeleton) (attrib_of mission_init_skeleton)
                  (text_of mission_init_skeleton) l1).
  split.
  { unfold insert_first, set_child_text, mission_init_skeleton.
    unfold rest, mission_init_skeleton in H1. cbn [children_of] in H1.
    rewrite H1. reflexivity. }
  intros uid.
  assert (Heu : str_in (ns ++ "ExperimentUID") (map tag_of l1) = true).
  { rewrite (update_first_tags _ _ _ _ H1).
    unfold str_in. cbn [map existsb]. apply orb_true_iff. right. reflexivity. }
  destruct (update_first_found _ (set_text uid) _ Heu) as [l2 H2].
  exists (Element (tag_of mission_init_skeleton) (attrib_of mission_init_skeleton)
                  (text_of mission_init_skeleton) l2).
  split.
  { cbn [set_child_text tag_of attrib_of text_of mission_init_skeleton].
    rewrite H2. reflexivity. }
  unfold findall_below. rewrite descendants_children. cbn [children_of].
  assert (N2 : ns ++ "ExperimentUID" <> ns ++ "VideoProducer")
    by (apply String.eqb_neq; reflexivity).
  assert (N1 : ns ++ "ClientRole" <> ns ++ "VideoProducer")
    by (apply String.eqb_neq; reflexivity).
  rewrite (update_first_findall _ _ _ _ _ N2 H2).
  rewrite (update_first_findall _ _ _ _ _ N1 H1).
  cbn [flat_map]. rewrite filter_app.
  replace (filter (has_tag (ns ++ "VideoProducer"))
             (flat_map (fun c => c :: descendants c) rest))
    with (@nil element) by reflexivity.
  apply app_nil_r.
Qed.
(** The first statement of [init]: the session has an instance afterwards
    and nothing else has changed. *)
Lemma init_takes_instance :
  forall w, instance_ready w ->
    exists w1,
      match instance (self w) with
      | None => w0 <- get ;; i <- lift (launcher w0) ;; set_self (set_instance (Some i))
      | Some _ => ret tt
      end w = (Ret tt, w1)
      /\ files w1 = files w /\ trace w1 = trace w
      /\ xml_file (self w1) = xml_file (self w)
      /\ has_init (self w1) = has_init (self w).
Proof.
  intros w H. unfold instance_ready in H.
  destruct (instance (self w)) as [i|].
  - exists w. repeat split.
  - destruct H as [i Hi].
    erewrite bind_ret by reflexivity.
    erewrite bind_ret by (unfold lift; rewrite Hi; reflexivity).
    eexists. split; [reflexivity|]. repeat split.
Qed.

(** Reading an attribute that a setter does not touch, and the trace,
    through an update of the session. *)
Lemma with_self_has_init :
  forall f w,
    (forall s, has_init (f s) = has_init s) ->
    has_init (self (with_self f w)) = has_init (self w).
Proof. intros f w H. cbn [self with_self]. apply H. Qed.

Lemma with_self_trace : forall f w, trace (with_self f w) = trace w.
Proof. intros f w. reflexivity. Qed.

(** Run [init] up to the search for the video producers. *)
Ltac init_to_video_producers w mission Hready Hfile Hloc Hparse Hturn :=
  let w1 := fresh "w1" in
  let H1 := fresh "H1" in
  let Hf := fresh "Hf" in
  let Ht := fresh "Ht" in
  let Hx := fresh "Hx" in
  let Hi := fresh "Hi" in
  destruct (init_takes_instance w Hready) as [w1 [H1 [Hf [Ht [Hx Hi]]]]];
  unfold init;
  erewrite bind_ret by reflexivity;
  erewrite bind_ret by exact H1;
  erewrite bind_ret by reflexivity;
  erewrite bind_ret by (rewrite Hf, Hfile; reflexivity);
  erewrite bind_ret by (unfold lift; rewrite Hloc; reflexivity);
  erewrite bind_ret by (unfold lift; rewrite Hparse; reflexivity);
  do 6 (erewrite bind_ret by reflexivity);
  rewrite Hturn;
  do 6 (erewrite bind_ret by reflexivity);
  let w2 := fresh "w2" in
  let w0 := match goal with
            | |- exists w', bind _ _ ?w0 = _ /\ _ => w0
            end in
  assert (Hrole : role (self w0) = 0) by reflexivity;
  assert (Hagents : agent_count (self w0) = 1) by reflexivity;
  assert (Hhas : has_init (self w0) = has_init (self w))
    by (rewrite !with_self_has_init by (intros; reflexivity); exact Hi);
  assert (Htrace : trace w0 = trace w)
    by (rewrite !with_self_trace; exact Ht);
  repeat match goal with H : context [w0] |- _ => revert H end;
  generalize w0; intros w2 Hrole Hagents Hhas Htrace;
  erewrite bind_ret by reflexivity;
  let e1 := fresh "e1" in
  let He1 := fresh "He1" in
  let He2 := fresh "He2" in
  destruct (init_document mission (str_of_Z (role (self w2)))) as (e1 & He1 & He2);
  rewrite He1;
  erewrite bind_ret by reflexivity;
  erewrite bind_ret by reflexivity;
  let e2 := fresh "e2" in
  let He2' := fresh "He2'" in
  destruct (He2 (exp_uid (self w2))) as (e2 & He2' & Hvp);
  rewrite He2';
  erewrite bind_ret by reflexivity;
  erewrite bind_ret by reflexivity;
  rewrite Hrole, Hagents; cbn [Z.eqb negb andb];
  erewrite bind_ret by reflexivity;
  rewrite Hvp.

(** X10. [init] asserts that the mission has exactly one video producer:
    with none, or with more than one, among the mission root and the
    elements below it, [init] raises [AssertionError]; the session is not
    marked initialised and nothing went over the network. *)
Theorem init_counts_video_producers :
  forall observation_space' action_space' exp_uid' episode action_filter
         resync' step_options' w text xml1 mission,
    instance_ready w ->
    files w (xml_file (self w)) = Some text ->
    locate_mission (str_replace text "$(MISSIONS_DIR)" missions_dir) = Ret xml1 ->
    fromstring xml1 = Ret mission ->
    find_below (ns ++ "TurnBasedCommands") mission = None ->
    length (filter (has_tag (ns ++ "VideoProducer"))
                   (mission :: descendants mission)) <> 1%nat ->
    exists w',
      init observation_space' action_space' exp_uid' episode action_filter
           resync' step_options' w = (Raise AssertionError, w')
      /\ has_init (self w') = has_init (self w)
      /\ trace w' = trace w.
Proof.
  intros observation_space' action_space' exp_uid' episode action_filter
         resync' step_options' w text xml1 mission
         Hready Hfile Hloc Hparse Hturn Hcount.
  init_to_video_producers w mission Hready Hfile Hloc Hparse Hturn.
  assert (E : (Z.of_nat (length (filter (has_tag (ns ++ "VideoProducer"))
                                        (mission :: descendants mission))) =? 1)
              = false) by (apply Z.eqb_neq; lia).
  rewrite E.
  erewrite bind_raise by reflexivity.
  eexists. split; [reflexivity|]. split; [exact Hhas | exact Htrace].
Qed.

(** X11. With exactly one video producer, [init] takes the frame geometry
    from it: the width and the height are the integers its [Width] and
    [Height] children spell, the depth is 4 when its [want_depth] attribute
    is exactly [true] or [1] and 3 for any other value; the session is then
    marked initialised and holds the document with that video producer. *)
Theorem init_reads_geometry :
  forall observation_space' action_space' exp_uid' episode action_filter
         resync' step_options' w text xml1 mission
         video_producer width_node height_node width' height' want_depth,
    instance_ready w ->
    files w (xml_file (self w)) = Some text ->
    locate_mission (str_replace text "$(MISSIONS_DIR)" missions_dir) = Ret xml1 ->
    fromstring xml1 = Ret mission ->
    find_below (ns ++ "TurnBasedCommands") mission = None ->
    filter (has_tag (ns ++ "VideoProducer")) (mission :: descendants mission)
    = [video_producer] ->
    find_child (ns ++ "Width") video_producer = Some width_node ->
    py_int (text_of width_node) = Ret width' ->
    find_child (ns ++ "Height") video_producer = Some height_node ->
    py_int (text_of height_node) = Ret height' ->
    assoc "want_depth" (attrib_of video_producer) = Some want_depth ->
    exists w',
      init observation_space' action_space' exp_uid' episode action_filter
           resync' step_options' w = (Ret tt, w')
      /\ (width (self w') = width' /\ height (self w') = height'
          /\ depth (self w')
             = (if String.eqb want_depth "true" || String.eqb want_depth "1"
                then 4 else 3))
      /\ has_init (self w') = true
      /\ (exists e, xml (self w') = Some e
                    /\ findall_below (ns ++ "VideoProducer") e = [video_producer])
      /\ trace w' = trace w.
Proof.
  intros observation_space' action_space' exp_uid' episode action_filter
         resync' step_options' w text xml1 mission
         video_producer width_node height_node width' height' want_depth
         Hready Hfile Hloc Hparse Hturn Hone Hwn Hw Hhn Hh Hwant.
  init_to_video_producers w mission Hready Hfile Hloc Hparse Hturn.
  rewrite Hone in *. cbn [length Z.of_nat Pos.of_succ_nat Z.eqb Pos.eqb assert_].
  erewrite bind_ret by reflexivity.
  erewrite bind_ret by reflexivity.
  rewrite Hwn.
  erewrite bind_ret by (unfold lift; rewrite Hw; reflexivity).
  erewrite bind_ret by reflexivity.
  rewrite Hhn.
  erewrite bind_ret by (unfold lift; rewrite Hh; reflexivity).
  erewrite bind_ret by reflexivity.
  rewrite Hwant.
  erewrite bind_ret by reflexivity.
  erewrite bind_ret by reflexivity.
  eexists. split; [reflexivity|].
  split; [repeat split|]. split; [reflexivity|].
  split; [eexists; split; [reflexivity | exact Hvp] | exact Htrace].
Qed.

(** ** The service requests: [status], [exit], [resync], [exit_resync] *)

Lemma same_session_refl : forall w, same_session w w.
Proof. intros w. reflexivity. Qed.

Lemma same_session_trans :
  forall a b c, same_session a b -> same_session b c -> same_session a c.
Proof. unfold same_session. intros a b c H1 H2. congruence. Qed.

Ltac session_leaf :=
  first
    [ exact same_session_refl
    | exact same_session_trans
    | intros; reflexivity ].

Lemma status_same_session : forall head, keeps same_session (status head).
Proof.
  intros head. unfold status, instance_address, _hello.
  keeps_with session_leaf.
Qed.

Lemma poll_status_same_session :
  forall n head, keeps same_session (poll_status n head).
Proof.
  induction n as [|n IH]; intros head; simpl.
  - keeps_with session_leaf.
  - pose proof (status_same_session head). pose proof (IH head).
    keeps_with session_leaf.
Qed.

Lemma exit_same_session : keeps same_session exit.
Proof. unfold exit, instance_address, _hello. keeps_with session_leaf. Qed.

Lemma resync_same_session : keeps same_session resync.
Proof.
  unfold resync.
  pose proof (poll_status_same_session 30 true).
  pose proof (poll_status_same_session 30 false).
  keeps_with session_leaf.
Qed.


Lemma ends_bind :
  forall (A B : Type) (m : W A) (k : A -> W B),
    ends m -> (forall a, ends (k a)) -> ends (bind m k).
Proof.
  intros A B m k Hm Hk w. unfold bind. specialize (Hm w).
  destruct (m w) as [[a|e|] w1]; simpl in *;
    [apply Hk | discriminate | congruence].
Qed.

Lemma ends_lift :
  forall (A : Type) (o : outcome A), o <> Diverge -> ends (lift o).
Proof. intros A o H w. exact H. Qed.

Lemma ends_send_message : forall sock r, ends (send_message sock r).
Proof.
  intros sock r w. unfold send_message.
  destruct sock as [fd|]; [|discriminate].
  destruct (sock_lookup fd (socks w)); discriminate.
Qed.

Lemma ends_recv_message : forall sock, ends (recv_message sock).
Proof.
  intros sock w. unfold recv_message.
  destruct sock as [fd|]; [|discriminate].
  destruct (sock_lookup fd (socks w)) as [[|p q]|]; discriminate.
Qed.

Lemma ends_connect : forall peer, ends (connect peer).
Proof.
  intros peer w. unfold connect.
  destruct (dials w) as [|[|replies] rest]; discriminate.
Qed.

Lemma unpack_I_ends : forall reply, unpack_I reply <> Diverge.
Proof.
  intros reply. unfold unpack_I.
  destruct (bytes_of reply) as [|a [|b [|c [|d [|x l]]]]]; discriminate.
Qed.

Lemma exit_ends : ends exit.
Proof.
  unfold exit, instance_address, _hello.
  repeat first
    [ apply ends_bind; [|intros ?]
    | apply ends_send_message
    | apply ends_recv_message
    | apply ends_connect
    | apply ends_lift; apply unpack_I_ends
    | match goal with
      | |- ends (match ?x with _ => _ end) => destruct x
      end
    | intros w0; discriminate ].
Qed.

Lemma exit_later : keeps later exit.
Proof. unfold exit, instance_address, _hello. keeps_with later_leaf. Qed.

Lemma resync_later : keeps later resync.
Proof.
  unfold resync.
  assert (Hp : forall n head, keeps later (poll_status n head)).
  { induction n as [|n IH]; intros head; simpl.
    - keeps_with later_leaf.
    - pose proof (IH head).
      unfold status, instance_address, _hello. keeps_with later_leaf. }
  pose proof (Hp 30%nat true). pose proof (Hp 30%nat false).
  keeps_with later_leaf.
Qed.

(** [exit_resync] up to its call of [resync]: the client socket is closed
    and forgotten, [exit] is tried and whatever it raises is dropped, and a
    minute passes. *)
Lemma exit_resync_reaches_resync :
  forall w,
    exists w1 evs,
      exit_resync w = resync w1
      /\ client_socket (self w1) = None
      /\ done (self w1) = done (self w)
      /\ resets (self w1) = resets (self w)
      /\ trace w1 = (EvSleep 60000 :: evs ++ trace w)%list
      /\ (forall fd, client_socket (self w) = Some fd -> In (EvClose fd) evs).
Proof.
  intros w. unfold exit_resync.
  assert (Hbody :
    forall w0, exists w2 evs,
      (try_except (exit ;; ret tt) (fun _ => ret tt) ;; time_sleep 60000) w0
      = (Ret tt, w2)
      /\ self w2 = self w0
      /\ trace w2 = (EvSleep 60000 :: evs ++ trace w0)%list).
  { intros w0. unfold bind at 1, try_except.
    destruct (exit w0) as [[b|e|] w2] eqn:Ex.
    - destruct (exit_later _ _ _ Ex) as [evs [Ht _]].
      erewrite bind_ret by exact Ex.
      eexists. exists evs. split; [reflexivity|].
      split; [exact (exit_same_session _ _ _ Ex)|].
      simpl. rewrite Ht. reflexivity.
    - destruct (exit_later _ _ _ Ex) as [evs [Ht _]].
      erewrite bind_raise by exact Ex.
      eexists. exists evs. split; [reflexivity|].
      split; [exact (exit_same_session _ _ _ Ex)|].
      simpl. rewrite Ht. reflexivity.
    - exfalso. apply (exit_ends w0). rewrite Ex. reflexivity. }
  destruct (client_socket (self w)) as [fd|] eqn:Hs.
  - destruct (Hbody (with_self (set_client_socket None)
                       (with_trace (EvClose fd)
                          (with_socks (sock_remove fd (socks w)) w))))
      as (w2 & evs & Hrun & Hself & Ht).
    exists w2, (evs ++ [EvClose fd])%list.
    split.
    { unfold try_except at 1, bind at 1.
      erewrite bind_ret by reflexivity. rewrite Hs.
      erewrite bind_ret
        by (erewrite bind_ret by reflexivity; reflexivity).
      rewrite Hrun. reflexivity. }
    rewrite Hself.
    split; [reflexivity|]. split; [reflexivity|]. split; [reflexivity|].
    split.
    { rewrite Ht. simpl. rewrite <- app_assoc. reflexivity. }
    intros fd' E. injection E as <-. apply in_or_app. right. left. reflexivity.
  - destruct (Hbody w) as (w2 & evs & Hrun & Hself & Ht).
    exists w2, evs.
    split.
    { unfold try_except at 1, bind at 1.
      erewrite bind_ret by reflexivity. rewrite Hs.
      erewrite bind_ret by reflexivity.
      rewrite Hrun. reflexivity. }
    rewrite Hself.
    split; [exact Hs|]. split; [reflexivity|]. split; [reflexivity|].
    split; [exact Ht|]. intros fd E. discriminate E.
Qed.

Lemma resync_outcome :
  forall w r w',
    resync w = (r, w') ->
    r = Ret tt \/ exists message, r = Raise (EnvException message).
Proof.
  intros w r w' H. unfold resync in H.
  destruct (poll_status_spec 30 true w) as (b1 & w1 & evs1 & H1 & _).
  erewrite bind_ret in H by exact H1.
  destruct (poll_status_spec 30 false w1) as (b2 & w2 & evs2 & H2 & _).
  erewrite bind_ret in H by exact H2.
  destruct b1, b2; simpl in H; inversion H; subst;
    first [left; reflexivity | right; eexists; reflexivity].
Qed.

Lemma exit_resync_spec :
  forall w r w',
    exit_resync w = (r, w') ->
    client_socket (self w') = None
    /\ done (self w') = done (self w)
    /\ resets (self w') = resets (self w)
    /\ (r = Ret tt \/ exists message, r = Raise (EnvException message))
    /\ exists evs,
        trace w' = (evs ++ trace w)%list
        /\ In (EvSleep 60000) evs
        /\ (forall fd, client_socket (self w) = Some fd -> In (EvClose fd) evs).
Proof.
  intros w r w' H.
  destruct (exit_resync_reaches_resync w)
    as (w1 & evs & Hrun & Hsock & Hdone & Hresets & Ht & Hclose).
  rewrite Hrun in H.
  pose proof (resync_same_session _ _ _ H) as Hself.
  unfold same_session in Hself. rewrite Hself.
  split; [exact Hsock|]. split; [exact Hdone|]. split; [exact Hresets|].
  split; [eapply resync_outcome; exact H|].
  destruct (resync_later _ _ _ H) as [evs2 [Ht2 _]].
  exists (evs2 ++ EvSleep 60000 :: evs)%list.
  split. { rewrite Ht2, Ht, <- app_assoc. reflexivity. }
  split. { apply in_or_app. right. left. reflexivity. }
  intros fd E. apply in_or_app. right. right. apply Hclose. exact E.
Qed.

(** X13. However [exit_resync] ends, the session has no client socket
    afterwards (the one it had has been closed), a pause of a minute has
    been made, [done] and the episode counter are what they were, and the
    only exception that gets out is the [EnvException] of [resync]: what
    [exit] raises is dropped. *)
Theorem exit_resync_forgets_socket :
  forall w r w',
    exit_resync w = (r, w') ->
    client_socket (self w') = None
    /\ done (self w') = done (self w)
    /\ resets (self w') = resets (self w)
    /\ (r = Ret tt \/ exists message, r = Raise (EnvException message))
    /\ exists evs,
        trace w' = (evs ++ trace w)%list
        /\ In (EvSleep 60000) evs
        /\ (forall fd, client_socket (self w) = Some fd -> In (EvClose fd) evs).
Proof. exact exit_resync_spec. Qed.

(** X14. A reset that falls on the resync period while the episode is
    still running: [exit_resync] has forgotten the client socket, so the
    first quit request of the drain goes to no socket; the reset raises
    [AttributeError] when the resync went through, and what the resync
    raised when it did not; no handshake is started. *)
Theorem reset_after_resync_has_no_socket :
  forall fuel w w1,
    has_init (self w) = true ->
    done (self w) = false ->
    resync_due (self w) ->
    (0 < fuel)%nat ->
    (exit_resync w = (Ret tt, w1) ->
     reset fuel w = (Raise AttributeError, w1))
    /\ (forall e, exit_resync w = (Raise e, w1) ->
         reset fuel w = (Raise e, w1)).
Proof.
  intros fuel w w1 Hinit Hdone Hdue Hfuel.
  split.
  - intros Hrun.
    destruct (exit_resync_spec _ _ _ Hrun) as (Hsock & Hd & _).
    unfold reset.
    erewrite bind_ret by reflexivity.
    rewrite Hinit. cbn [negb].
    erewrite bind_ret by reflexivity.
    unfold resync_due in Hdue. rewrite Hdue.
    erewrite bind_ret by exact Hrun.
    erewrite bind_raise; [reflexivity|].
    destruct fuel as [|fuel]; [lia|].
    rewrite drain_unfold, Hd, Hdone.
    erewrite bind_raise; [reflexivity|].
    unfold _quit_episode.
    erewrite bind_ret by reflexivity. rewrite Hsock.
    erewrite bind_raise by reflexivity. reflexivity.
  - intros e Hrun.
    unfold reset.
    erewrite bind_ret by reflexivity.
    rewrite Hinit. cbn [negb].
    erewrite bind_ret by reflexivity.
    unfold resync_due in Hdue. rewrite Hdue.
    erewrite bind_raise by exact Hrun. reflexivity.
Qed.

(** ** [_init_mission]: the handshake *)

Lemma init_mission_loop_done :
  forall fuel w, init_mission_loop fuel 1 w = (Ret tt, w).
Proof. intros fuel w. destruct fuel; reflexivity. Qed.

Lemma init_mission_round :
  forall fuel ok w fd e p1 p2 q n key,
    ok <> 1 ->
    xml (self w) = Some e ->
    client_socket (self w) = Some fd ->
    sock_lookup fd (socks w) = Some (p1 :: p2 :: q) ->
    unpack_I (payload p1) = Ret n ->
    decode_utf8 (payload p2) = Ret key ->
    init_mission_loop (S fuel) ok w
    = ((if negb (n =? 1) then time_sleep 1000 else ret tt) ;;
       init_mission_loop fuel n)
        (with_self (set_turn_key key)
           (with_trace (EvRecv fd (payload p2))
              (with_clock (clock w + latency p1 + latency p2)
                 (with_socks ((fd, q) :: sock_remove fd
                                ((fd, p2 :: q) :: sock_remove fd (socks w)))
                    (with_trace (EvRecv fd (payload p1))
                       (with_trace (EvSend fd (ReqToken (handshake_token (self w))))
                          (with_trace (EvSend fd (ReqDescriptor e)) w))))))).
Proof.
  intros fuel ok w fd e p1 p2 q n key Hok Hxml Hsock Hq Hn Hkey.
  cbn [init_mission_loop].
  apply Z.eqb_neq in Hok. rewrite Hok.
  erewrite bind_ret by reflexivity.
  rewrite Hxml, Hsock.
  erewrite bind_ret by (eapply send_message_open; exact Hq).
  erewrite bind_ret by (eapply send_message_open; simpl; exact Hq).
  erewrite bind_ret by (eapply recv_message_open; simpl; exact Hq).
  erewrite bind_ret by (unfold lift; rewrite Hn; reflexivity).
  erewrite bind_ret by (eapply recv_message_open; simpl; apply sock_lookup_head).
  erewrite bind_ret by (unfold lift; rewrite Hkey; reflexivity).
  erewrite bind_ret by reflexivity.
  reflexivity.
Qed.

Lemma init_mission_loop_handshake :
  forall refused fuel ok w fd e accepted rest key,
    ok <> 1 ->
    xml (self w) = Some e ->
    client_socket (self w) = Some fd ->
    sock_lookup fd (socks w)
    = Some (handshake_answers refused accepted ++ rest)%list ->
    Forall turned_down refused ->
    unpack_I (payload (fst accepted)) = Ret 1 ->
    decode_utf8 (payload (snd accepted)) = Ret key ->
    (length refused < fuel)%nat ->
    exists w',
      init_mission_loop fuel ok w = (Ret tt, w')
      /\ self w' = set_turn_key key (self w)
      /\ trace w'
         = (rev (handshake_events fd e (handshake_token (self w)) refused accepted)
            ++ trace w)%list
      /\ sock_lookup fd (socks w') = Some rest
      /\ clock w'
         = clock w + total_latency (handshake_answers refused accepted)
           + 1000 * Z.of_nat (length refused).
Proof.
  induction refused as [|[p1 p2] refused IH];
    intros fuel ok w fd e accepted rest key Hok Hxml Hsock Hq Hdown Hone Hkey Hfuel;
    (destruct fuel as [|fuel]; [simpl in Hfuel; lia|]).
  - destruct accepted as [p1 p2]. simpl in Hq, Hone, Hkey.
    rewrite (init_mission_round fuel ok w fd e p1 p2 rest 1 key
               Hok Hxml Hsock Hq Hone Hkey).
    cbn [Z.eqb Pos.eqb negb].
    erewrite bind_ret by reflexivity.
    rewrite init_mission_loop_done.
    eexists. split; [reflexivity|].
    split; [reflexivity|]. split; [reflexivity|].
    split; [apply sock_lookup_head|].
    unfold total_latency. simpl. lia.
  - inversion Hdown as [|a l [[n [Hn Hne]] [k0 Hk0]] Hrest]; subst.
    simpl in Hn, Hk0, Hq.
    rewrite (init_mission_round fuel ok w fd e p1 p2 _ n k0
               Hok Hxml Hsock Hq Hn Hk0).
    assert (En : (n =? 1) = false) by (apply Z.eqb_neq; exact Hne).
    rewrite En. cbn [negb].
    erewrite bind_ret by reflexivity.
    match goal with
    | |- context [ init_mission_loop fuel n ?w0 ] =>
        destruct (IH fuel n w0 fd e accepted rest key)
          as (w' & Hrun & Hself & Ht & Hs & Hc);
          [ exact Hne | exact Hxml | exact Hsock | apply sock_lookup_head
          | exact Hrest | exact Hone | exact Hkey | simpl in Hfuel; lia | ]
    end.
    exists w'. split; [exact Hrun|].
    split. { rewrite Hself. reflexivity. }
    split.
    { rewrite Ht. unfold handshake_events. simpl.
      rewrite !rev_app_distr. simpl. rewrite <- !app_assoc. reflexivity. }
    split; [exact Hs|].
    rewrite Hc.
    assert (Hl : total_latency (handshake_answers ((p1, p2) :: refused) accepted)
                 = latency p1
                   + (latency p2
                      + total_latency (handshake_answers refused accepted)))
      by reflexivity.
    rewrite Hl. cbn [length]. rewrite Nat2Z.inj_succ.
    cbn [clock with_self with_trace with_clock with_socks]. lia.
Qed.

(** X15. The handshake of [_init_mission]: while the peer answers with a
    status that is not 1, the descriptor and the token
    [exp_uid:role:resets:agent_count:synchronous] are sent again after a
    pause of a second; it ends on the first status 1.  Every round reads a
    turn key, and the one the session holds afterwards is the key of the
    accepted round; nothing else of the session changes. *)
Theorem init_mission_handshake :
  forall refused fuel w fd e accepted rest key,
    xml (self w) = Some e ->
    client_socket (self w) = Some fd ->
    sock_lookup fd (socks w)
    = Some (handshake_answers refused accepted ++ rest)%list ->
    Forall turned_down refused ->
    unpack_I (payload (fst accepted)) = Ret 1 ->
    decode_utf8 (payload (snd accepted)) = Ret key ->
    (length refused < fuel)%nat ->
    exists w',
      _init_mission fuel w = (Ret tt, w')
      /\ self w' = set_turn_key key (self w)
      /\ trace w'
         = (rev (handshake_events fd e (handshake_token (self w)) refused accepted)
            ++ trace w)%list
      /\ sock_lookup fd (socks w') = Some rest
      /\ clock w'
         = clock w + total_latency (handshake_answers refused accepted)
           + 1000 * Z.of_nat (length refused).
Proof.
  intros refused fuel w fd e accepted rest key.
  unfold _init_mission. apply init_mission_loop_handshake. discriminate.
Qed.

(** ** [_find_server] *)

Lemma total_latency_nonneg :
  forall zeros, Forall no_port_yet zeros -> 0 <= total_latency zeros.
Proof.
  intros zeros H. induction H as [|p l [_ Hp] _ IH]; unfold total_latency; simpl.
  - lia.
  - fold (total_latency l). lia.
Qed.

Lemma find_server_loop_found :
  forall fuel sock start found w,
    found <> 0 -> find_server_loop fuel sock start found w = (Ret found, w).
Proof.
  intros fuel sock start found w H. apply Z.eqb_neq in H.
  destruct fuel; simpl; rewrite H; reflexivity.
Qed.

(** One turn of the loop on an answer [p]. *)
Lemma find_server_turn :
  forall fuel sock start w p q n,
    sock_lookup sock (socks w) = Some (p :: q) ->
    unpack_I (payload p) = Ret n ->
    find_server_loop (S fuel) sock start 0 w
    = ((if n =? 0 then
          now <- time_time ;;
          (if now - start >? MAX_WAIT then
             match client_socket (self w) with
             | Some fd => close_socket fd ;; set_self (set_client_socket None)
             | None => ret tt
             end ;;
             raise (MissionInitException "too long finding mission to join")
           else ret tt) ;;
          time_sleep 1000
        else ret tt) ;;
       find_server_loop fuel sock start n)
        (with_trace (EvRecv sock (payload p))
           (with_clock (clock w + latency p)
              (with_socks ((sock, q) :: sock_remove sock (socks w))
                 (with_trace (EvSend sock (ReqFind (_get_token (self w)))) w)))).
Proof.
  intros fuel sock start w p q n Hq Hn.
  cbn [find_server_loop Z.eqb negb].
  erewrite bind_ret by reflexivity.
  erewrite bind_ret by (eapply send_message_open; exact Hq).
  erewrite bind_ret by (eapply recv_message_open; simpl; exact Hq).
  erewrite bind_ret by (unfold lift; rewrite Hn; reflexivity).
  reflexivity.
Qed.

Lemma find_server_loop_finds :
  forall zeros fuel w sock start last rest found,
    sock_lookup sock (socks w) = Some (zeros ++ last :: rest)%list ->
    Forall no_port_yet zeros ->
    unpack_I (payload last) = Ret found -> found <> 0 ->
    clock w - start + total_latency zeros + 1000 * Z.of_nat (length zeros)
    <= MAX_WAIT ->
    (length zeros < fuel)%nat ->
    exists w',
      find_server_loop fuel sock start 0 w = (Ret found, w')
      /\ self w' = self w
      /\ sock_lookup sock (socks w') = Some rest
      /\ trace w'
         = (rev (find_events sock (_get_token (self w)) zeros last)
            ++ trace w)%list
      /\ dials w' = dials w /\ next_fd w' = next_fd w.
Proof.
  induction zeros as [|p zeros IH];
    intros fuel w sock start last rest found Hq Hz Hlast Hne Htime Hfuel;
    (destruct fuel as [|fuel]; [simpl in Hfuel; lia|]).
  - simpl in Hq.
    rewrite (find_server_turn fuel sock start w last rest found Hq Hlast).
    assert (E : (found =? 0) = false) by (apply Z.eqb_neq; exact Hne).
    rewrite E.
    erewrite bind_ret by reflexivity.
    rewrite find_server_loop_found by exact Hne.
    eexists. split; [reflexivity|].
    split; [reflexivity|]. split; [apply sock_lookup_head|].
    repeat split.
  - inversion Hz as [|p0 l [Hp Hlat] Hrest]; subst.
    pose proof (total_latency_nonneg zeros Hrest) as Hnn.
    assert (Hl : total_latency (p :: zeros) = latency p + total_latency zeros)
      by reflexivity.
    rewrite Hl in Htime. cbn [length] in Htime.
    rewrite Nat2Z.inj_succ in Htime.
    simpl in Hq.
    rewrite (find_server_turn fuel sock start w p _ 0 Hq Hp).
    cbn [Z.eqb].
    assert (E : (clock w + latency p - start >? MAX_WAIT) = false).
    { rewrite Z.gtb_ltb. apply Z.ltb_ge. lia. }
    erewrite bind_ret;
      [| erewrite bind_ret by reflexivity;
         cbn [clock with_trace with_clock with_socks];
         rewrite E;
         erewrite bind_ret by reflexivity;
         reflexivity ].
    match goal with
    | |- context [ find_server_loop fuel sock start 0 ?w0 ] =>
        destruct (IH fuel w0 sock start last rest found)
          as (w' & Hrun & Hself & Hs & Ht & Hd & Hn);
          [ apply sock_lookup_head | exact Hrest | exact Hlast | exact Hne
          | cbn [clock with_trace with_clock with_socks]; lia
          | simpl in Hfuel; lia | ]
    end.
    exists w'. split; [exact Hrun|].
    split; [rewrite Hself; reflexivity|]. split; [exact Hs|].
    split.
    { rewrite Ht. unfold find_events. simpl.
      rewrite !rev_app_distr. simpl. rewrite <- !app_assoc. reflexivity. }
    split; [rewrite Hd; reflexivity | rewrite Hn; reflexivity].
Qed.

Lemma find_server_loop_gives_up :
  forall zeros fuel w sock start late rest,
    sock_lookup sock (socks w) = Some (zeros ++ late :: rest)%list ->
    Forall no_port_yet zeros ->
    unpack_I (payload late) = Ret 0 ->
    clock w - start + total_latency zeros + 1000 * Z.of_nat (length zeros)
    <= MAX_WAIT ->
    MAX_WAIT
    < clock w - start + total_latency zeros + 1000 * Z.of_nat (length zeros)
      + latency late ->
    (length zeros < fuel)%nat ->
    exists w',
      find_server_loop fuel sock start 0 w
      = (Raise (MissionInitException "too long finding mission to join"), w')
      /\ client_socket (self w') = None
      /\ (forall fd, client_socket (self w) = Some fd ->
                     exists earlier, trace w' = EvClose fd :: earlier)
      /\ (client_socket (self w) <> Some sock ->
          sock_lookup sock (socks w') = Some rest).
Proof.
  induction zeros as [|p zeros IH];
    intros fuel w sock start late rest Hq Hz Hlate Hin Hout Hfuel;
    (destruct fuel as [|fuel]; [simpl in Hfuel; lia|]).
  - simpl in Hq. unfold total_latency in Hout. simpl in Hout.
    rewrite (find_server_turn fuel sock start w late rest 0 Hq Hlate).
    cbn [Z.eqb].
    assert (E : (clock w + latency late - start >? MAX_WAIT) = true).
    { rewrite Z.gtb_ltb. apply Z.ltb_lt. lia. }
    destruct (client_socket (self w)) as [fd|] eqn:Hs.
    + erewrite bind_raise;
        [| erewrite bind_ret by reflexivity;
           cbn [clock with_trace with_clock with_socks];
           rewrite E;
           erewrite bind_raise;
             [ reflexivity
             | erewrite bind_ret
                 by (erewrite bind_ret by reflexivity; reflexivity);
               reflexivity ] ].
      eexists. split; [reflexivity|].
      split; [reflexivity|].
      split; [intros fd' Efd; injection Efd as <-; eexists; reflexivity|].
      intros Hne. cbn [socks with_self with_trace with_clock with_socks].
      assert (Hfd : Nat.eqb sock fd = false).
      { apply Nat.eqb_neq. congruence. }
      simpl. rewrite Nat.eqb_sym, Hfd. simpl. rewrite Nat.eqb_refl. reflexivity.
    + erewrite bind_raise;
        [| erewrite bind_ret by reflexivity;
           cbn [clock with_trace with_clock with_socks];
           rewrite E;
           erewrite bind_raise;
             [ reflexivity
             | erewrite bind_ret by reflexivity; reflexivity ] ].
      eexists. split; [reflexivity|].
      split; [exact Hs|].
      split; [intros fd' Efd; discriminate Efd|].
      intros _. apply sock_lookup_head.
  - inversion Hz as [|p0 l [Hp Hlat] Hrest]; subst.
    pose proof (total_latency_nonneg zeros Hrest) as Hnn.
    assert (Hl : total_latency (p :: zeros) = latency p + total_latency zeros)
      by reflexivity.
    rewrite Hl in Hin, Hout. cbn [length] in Hin, Hout.
    rewrite Nat2Z.inj_succ in Hin, Hout.
    simpl in Hq.
    rewrite (find_server_turn fuel sock start w p _ 0 Hq Hp).
    cbn [Z.eqb].
    assert (E : (clock w + latency p - start >? MAX_WAIT) = false).
    { rewrite Z.gtb_ltb. apply Z.ltb_ge. lia. }
    erewrite bind_ret;
      [| erewrite bind_ret by reflexivity;
         cbn [clock with_trace with_clock with_socks];
         rewrite E;
         erewrite bind_ret by reflexivity;
         reflexivity ].
    match goal with
    | |- context [ find_server_loop fuel sock start 0 ?w0 ] =>
        destruct (IH fuel w0 sock start late rest)
          as (w' & Hrun & Hnone & Hclose & Hs);
          [ apply sock_lookup_head | exact Hrest | exact Hlate
          | cbn [clock with_trace with_clock with_socks]; lia
          | cbn [clock with_trace with_clock with_socks]; lia
          | simpl in Hfuel; lia | ]
    end.
    exists w'. split; [exact Hrun|].
    split; [exact Hnone|]. split; [exact Hclose | exact Hs].
Qed.

(** X16. [_find_server] asks the head for the port of the mission's
    server until an answer names one, pausing a second after each answer
    that does not: with answers that come within the three minutes of
    [MAX_WAIT], it returns with that port in [integratedServerPort], writes
    it into the [MinecraftServerConnection] element of the document when
    there is one, has closed the socket it opened, and leaves the client
    socket alone. *)
Theorem find_server_finds :
  forall zeros fuel w i e last rest rest_dials found,
    instance (self w) = Some i ->
    xml (self w) = Some e ->
    dials w = Accepted (zeros ++ last :: rest)%list :: rest_dials ->
    Forall no_port_yet zeros ->
    unpack_I (payload last) = Ret found -> found <> 0 ->
    total_latency zeros + 1000 * Z.of_nat (length zeros) <= MAX_WAIT ->
    (length zeros < fuel)%nat ->
    exists w',
      _find_server fuel w = (Ret tt, w')
      /\ integratedServerPort (self w') = found
      /\ client_socket (self w') = client_socket (self w)
      /\ xml (self w')
         = Some (match set_child_attrib (ns ++ "MinecraftServerConnection")
                                        "port" (str_of_Z found) e with
                 | Some e' => e'
                 | None => e
                 end)
      /\ sock_lookup (next_fd w) (socks w') = None
      /\ trace w'
         = (EvClose (next_fd w)
            :: rev (find_events (next_fd w) (_get_token (self w)) zeros last)
            ++ [EvSend (next_fd w) ReqHello;
                EvConnect (next_fd w) (host i, port i)]
            ++ trace w)%list.
Proof.
  intros zeros fuel w i e last rest rest_dials found
         Hi Hxml Hd Hz Hlast Hne Htime Hfuel.
  unfold _find_server.
  erewrite bind_ret by (apply instance_address_some; exact Hi).
  erewrite bind_ret by (unfold connect; rewrite Hd; reflexivity).
  unfold _hello.
  erewrite bind_ret by (eapply send_message_open; simpl; apply sock_lookup_head).
  erewrite bind_ret by reflexivity.
  match goal with
  | |- context [ find_server_loop fuel ?sock ?start 0 ] =>
      match goal with
      | |- exists w', bind _ _ ?w0 = _ /\ _ =>
          destruct (find_server_loop_finds zeros fuel w0 sock start last rest found)
            as (w1 & Hrun & Hself & Hs & Ht & _);
            [ apply sock_lookup_head | exact Hz | exact Hlast | exact Hne
            | cbn [clock with_trace with_clock with_socks with_dialled]; lia
            | exact Hfuel | ]
      end
  end.
  erewrite bind_ret by exact Hrun.
  erewrite bind_ret by reflexivity.
  erewrite bind_ret by reflexivity.
  erewrite bind_ret by reflexivity.
  cbn [self with_self with_trace with_socks xml set_integratedServerPort].
  rewrite Hself.
  cbn [self with_self with_trace with_socks with_dialled xml].
  rewrite Hxml.
  destruct (set_child_attrib (ns ++ "MinecraftServerConnection") "port"
                             (str_of_Z found) e) as [e'|].
  - eexists. split; [reflexivity|].
    cbn [self with_self with_trace with_socks].
    rewrite Hself.
    split; [reflexivity|]. split; [reflexivity|]. split; [reflexivity|].
    split; [apply sock_lookup_removed|].
    cbn [trace with_self with_trace with_socks]. rewrite Ht. reflexivity.
  - eexists. split; [reflexivity|].
    cbn [self with_self with_trace with_socks].
    rewrite Hself.
    split; [reflexivity|]. split; [reflexivity|].
    split; [exact Hxml|].
    split; [apply sock_lookup_removed|].
    cbn [trace with_self with_trace with_socks]. rewrite Ht. reflexivity.
Qed.

(** X17. When an answer without a port comes later than [MAX_WAIT] after
    the search began, [_find_server] gives up with [MissionInitException]:
    the client socket, if there is one, is closed and forgotten; the socket
    the search opened is not closed. *)
Theorem find_server_gives_up :
  forall zeros fuel w i late rest rest_dials,
    instance (self w) = Some i ->
    dials w = Accepted (zeros ++ late :: rest)%list :: rest_dials ->
    Forall no_port_yet zeros ->
    unpack_I (payload late) = Ret 0 ->
    total_latency zeros + 1000 * Z.of_nat (length zeros) <= MAX_WAIT ->
    MAX_WAIT
    < total_latency zeros + 1000 * Z.of_nat (length zeros) + latency late ->
    (length zeros < fuel)%nat ->
    exists w',
      _find_server fuel w
      = (Raise (MissionInitException "too long finding mission to join"), w')
      /\ client_socket (self w') = None
      /\ (forall fd, client_socket (self w) = Some fd ->
                     exists earlier, trace w' = EvClose fd :: earlier)
      /\ (client_socket (self w) <> Some (next_fd w) ->
          sock_lookup (next_fd w) (socks w') = Some rest).
Proof.
  intros zeros fuel w i late rest rest_dials Hi Hd Hz Hlate Hin Hout Hfuel.
  unfold _find_server.
  erewrite bind_ret by (apply instance_address_some; exact Hi).
  erewrite bind_ret by (unfold connect; rewrite Hd; reflexivity).
  unfold _hello.
  erewrite bind_ret by (eapply send_message_open; simpl; apply sock_lookup_head).
  erewrite bind_ret by reflexivity.
  match goal with
  | |- context [ find_server_loop fuel ?sock ?start 0 ] =>
      match goal with
      | |- exists w', bind _ _ ?w0 = _ /\ _ =>
          destruct (find_server_loop_gives_up zeros fuel w0 sock start late rest)
            as (w1 & Hrun & Hnone & Hclose & Hs);
            [ apply sock_lookup_head | exact Hz | exact Hlate
            | cbn [clock with_trace with_clock with_socks with_dialled]; lia
            | cbn [clock with_trace with_clock with_socks with_dialled]; lia
            | exact Hfuel | ]
      end
  end.
  erewrite bind_raise by exact Hrun.
  exists w1. split; [reflexivity|].
  split; [exact Hnone|]. split; [exact Hclose | exact Hs].
Qed.

(** ** [_peek_obs] when the first frame is there *)

Lemma peek_obs_frame_spec :
  forall w fd p_obs p_info p_flag rest info d out g',
    done (self w) = false ->
    client_socket (self w) = Some fd ->
    sock_lookup fd (socks w) = Some (p_obs :: p_info :: p_flag :: rest) ->
    payload p_obs <> "" ->
    decode_utf8 (payload p_info) = Ret info ->
    unpack_b (payload p_flag) = Ret d ->
    _process_observation (height (self w)) (width (self w)) (depth (self w))
                         (observation_space (self w))
                         (Some (payload p_obs)) (Some info) (gen w)
    = (Ret out, g') ->
    exists w',
      _peek_obs w = (Ret (out, []), w')
      /\ self w' = set_done (d =? 1) (self w)
      /\ trace w' = EvRecv fd (payload p_flag) :: EvRecv fd (payload p_info)
                    :: EvRecv fd (payload p_obs) :: EvSend fd ReqPeek :: trace w
      /\ sock_lookup fd (socks w') = Some rest
      /\ clock w' = clock w + latency p_obs + latency p_info + latency p_flag.
Proof.
  intros w fd p_obs p_info p_flag rest info d out g'
         Hdone Hsock Hq Hfull Hinfo Hflag Hobs.
  assert (Hlen : (String.length (payload p_obs) =? 0)%nat = false).
  { destruct (payload p_obs); [congruence | reflexivity]. }
  unfold _peek_obs.
  erewrite bind_ret by reflexivity.
  erewrite bind_ret by reflexivity.
  rewrite Hdone, Hsock. cbn [negb].
  erewrite bind_ret;
    [| erewrite bind_ret by (eapply send_message_open; exact Hq);
       erewrite bind_ret by (eapply recv_message_open; simpl; exact Hq);
       erewrite bind_ret by (eapply recv_message_open; simpl; apply sock_lookup_head);
       erewrite bind_ret by (unfold lift; rewrite Hinfo; reflexivity);
       erewrite bind_ret by (eapply recv_message_open; simpl; apply sock_lookup_head);
       erewrite bind_ret by (unfold lift; rewrite Hflag; reflexivity);
       erewrite bind_ret by reflexivity;
       rewrite Hlen;
       erewrite bind_ret by reflexivity;
       reflexivity ].
  cbv beta iota.
  erewrite bind_ret;
    [| unfold decode; erewrite bind_ret by reflexivity;
       unfold with_rng; simpl; rewrite Hobs; reflexivity ].
  eexists. split; [reflexivity|].
  split; [reflexivity|]. split; [reflexivity|].
  split; [apply sock_lookup_head|].
  cbn [clock with_self with_trace with_clock with_socks with_gen]. lia.
Qed.

(** X18. [_peek_obs] on a session that has just started, when the
    observation that comes back is not empty: one [<Peek/>] goes out, the
    frame, the info and the [done] byte are read, no pause is made, the
    session's [done] becomes [byte == 1] and nothing else of it changes, and
    what is returned is the decoded observation with an empty info. *)
Theorem peek_obs_frame :
  forall w fd p_obs p_info p_flag rest info d out g',
    done (self w) = false ->
    client_socket (self w) = Some fd ->
    sock_lookup fd (socks w) = Some (p_obs :: p_info :: p_flag :: rest) ->
    payload p_obs <> "" ->
    decode_utf8 (payload p_info) = Ret info ->
    unpack_b (payload p_flag) = Ret d ->
    _process_observation (height (self w)) (width (self w)) (depth (self w))
                         (observation_space (self w))
                         (Some (payload p_obs)) (Some info) (gen w)
    = (Ret out, g') ->
    exists w',
      _peek_obs w = (Ret (out, []), w')
      /\ self w' = set_done (d =? 1) (self w)
      /\ trace w' = EvRecv fd (payload p_flag) :: EvRecv fd (payload p_info)
                    :: EvRecv fd (payload p_obs) :: EvSend fd ReqPeek :: trace w
      /\ sock_lookup fd (socks w') = Some rest
      /\ clock w' = clock w + latency p_obs + latency p_info + latency p_flag.
Proof. exact peek_obs_frame_spec. Qed.

(** ** [_start_up]: the episode counter *)

Lemma same_resets_refl : forall w, same_resets w w.
Proof. intros w. reflexivity. Qed.

Lemma same_resets_trans :
  forall a b c, same_resets a b -> same_resets b c -> same_resets a c.
Proof. unfold same_resets. intros a b c H1 H2. congruence. Qed.

Lemma same_resets_with_self :
  forall f,
    (forall s, resets (f s) = resets s) ->
    forall w, same_resets w (with_self f w).
Proof. intros f H w. unfold same_resets. cbn [self with_self]. apply H. Qed.

Ltac resets_leaf :=
  first
    [ exact same_resets_refl
    | exact same_resets_trans
    | apply same_resets_with_self; intros; reflexivity
    | intros; reflexivity ].

Lemma find_server_loop_same_resets :
  forall fuel sock start_time found,
    keeps same_resets (find_server_loop fuel sock start_time found).
Proof.
  induction fuel as [|fuel IH]; intros sock start_time found; simpl.
  - keeps_with resets_leaf.
  - pose proof IH as IH'. keeps_with resets_leaf. apply IH'.
Qed.

Lemma init_mission_loop_same_resets :
  forall fuel ok, keeps same_resets (init_mission_loop fuel ok).
Proof.
  induction fuel as [|fuel IH]; intros ok; simpl.
  - keeps_with resets_leaf.
  - pose proof IH as IH'. keeps_with resets_leaf. apply IH'.
Qed.

Lemma peek_obs_same_resets : keeps same_resets _peek_obs.
Proof. unfold _peek_obs, decode. keeps_with resets_leaf. Qed.

(** One attempt of the start-up adds one to the episode counter, however
    it ends. *)
Lemma start_up_body_resets :
  forall fuel w r w',
    start_up_body fuel w = (r, w') ->
    resets (self w') = resets (self w) + 1.
Proof.
  intros fuel w r w' H. unfold start_up_body in H.
  unfold bind at 1, set_self at 1, modify at 1 in H.
  assert (Hk : keeps same_resets
    (s <- get_self ;;
     (if negb (role s =? 0) then _find_server fuel else ret tt) ;;
     s0 <- get_self ;;
     match client_socket s0 with
     | Some _ => ret tt
     | None =>
         peer <- instance_address true ;;
         sock <- connect peer ;;
         _hello sock ;;
         set_self (set_client_socket (Some sock))
     end ;;
     _init_mission fuel ;;
     set_self (set_done false) ;;
     _peek_obs)).
  { unfold _find_server, _init_mission, instance_address, _hello.
    pose proof (init_mission_loop_same_resets fuel 0).
    pose proof peek_obs_same_resets.
    keeps_with resets_leaf.
    apply find_server_loop_same_resets. }
  apply Hk in H. unfold same_resets in H. rewrite H. reflexivity.
Qed.

Lemma retry_from_attempts :
  forall (A : Type) (f : W A),
    (forall w r w', f w = (r, w') -> resets (self w') = resets (self w) + 1) ->
    forall attempts last w r w',
      retry_from attempts last f w = (r, w') ->
      exists made,
        resets (self w') = resets (self w) + Z.of_nat made
        /\ (made <= attempts)%nat
        /\ ((0 < attempts)%nat -> (0 < made)%nat).
Proof.
  intros A f Hf. induction attempts as [|n IH]; intros last w r w' H.
  - inversion H; subst. exists 0%nat. split; [simpl; lia|]. split; lia.
  - simpl in H. unfold try_except in H.
    destruct (f w) as [[a|e|] w1] eqn:E; pose proof (Hf _ _ _ E) as H1.
    + inversion H; subst. exists 1%nat. split; [exact H1|]. split; lia.
    + destruct n as [|m].
      * inversion H; subst. exists 1%nat. split; [exact H1|]. split; lia.
      * unfold bind at 1, time_sleep, modify in H.
        apply IH in H. destruct H as (made & Hr & Hle & Hpos).
        exists (S made). split.
        { rewrite Hr. cbn [self with_trace with_clock]. rewrite H1.
          rewrite Nat2Z.inj_succ. lia. }
        split; lia.
    + inversion H; subst. exists 1%nat. split; [exact H1|]. split; lia.
Qed.

(** X19. Every attempt of [_start_up] adds one to the episode counter,
    whether it succeeds or not: the body of [_start_up] leaves
    [resets + 1] however it ends, and under the [retry] decorator the counter
    has grown by the number of attempts made, at least one and at most the
    number the decorator allows. *)
Theorem start_up_counts_attempts :
  forall fuel w r w',
    (start_up_body fuel w = (r, w') ->
     resets (self w') = resets (self w) + 1)
    /\ (_start_up fuel w = (r, w') ->
        exists made,
          resets (self w') = resets (self w) + Z.of_nat made
          /\ (made <= retry_count)%nat
          /\ ((0 < retry_count)%nat -> (0 < made)%nat)).
Proof.
  intros fuel w r w'. split.
  - apply start_up_body_resets.
  - intros H. unfold _start_up, retry in H.
    eapply retry_from_attempts; [|exact H].
    intros w0 r0 w0' H0. eapply start_up_body_resets. exact H0.
Qed.

(** ** [reset]: a new episode on a session that is done *)

Lemma connect_accepted :
  forall peer w replies rest,
    dials w = Accepted replies :: rest ->
    connect peer w
    = (Ret (next_fd w),
       with_trace (EvConnect (next_fd w) peer)
         (with_socks ((next_fd w, replies) :: socks w) (with_dialled rest w))).
Proof. intros peer w replies rest H. unfold connect. rewrite H. reflexivity. Qed.

(** The handshake accepted at once, then the peek that finds a frame. *)
Lemma start_up_handshake_and_peek :
  forall fuel w fd e p_ok p_key p_obs p_info p_flag rest key info d out g',
    client_socket (self w) = Some fd ->
    xml (self w) = Some e ->
    sock_lookup fd (socks w)
    = Some (p_ok :: p_key :: p_obs :: p_info :: p_flag :: rest) ->
    unpack_I (payload p_ok) = Ret 1 ->
    decode_utf8 (payload p_key) = Ret key ->
    payload p_obs <> "" ->
    decode_utf8 (payload p_info) = Ret info ->
    unpack_b (payload p_flag) = Ret d ->
    _process_observation (height (self w)) (width (self w)) (depth (self w))
                         (observation_space (self w))
                         (Some (payload p_obs)) (Some info) (gen w)
    = (Ret out, g') ->
    exists w',
      (_init_mission (S fuel) ;; set_self (set_done false) ;; _peek_obs) w
      = (Ret (out, []), w')
      /\ self w' = set_done (d =? 1) (set_done false (set_turn_key key (self w)))
      /\ sock_lookup fd (socks w') = Some rest
      /\ trace w'
         = EvRecv fd (payload p_flag) :: EvRecv fd (payload p_info)
           :: EvRecv fd (payload p_obs) :: EvSend fd ReqPeek
           :: EvRecv fd (payload p_key) :: EvRecv fd (payload p_ok)
           :: EvSend fd (ReqToken (handshake_token (self w)))
           :: EvSend fd (ReqDescriptor e) :: trace w.
Proof.
  intros fuel w fd e p_ok p_key p_obs p_info p_flag rest key info d out g'
         Hsock Hxml Hq Hok Hkey Hfull Hinfo Hflag Hobs.
  unfold _init_mission.
  erewrite bind_ret;
    [| erewrite (init_mission_round fuel 0 w fd e p_ok p_key
                   (p_obs :: p_info :: p_flag :: rest) 1 key);
       [ cbn [Z.eqb Pos.eqb negb];
         erewrite bind_ret by reflexivity;
         apply init_mission_loop_done
       | discriminate | exact Hxml | exact Hsock
       | exact Hq | exact Hok | exact Hkey ] ].
  erewrite bind_ret by reflexivity.
  match goal with
  | |- exists w', _peek_obs ?w4 = _ /\ _ =>
      destruct (peek_obs_frame_spec w4 fd p_obs p_info p_flag rest info d out g')
        as (w' & Hrun & Hself & Ht & Hs & _);
        [ reflexivity | exact Hsock | apply sock_lookup_head | exact Hfull
        | exact Hinfo | exact Hflag | exact Hobs | ]
  end.
  exists w'. split; [exact Hrun|].
  split; [rewrite Hself; reflexivity|].
  split; [exact Hs|]. rewrite Ht. reflexivity.
Qed.

(** The first attempt of the start-up on a session without a socket, when
    the peer accepts the handshake at once and has a frame ready. *)
Lemma start_up_body_runs :
  forall fuel w i e p_ok p_key p_obs p_info p_flag rest rest_dials
         key info d out g',
    role (self w) = 0 ->
    client_socket (self w) = None ->
    instance (self w) = Some i ->
    xml (self w) = Some e ->
    dials w
    = Accepted (p_ok :: p_key :: p_obs :: p_info :: p_flag :: rest) :: rest_dials ->
    unpack_I (payload p_ok) = Ret 1 ->
    decode_utf8 (payload p_key) = Ret key ->
    payload p_obs <> "" ->
    decode_utf8 (payload p_info) = Ret info ->
    unpack_b (payload p_flag) = Ret d ->
    _process_observation (height (self w)) (width (self w)) (depth (self w))
                         (observation_space (self w))
                         (Some (payload p_obs)) (Some info) (gen w)
    = (Ret out, g') ->
    exists w',
      start_up_body (S fuel) w = (Ret (out, []), w')
      /\ self w'
         = set_done (d =? 1)
             (set_done false
                (set_turn_key key
                   (set_client_socket (Some (next_fd w))
                      (set_resets (resets (self w) + 1) (self w)))))
      /\ sock_lookup (next_fd w) (socks w') = Some rest
      /\ trace w'
         = EvRecv (next_fd w) (payload p_flag)
           :: EvRecv (next_fd w) (payload p_info)
           :: EvRecv (next_fd w) (payload p_obs)
           :: EvSend (next_fd w) ReqPeek
           :: EvRecv (next_fd w) (payload p_key)
           :: EvRecv (next_fd w) (payload p_ok)
           :: EvSend (next_fd w)
                (ReqToken (handshake_token
                             (set_resets (resets (self w) + 1) (self w))))
           :: EvSend (next_fd w) (ReqDescriptor e)
           :: EvSend (next_fd w) ReqHello
           :: EvConnect (next_fd w) (host i, port i)
           :: trace w.
Proof.
  intros fuel w i e p_ok p_key p_obs p_info p_flag rest rest_dials
         key info d out g'
         Hrole Hsock Hi Hxml Hd Hok Hkey Hfull Hinfo Hflag Hobs.
  unfold start_up_body.
  erewrite bind_ret by reflexivity.
  erewrite bind_ret by reflexivity.
  cbn [self with_self role set_resets].
  rewrite Hrole. cbn [Z.eqb negb].
  erewrite bind_ret by reflexivity.
  erewrite bind_ret by reflexivity.
  cbn [self with_self client_socket set_resets].
  rewrite Hsock.
  erewrite bind_ret;
    [| erewrite bind_ret by (apply instance_address_some; exact Hi);
       erewrite bind_ret by (apply connect_accepted; exact Hd);
       unfold _hello;
       erewrite bind_ret
         by (eapply send_message_open; simpl; apply sock_lookup_head);
       reflexivity ].
  match goal with
  | |- exists w', bind _ _ ?w2 = _ /\ _ =>
      destruct (start_up_handshake_and_peek fuel w2 (next_fd w) e
                  p_ok p_key p_obs p_info p_flag rest key info d out g')
        as (w' & Hrun & Hself & Hs & Ht);
        [ reflexivity | exact Hxml | apply sock_lookup_head | exact Hok
        | exact Hkey | exact Hfull | exact Hinfo | exact Hflag | exact Hobs | ]
  end.
  exists w'. split; [exact Hrun|].
  split; [rewrite Hself; reflexivity|].
  split; [exact Hs|]. rewrite Ht. reflexivity.
Qed.

(** X20. A reset of a session that is done and has no socket, off the
    resync period, when the peer accepts the connection and the handshake at
    once and has a frame ready: no quit request is sent; the episode counter
    goes up by one before the token is built, so the token carries the new
    count; the socket opened is kept as the client socket; the turn key of
    the handshake is held; [done] is what the peek's byte says; and the
    decoded first observation is returned with an empty info.  The exchange
    is, in order: connect, hello, descriptor, token, status, turn key,
    peek, frame, info, done byte. *)
Theorem reset_starts_episode :
  forall fuel w i e p_ok p_key p_obs p_info p_flag rest rest_dials
         key info d out g',
    has_init (self w) = true ->
    done (self w) = true ->
    resync_not_due (self w) ->
    role (self w) = 0 ->
    client_socket (self w) = None ->
    instance (self w) = Some i ->
    xml (self w) = Some e ->
    dials w
    = Accepted (p_ok :: p_key :: p_obs :: p_info :: p_flag :: rest) :: rest_dials ->
    unpack_I (payload p_ok) = Ret 1 ->
    decode_utf8 (payload p_key) = Ret key ->
    payload p_obs <> "" ->
    decode_utf8 (payload p_info) = Ret info ->
    unpack_b (payload p_flag) = Ret d ->
    _process_observation (height (self w)) (width (self w)) (depth (self w))
                         (observation_space (self w))
                         (Some (payload p_obs)) (Some info) (gen w)
    = (Ret out, g') ->
    (0 < fuel)%nat ->
    (0 < retry_count)%nat ->
    exists w',
      reset fuel w = (Ret (out, []), w')
      /\ resets (self w') = resets (self w) + 1
      /\ turn_key (self w') = key
      /\ done (self w') = (d =? 1)
      /\ client_socket (self w') = Some (next_fd w)
      /\ sock_lookup (next_fd w) (socks w') = Some rest
      /\ trace w'
         = EvRecv (next_fd w) (payload p_flag)
           :: EvRecv (next_fd w) (payload p_info)
           :: EvRecv (next_fd w) (payload p_obs)
           :: EvSend (next_fd w) ReqPeek
           :: EvRecv (next_fd w) (payload p_key)
           :: EvRecv (next_fd w) (payload p_ok)
           :: EvSend (next_fd w)
                (ReqToken (handshake_token
                             (set_resets (resets (self w) + 1) (self w))))
           :: EvSend (next_fd w) (ReqDescriptor e)
           :: EvSend (next_fd w) ReqHello
           :: EvConnect (next_fd w) (host i, port i)
           :: trace w.
Proof.
  intros fuel w i e p_ok p_key p_obs p_info p_flag rest rest_dials
         key info d out g'
         Hinit Hdone Hdue Hrole Hsock Hi Hxml Hd Hok Hkey Hfull Hinfo Hflag Hobs
         Hfuel Hretry.
  destruct fuel as [|fuel]; [lia|].
  destruct (start_up_body_runs fuel w i e p_ok p_key p_obs p_info p_flag
              rest rest_dials key info d out g'
              Hrole Hsock Hi Hxml Hd Hok Hkey Hfull Hinfo Hflag Hobs)
    as (w' & Hrun & Hself & Hs & Ht).
  exists w'. split.
  - unfold reset. unfold resync_not_due in Hdue.
    erewrite bind_ret by reflexivity.
    rewrite Hinit, Hdue. cbn [negb].
    erewrite bind_ret by reflexivity.
    erewrite bind_ret by reflexivity.
    erewrite bind_ret by (rewrite drain_unfold, Hdone; reflexivity).
    unfold _start_up, retry.
    destruct retry_count as [|attempts]; [lia|].
    cbn [retry_from]. unfold try_except. rewrite Hrun. reflexivity.
  - rewrite Hself.
    split; [reflexivity|]. split; [reflexivity|]. split; [reflexivity|].
    split; [reflexivity|]. split; [exact Hs | exact Ht].
Qed.

End MineRL.

(** * The theorems on the concrete session *)

(** A done session: [step] raises on the unbound [out_obs] and the world
    is as before. *)
Lemma step_when_done_raises_witness :
  step ex_repr ex_json_loads [("forward", PInt 1)]
       (ex_world (ex_env (Some 3%nat) true 0) [] [])
  = (Raise UnboundLocalError, ex_world (ex_env (Some 3%nat) true 0) [] []).
Proof.
  apply (proj2 (step_when_done_raises ex_repr ex_json_loads
                  [("forward", PInt 1)]
                  (ex_world (ex_env (Some 3%nat) true 0) [] []) eq_refl)
               0 "forward go"); reflexivity.
Defined.

(** A step with [sent = 1] that brings the new key [tk1]: the key is
    taken and the turn is lost. *)
Lemma turn_resolution_witness :
  exists l w',
    step_body ex_repr ex_json_loads [("forward", PInt 1)]
      (ex_world (ex_env (Some 3%nat) false 0) []
         [(3%nat, [pkt ex_frame; pkt ex_step_reply; pkt ex_payload; pkt "tk1"])])
    = (Ret l, w')
    /\ out_obs l
       = Some [("pov", PArr [2; 2; 3]
                         [97; 98; 99; 100; 101; 102; 103; 104; 105; 106; 107; 108]);
               ("compassAngle", PInt 5)]
    /\ turn_key (self w') = "tk1" /\ turn l = false.
Proof.
  destruct (turn_resolution ex_repr ex_json_loads [("forward", PInt 1)]
              (ex_world (ex_env (Some 3%nat) false 0) []
                 [(3%nat, [pkt ex_frame; pkt ex_step_reply; pkt ex_payload;
                           pkt "tk1"])])
              3%nat 0 "forward go" (pkt ex_frame) (pkt ex_step_reply)
              [pkt ex_payload] (Some ex_payload) (pkt "tk1") []
              (substring 0 8 ex_step_reply) 0 1
              [("pov", PArr [2; 2; 3]
                         [97; 98; 99; 100; 101; 102; 103; 104; 105; 106; 107; 108]);
               ("compassAngle", PInt 5)]
              ex_rng "tk1")
    as (l & w' & Hrun & Hobs & Hkey & _);
    try reflexivity.
  - exists (pkt ex_payload), ex_payload. repeat split.
  - exists l, w'. split; [exact Hrun|]. split; [exact Hobs|].
    assert (Hne : "tk1" <> "") by discriminate.
    destruct (Hkey Hne) as (Hk & Hlost & _).
    split; [exact Hk|]. apply Hlost. discriminate.
Defined.

(** An empty first frame while a full frame waits behind it: one peek,
    one sleep, and the full frame is still unread. *)
Lemma peek_polls_once_witness :
  exists r w',
    _peek_obs ex_json_loads
      (ex_world (ex_env (Some 3%nat) false 0) []
         [(3%nat, [pkt ""; pkt ""; pkt ex_flag_0;
                   pkt ex_frame; pkt ""; pkt ex_flag_0])])
    = (r, w')
    /\ trace w' = [EvSleep 100; EvRecv 3 ex_flag_0; EvRecv 3 ""; EvRecv 3 "";
                   EvSend 3 ReqPeek]
    /\ sock_lookup 3 (socks w') = Some [pkt ex_frame; pkt ""; pkt ex_flag_0]
    /\ client_socket (self w') = Some 3%nat.
Proof.
  apply (proj1 (peek_polls_once ex_json_loads
                  (ex_world (ex_env (Some 3%nat) false 0) []
                     [(3%nat, [pkt ""; pkt ""; pkt ex_flag_0;
                               pkt ex_frame; pkt ""; pkt ex_flag_0])])
                  3%nat (pkt "") (pkt "") (pkt ex_flag_0)
                  [pkt ex_frame; pkt ""; pkt ex_flag_0] "" 0
                  eq_refl eq_refl eq_refl eq_refl eq_refl eq_refl)).
  vm_compute. discriminate.
Defined.

(** C3, at that input: what [_peek_obs] returns is the zero frame. *)
Lemma peek_returns_zero_frame :
  fst (_peek_obs ex_json_loads
         (ex_world (ex_env (Some 3%nat) false 0) []
            [(3%nat, [pkt ""; pkt ""; pkt ex_flag_0;
                      pkt ex_frame; pkt ""; pkt ex_flag_0])]))
  = Ret ([("pov", zero_frame 2 2 3); ("compassAngle", PArr [] [-173])], []).
Proof. vm_compute. reflexivity. Qed.






(** A template without [<Mission]: [init] raises [ValueError]. *)
Lemma init_without_mission_marker_witness :
  exists w',
    init ex_fromstring ex_missions_dir ex_flat_space ex_action_space
         None 0 None 0 (Some 0) (ex_world (ex_fresh "bare.xml") [] [])
    = (Raise ValueError, w')
    /\ trace w' = [].
Proof.
  assert (Hlack : lacks_marker
                    (str_replace "<Foo/>" "$(MISSIONS_DIR)" ex_missions_dir)).
  { intros i. do 7 (destruct i as [|i]; [simpl; discriminate|]).
    simpl. discriminate. }
  apply (proj1 (init_without_mission_marker ex_fromstring ex_missions_dir
                  ex_flat_space ex_action_space None 0 None 0 (Some 0)
                  (ex_world (ex_fresh "bare.xml") [] []) "<Foo/>"
                  (ex_intro _ ex_instance eq_refl) eq_refl Hlack)).
Defined.



(** [init] on a plain mission and on one with turn-based commands. *)
Lemma init_forces_single_agent_witness :
  (let w' := snd (init ex_fromstring ex_missions_dir ex_flat_space
                       ex_action_space (Some "uid") 7 None 3 (Some 1)
                       (ex_world (ex_fresh "plain.xml") [] [])) in
   role (self w') = 0 /\ agent_count (self w') = 1
   /\ turn_key (self w') = "" /\ done (self w') = true)
  /\ exists w',
      init ex_fromstring ex_missions_dir ex_flat_space ex_action_space
           None 0 None 0 (Some 0) (ex_world (ex_fresh "turn.xml") [] [])
      = (Raise NotImplementedError, w').
Proof.
  split.
  - apply (proj1 (init_forces_single_agent ex_fromstring ex_missions_dir
                    ex_flat_space ex_action_space (Some "uid") 7 None 3 (Some 1)
                    (ex_world (ex_fresh "plain.xml") [] []))).
    vm_compute. reflexivity.
  - apply (proj2 (init_forces_single_agent ex_fromstring ex_missions_dir
                    ex_flat_space ex_action_space None 0 None 0 (Some 0)
                    (ex_world (ex_fresh "turn.xml") [] []))
                 ex_turn_text ex_turn_text
                 (ex_mission [ex_video "false";
                              Element (ns ++ "TurnBasedCommands") [] None []])
                 (ex_intro _ ex_instance eq_refl) eq_refl eq_refl eq_refl).
    vm_compute. discriminate.
Defined.

(** ** Further properties, on the concrete session *)

(** [jump] is no field of the action space. *)
Lemma action_undeclared_field_witness :
  _process_action ex_repr (Some ex_action_space)
                  [("forward", PInt 1); ("jump", PInt 1); ("camera", PStr "left")]
  = Raise KeyError.
Proof.
  apply (action_undeclared_field ex_repr ex_action_space
           [("forward", PInt 1)] [("camera", PStr "left")]
           "jump" (PInt 1) ["forward go"]); reflexivity.
Defined.

(** The index -1 is the last value, [go]; the index 2 is out of range. *)
Lemma enum_index_wraps_witness :
  _process_action ex_repr (Some ex_action_space) [("forward", PInt (-1))]
  = Ret "forward go"
  /\ _process_action ex_repr (Some ex_action_space) [("forward", PInt 2)]
     = Raise IndexError.
Proof.
  destruct (enum_index_wraps ex_repr ex_action_space [] [] "forward"
              ["none"; "go"] (-1) [] [] eq_refl eq_refl) as [Hin _].
  destruct (enum_index_wraps ex_repr ex_action_space [] [] "forward"
              ["none"; "go"] 2 [] [] eq_refl eq_refl) as [_ Hout].
  split.
  - apply Hin; [simpl; lia | reflexivity].
  - apply Hout. right. simpl. lia.
Defined.

(** A string for the box [camera] on a running session: nothing is sent. *)
Lemma step_refuses_before_sending_witness :
  step ex_repr ex_json_loads [("camera", PStr "left")]
       (ex_world (ex_env (Some 3%nat) false 0) [] [(3%nat, [pkt ex_frame])])
  = (Raise AssertionError,
     ex_world (ex_env (Some 3%nat) false 0) [] [(3%nat, [pkt ex_frame])]).
Proof.
  apply (step_refuses_before_sending ex_repr ex_json_loads
           [("camera", PStr "left")]
           (ex_world (ex_env (Some 3%nat) false 0) [] [(3%nat, [pkt ex_frame])])
           0 AssertionError); reflexivity.
Defined.

(** Twelve bytes make a 2 x 2 x 3 frame, three bytes do not. *)
Lemma decode_pov_frame_witness :
  decode_pov 2 2 3 (Some ex_frame)
  = Ret (PArr [2; 2; 3] [97; 98; 99; 100; 101; 102; 103; 104; 105; 106; 107; 108])
  /\ decode_pov 2 2 3 (Some "abc") = Raise ValueError.
Proof.
  assert (H2 : 0 <= 2) by lia. assert (H3 : 0 <= 3) by lia.
  assert (Hf : ex_frame <> "") by discriminate.
  assert (Ha : "abc" <> "") by discriminate.
  split.
  - apply (proj1 (decode_pov_frame 2 2 3 ex_frame H2 H2 H3 Hf)). reflexivity.
  - apply (proj2 (decode_pov_frame 2 2 3 "abc" H2 H2 H3 Ha)). discriminate.
Defined.

(** A step with options 2: the step request, then the observation, the
    reply and the info; the held key [tk0] stays. *)
Lemma step_without_turn_key_witness :
  exists w',
    step ex_repr ex_json_loads [("forward", PInt 1)]
      (ex_world (ex_env (Some 3%nat) false 2) []
         [(3%nat, [pkt ex_frame; pkt ex_step_reply; pkt ex_payload])])
    = (Ret ([("pov", PArr [2; 2; 3]
                       [97; 98; 99; 100; 101; 102; 103; 104; 105; 106; 107; 108]);
             ("compassAngle", PInt 5)],
            Some (substring 0 8 ex_step_reply), false, []), w')
    /\ turn_key (self w') = "tk0"
    /\ trace w' = [EvRecv 3 ex_payload; EvRecv 3 ex_step_reply; EvRecv 3 ex_frame;
                   EvSend 3 (ReqStep "2" "forward go")].
Proof.
  destruct (step_without_turn_key ex_repr ex_json_loads [("forward", PInt 1)]
              (ex_world (ex_env (Some 3%nat) false 2) []
                 [(3%nat, [pkt ex_frame; pkt ex_step_reply; pkt ex_payload])])
              3%nat 2 "forward go" (pkt ex_frame) (pkt ex_step_reply)
              [pkt ex_payload] (Some ex_payload) []
              (substring 0 8 ex_step_reply) 0 1
              [("pov", PArr [2; 2; 3]
                         [97; 98; 99; 100; 101; 102; 103; 104; 105; 106; 107; 108]);
               ("compassAngle", PInt 5)]
              ex_rng)
    as (w' & Hrun & _ & Hkey & _ & Ht);
    try reflexivity.
  - exists (pkt ex_payload), ex_payload. repeat split.
  - exists w'. split; [exact Hrun|]. split; [exact Hkey | exact Ht].
Defined.

(** Two stacks of dirt, one of stone, one of sand (not declared) and a
    stack without a type: 7 dirt and 2 stone. *)
Lemma inventory_totals_witness :
  exists d,
    fold_inventory (Some ex_inventory_space)
      (PDict [("inventory",
               PList [ex_stack "dirt" 3; ex_stack "stone" 2; ex_stack "dirt" 4;
                      ex_stack "sand" 9; PDict [("quantity", PInt 1)]])])
    = Ret (PDict [("inventory", PDict d)])
    /\ keys d = ["dirt"; "stone"]
    /\ assoc "dirt" d = Some (PInt 7)
    /\ assoc "stone" d = Some (PInt 2).
Proof.
  destruct (inventory_totals ex_inventory_space
              [("dirt", Box 0 2304 []); ("stone", Box 0 2304 [])]
              [("inventory",
                PList [ex_stack "dirt" 3; ex_stack "stone" 2; ex_stack "dirt" 4;
                       ex_stack "sand" 9; PDict [("quantity", PInt 1)]])]
              [ex_stack "dirt" 3; ex_stack "stone" 2; ex_stack "dirt" 4;
               ex_stack "sand" 9; PDict [("quantity", PInt 1)]]
              eq_refl eq_refl eq_refl)
    as (d & Hrun & Hk & Hv).
  exists d. split; [exact Hrun|]. split; [exact Hk|]. split.
  - apply (Hv "dirt"). left. reflexivity.
  - apply (Hv "stone"). right. left. reflexivity.
Defined.

(** The payload holds [XPos], which the space does not declare: it is not
    in the observation. *)
Lemma decode_drops_undeclared_witness :
  exists obs g',
    _process_observation ex_json_loads_more 2 2 3 (Some ex_flat_space)
                         (Some ex_frame) (Some "{}") ex_rng = (Ret obs, g')
    /\ assoc "compassAngle" obs = Some (PInt 5)
    /\ assoc "XPos" obs = None.
Proof.
  exists [("pov", PArr [2; 2; 3]
                    [97; 98; 99; 100; 101; 102; 103; 104; 105; 106; 107; 108]);
          ("compassAngle", PInt 5)], ex_rng.
  assert (Hrun :
    _process_observation ex_json_loads_more 2 2 3 (Some ex_flat_space)
                         (Some ex_frame) (Some "{}") ex_rng
    = (Ret [("pov", PArr [2; 2; 3]
                      [97; 98; 99; 100; 101; 102; 103; 104; 105; 106; 107; 108]);
            ("compassAngle", PInt 5)], ex_rng)) by reflexivity.
  split; [exact Hrun|]. split; [reflexivity|].
  apply (decode_drops_undeclared ex_json_loads_more 2 2 3 ex_flat_space
           (Some ex_frame) (Some "{}") ex_rng _ ex_rng "XPos" Hrun).
  split; [discriminate|]. split.
  - simpl. intros [H | [H | []]]; discriminate H.
  - intros k fields Hin. simpl in Hin.
    destruct Hin as [H | [H | []]]; discriminate H.
Defined.

(** The template of [plain.xml]: the XML declaration is cut off. *)
Lemma locate_mission_cuts_at_marker_witness :
  String.prefix "<Mission" ex_plain_text = true
  /\ exists before,
      ("<?xml?>" ++ ex_plain_text)%string = (before ++ ex_plain_text)%string
      /\ forall j, (j < String.length before)%nat ->
           substring j 8 ("<?xml?>" ++ ex_plain_text) <> "<Mission".
Proof.
  apply (locate_mission_cuts_at_marker ("<?xml?>" ++ ex_plain_text) ex_plain_text).
  reflexivity.
Defined.
(** [init] on the plain mission, with the options 1 and the id [uid]. *)
Lemma init_sets_up_session_witness :
  exists w',
    init ex_fromstring ex_missions_dir ex_flat_space ex_action_space
         (Some "uid") 7 None 3 None (ex_world (ex_fresh "plain.xml") [] [])
    = (Ret tt, w')
    /\ has_init (self w') = true
    /\ step_options (self w') = Some 0
    /\ resets (self w') = 7
    /\ exp_uid (self w') = "uid"
    /\ trace w' = [].
Proof.
  exists (snd (init ex_fromstring ex_missions_dir ex_flat_space ex_action_space
                    (Some "uid") 7 None 3 None
                    (ex_world (ex_fresh "plain.xml") [] []))).
  assert (Hrun :
    init ex_fromstring ex_missions_dir ex_flat_space ex_action_space
         (Some "uid") 7 None 3 None (ex_world (ex_fresh "plain.xml") [] [])
    = (Ret tt,
       snd (init ex_fromstring ex_missions_dir ex_flat_space ex_action_space
                 (Some "uid") 7 None 3 None
                 (ex_world (ex_fresh "plain.xml") [] []))))
    by (vm_compute; reflexivity).
  split; [exact Hrun|].
  destruct (init_sets_up_session ex_fromstring ex_missions_dir
              ex_flat_space ex_action_space (Some "uid") 7 None 3 None
              (ex_world (ex_fresh "plain.xml") [] []) _ Hrun)
    as (Hinit & _ & _ & Hopt & _ & Hres & _ & Huid & _ & _ & Ht & _).
  split; [exact Hinit|]. split; [exact Hopt|]. split; [exact Hres|].
  split; [exact Huid | exact Ht].
Defined.

(** A mission with two video producers. *)
Lemma init_counts_video_producers_witness :
  exists w',
    init ex_fromstring_two ex_missions_dir ex_flat_space ex_action_space
         None 0 None 0 (Some 0) (ex_world (ex_fresh "plain.xml") [] [])
    = (Raise AssertionError, w')
    /\ has_init (self w') = false
    /\ trace w' = [].
Proof.
  apply (init_counts_video_producers ex_fromstring_two ex_missions_dir
           ex_flat_space ex_action_space None 0 None 0 (Some 0)
           (ex_world (ex_fresh "plain.xml") [] [])
           ("<?xml?>" ++ ex_plain_text) ex_plain_text
           (ex_mission [ex_video "false"; ex_video "true"])
           (ex_intro _ ex_instance eq_refl) eq_refl eq_refl eq_refl eq_refl).
  vm_compute. discriminate.
Defined.

(** The plain mission: a frame of 2 x 2 with the depth 3. *)
Lemma init_reads_geometry_witness :
  exists w',
    init ex_fromstring ex_missions_dir ex_flat_space ex_action_space
         None 0 None 0 (Some 0) (ex_world (ex_fresh "plain.xml") [] [])
    = (Ret tt, w')
    /\ (width (self w') = 2 /\ height (self w') = 2 /\ depth (self w') = 3)
    /\ has_init (self w') = true.
Proof.
  destruct (init_reads_geometry ex_fromstring ex_missions_dir
              ex_flat_space ex_action_space None 0 None 0 (Some 0)
              (ex_world (ex_fresh "plain.xml") [] [])
              ("<?xml?>" ++ ex_plain_text) ex_plain_text
              (ex_mission [ex_video "false"]) (ex_video "false")
              (leaf (ns ++ "Width") "2") (leaf (ns ++ "Height") "2")
              2 2 "false"
              (ex_intro _ ex_instance eq_refl) eq_refl eq_refl eq_refl eq_refl
              eq_refl eq_refl eq_refl eq_refl eq_refl eq_refl)
    as (w' & Hrun & Hgeo & Hinit & _).
  exists w'. split; [exact Hrun|]. split; [exact Hgeo | exact Hinit].
Defined.


(** [exit] is refused, the head and the node answer: the socket 3 is
    forgotten and the session is still running. *)
Lemma exit_resync_forgets_socket_witness :
  exists w',
    exit_resync
      (ex_world (ex_env (Some 3%nat) false 0)
         [Refused; Accepted [pkt "ok"]; Accepted [pkt "ok"]] [(3%nat, [])])
    = (Ret tt, w')
    /\ client_socket (self w') = None
    /\ done (self w') = false.
Proof.
  exists (snd (exit_resync
                 (ex_world (ex_env (Some 3%nat) false 0)
                    [Refused; Accepted [pkt "ok"]; Accepted [pkt "ok"]]
                    [(3%nat, [])]))).
  assert (Hrun :
    exit_resync
      (ex_world (ex_env (Some 3%nat) false 0)
         [Refused; Accepted [pkt "ok"]; Accepted [pkt "ok"]] [(3%nat, [])])
    = (Ret tt,
       snd (exit_resync
              (ex_world (ex_env (Some 3%nat) false 0)
                 [Refused; Accepted [pkt "ok"]; Accepted [pkt "ok"]]
                 [(3%nat, [])]))))
    by (vm_compute; reflexivity).
  split; [exact Hrun|].
  destruct (exit_resync_forgets_socket _ _ _ Hrun) as (Hs & Hd & _).
  split; [exact Hs | exact Hd].
Defined.

(** A resync period of 1 and a running episode: the reset ends on the
    first quit request, with [AttributeError]. *)
Lemma reset_after_resync_has_no_socket_witness :
  exists w1,
    exit_resync
      (ex_world (set_resync_period 1 (ex_env (Some 3%nat) false 0))
         [Refused; Accepted [pkt "ok"]; Accepted [pkt "ok"]]
         [(3%nat, [pkt ex_status_1])])
    = (Ret tt, w1)
    /\ reset ex_json_loads 2 10000 5
         (ex_world (set_resync_period 1 (ex_env (Some 3%nat) false 0))
            [Refused; Accepted [pkt "ok"]; Accepted [pkt "ok"]]
            [(3%nat, [pkt ex_status_1])])
       = (Raise AttributeError, w1).
Proof.
  exists (snd (exit_resync
                 (ex_world (set_resync_period 1 (ex_env (Some 3%nat) false 0))
                    [Refused; Accepted [pkt "ok"]; Accepted [pkt "ok"]]
                    [(3%nat, [pkt ex_status_1])]))).
  assert (Hrun :
    exit_resync
      (ex_world (set_resync_period 1 (ex_env (Some 3%nat) false 0))
         [Refused; Accepted [pkt "ok"]; Accepted [pkt "ok"]]
         [(3%nat, [pkt ex_status_1])])
    = (Ret tt,
       snd (exit_resync
              (ex_world (set_resync_period 1 (ex_env (Some 3%nat) false 0))
                 [Refused; Accepted [pkt "ok"]; Accepted [pkt "ok"]]
                 [(3%nat, [pkt ex_status_1])]))))
    by (vm_compute; reflexivity).
  split; [exact Hrun|].
  assert (Hfuel : (0 < 5)%nat) by lia.
  exact (proj1 (reset_after_resync_has_no_socket ex_json_loads 2 10000 5
                  (ex_world (set_resync_period 1 (ex_env (Some 3%nat) false 0))
                     [Refused; Accepted [pkt "ok"]; Accepted [pkt "ok"]]
                     [(3%nat, [pkt ex_status_1])])
                  _ eq_refl eq_refl eq_refl Hfuel) Hrun).
Defined.

(** One round turned down, one accepted: the key [tk1] is held, a second
    has passed in a pause, and the frame behind is unread. *)
Lemma init_mission_handshake_witness :
  exists w',
    _init_mission 5
      (ex_world (ex_env (Some 3%nat) true 0) []
         [(3%nat, [pkt ex_status_0; pkt "tk-a"; pkt ex_status_1; pkt "tk1";
                   pkt ex_frame])])
    = (Ret tt, w')
    /\ self w' = set_turn_key "tk1" (ex_env (Some 3%nat) true 0)
    /\ sock_lookup 3 (socks w') = Some [pkt ex_frame]
    /\ clock w' = 1020.
Proof.
  destruct (init_mission_handshake
              [(pkt ex_status_0, pkt "tk-a")] 5
              (ex_world (ex_env (Some 3%nat) true 0) []
                 [(3%nat, [pkt ex_status_0; pkt "tk-a"; pkt ex_status_1;
                           pkt "tk1"; pkt ex_frame])])
              3%nat mission_init_skeleton (pkt ex_status_1, pkt "tk1")
              [pkt ex_frame] "tk1" eq_refl eq_refl eq_refl)
    as (w' & Hrun & Hself & _ & Hq & Hc); try reflexivity.
  - constructor; [|constructor].
    split; [exists 0; split; [reflexivity | discriminate] | exists "tk-a"; reflexivity].
  - simpl. lia.
  - exists w'. split; [exact Hrun|]. split; [exact Hself|].
    split; [exact Hq | exact Hc].
Defined.

(** One answer without a port, then the port 10000. *)
Lemma find_server_finds_witness :
  exists w',
    _find_server 5
      (ex_world (ex_env (Some 3%nat) true 0)
         [Accepted [pkt ex_status_0; pkt ex_port]] [(3%nat, [])])
    = (Ret tt, w')
    /\ integratedServerPort (self w') = 10000
    /\ client_socket (self w') = Some 3%nat
    /\ sock_lookup 4 (socks w') = None.
Proof.
  destruct (find_server_finds [pkt ex_status_0] 5
              (ex_world (ex_env (Some 3%nat) true 0)
                 [Accepted [pkt ex_status_0; pkt ex_port]] [(3%nat, [])])
              ex_instance mission_init_skeleton (pkt ex_port) [] [] 10000
              eq_refl eq_refl eq_refl)
    as (w' & Hrun & Hport & Hsock & _ & Hclosed & _); try reflexivity.
  - constructor; [|constructor]. split; [reflexivity | simpl; lia].
  - discriminate.
  - vm_compute. discriminate.
  - simpl. lia.
  - exists w'. split; [exact Hrun|]. split; [exact Hport|].
    split; [exact Hsock | exact Hclosed].
Defined.

(** An answer without a port that comes after 200 seconds. *)
Lemma find_server_gives_up_witness :
  exists w',
    _find_server 5
      (ex_world (ex_env (Some 3%nat) true 0) [Accepted [ex_late]] [(3%nat, [])])
    = (Raise (MissionInitException "too long finding mission to join"), w')
    /\ client_socket (self w') = None
    /\ sock_lookup 4 (socks w') = Some [].
Proof.
  destruct (find_server_gives_up [] 5
              (ex_world (ex_env (Some 3%nat) true 0) [Accepted [ex_late]]
                 [(3%nat, [])])
              ex_instance ex_late [] [] eq_refl eq_refl)
    as (w' & Hrun & Hnone & _ & Hleft); try reflexivity.
  - constructor.
  - vm_compute. discriminate.
  - simpl. lia.
  - exists w'. split; [exact Hrun|]. split; [exact Hnone|].
    apply Hleft. discriminate.
Defined.

(** A frame is there at the first peek: no pause, and what the peer sends
    next is unread. *)
Lemma peek_obs_frame_witness :
  exists w',
    _peek_obs ex_json_loads
      (ex_world (ex_env (Some 3%nat) false 0) []
         [(3%nat, [pkt ex_frame; pkt ex_payload; pkt ex_flag_0; pkt "more"])])
    = (Ret ([("pov", PArr [2; 2; 3]
                       [97; 98; 99; 100; 101; 102; 103; 104; 105; 106; 107; 108]);
             ("compassAngle", PInt 5)], []), w')
    /\ self w' = ex_env (Some 3%nat) false 0
    /\ trace w' = [EvRecv 3 ex_flag_0; EvRecv 3 ex_payload; EvRecv 3 ex_frame;
                   EvSend 3 ReqPeek]
    /\ sock_lookup 3 (socks w') = Some [pkt "more"].
Proof.
  assert (Hfull : payload (pkt ex_frame) <> "") by discriminate.
  destruct (peek_obs_frame ex_json_loads
              (ex_world (ex_env (Some 3%nat) false 0) []
                 [(3%nat, [pkt ex_frame; pkt ex_payload; pkt ex_flag_0;
                           pkt "more"])])
              3%nat (pkt ex_frame) (pkt ex_payload) (pkt ex_flag_0) [pkt "more"]
              ex_payload 0
              [("pov", PArr [2; 2; 3]
                         [97; 98; 99; 100; 101; 102; 103; 104; 105; 106; 107; 108]);
               ("compassAngle", PInt 5)]
              ex_rng eq_refl eq_refl eq_refl Hfull eq_refl eq_refl eq_refl)
    as (w' & Hrun & Hself & Ht & Hq & _).
  exists w'. split; [exact Hrun|]. split; [exact Hself|].
  split; [exact Ht | exact Hq].
Defined.

(** Two attempts allowed and the connection refused twice: one attempt
    leaves the counter at 1, the start-up at 1 or 2. *)
Lemma start_up_counts_attempts_witness :
  resets (self (snd (start_up_body ex_json_loads 5
                       (ex_world (ex_env None true 0) [Refused; Refused] []))))
  = 1
  /\ exists made,
      resets (self (snd (_start_up ex_json_loads 2 10000 5
                           (ex_world (ex_env None true 0) [Refused; Refused] []))))
      = Z.of_nat made
      /\ (made <= 2)%nat.
Proof.
  split.
  - apply (proj1 (start_up_counts_attempts ex_json_loads 2 10000 5
                    (ex_world (ex_env None true 0) [Refused; Refused] [])
                    (fst (start_up_body ex_json_loads 5
                            (ex_world (ex_env None true 0) [Refused; Refused] [])))
                    (snd (start_up_body ex_json_loads 5
                            (ex_world (ex_env None true 0) [Refused; Refused] []))))).
    apply surjective_pairing.
  - destruct (proj2 (start_up_counts_attempts ex_json_loads 2 10000 5
                       (ex_world (ex_env None true 0) [Refused; Refused] [])
                       (fst (_start_up ex_json_loads 2 10000 5
                               (ex_world (ex_env None true 0) [Refused; Refused] [])))
                       (snd (_start_up ex_json_loads 2 10000 5
                               (ex_world (ex_env None true 0) [Refused; Refused] []))))
                    (surjective_pairing _))
      as (made & Hr & Hle & _).
    exists made. split; [exact Hr | exact Hle].
Defined.

(** A reset of a done session without a socket: the episode 1 starts with
    the key [tk1] on the socket 4. *)
Lemma reset_starts_episode_witness :
  exists w',
    reset ex_json_loads 2 10000 5
      (ex_world (ex_env None true 0)
         [Accepted [pkt ex_status_1; pkt "tk1"; pkt ex_frame; pkt ex_payload;
                    pkt ex_flag_0]] [])
    = (Ret ([("pov", PArr [2; 2; 3]
                       [97; 98; 99; 100; 101; 102; 103; 104; 105; 106; 107; 108]);
             ("compassAngle", PInt 5)], []), w')
    /\ resets (self w') = 1
    /\ turn_key (self w') = "tk1"
    /\ done (self w') = false
    /\ client_socket (self w') = Some 4%nat.
Proof.
  assert (Hfull : payload (pkt ex_frame) <> "") by discriminate.
  assert (Hfuel : (0 < 5)%nat) by lia.
  assert (Hretry : (0 < 2)%nat) by lia.
  destruct (reset_starts_episode ex_json_loads 2 10000 5
              (ex_world (ex_env None true 0)
                 [Accepted [pkt ex_status_1; pkt "tk1"; pkt ex_frame;
                            pkt ex_payload; pkt ex_flag_0]] [])
              ex_instance mission_init_skeleton
              (pkt ex_status_1) (pkt "tk1") (pkt ex_frame) (pkt ex_payload)
              (pkt ex_flag_0) [] [] "tk1" ex_payload 0
              [("pov", PArr [2; 2; 3]
                         [97; 98; 99; 100; 101; 102; 103; 104; 105; 106; 107; 108]);
               ("compassAngle", PInt 5)]
              ex_rng eq_refl eq_refl eq_refl eq_refl eq_refl eq_refl eq_refl
              eq_refl eq_refl eq_refl Hfull eq_refl eq_refl eq_refl Hfuel Hretry)
    as (w' & Hrun & Hres & Hkey & Hdone & Hsock & _).
  exists w'. split; [exact Hrun|]. split; [exact Hres|]. split; [exact Hkey|].
  split; [exact Hdone | exact Hsock].
Defined.
